(** * Annotated TEI export of readux: [readux/books/annotate.py]

    A shallow embedding of [annotated_tei], [annotation_to_tei],
    [html_xpath_to_tei], [insert_note] and [insert_anchor], and the
    properties of the export that can be stated over it.

    Modelling conventions.
    - An lxml element is a value of [Element] (tag, attributes, text,
      children, tail).  A Python reference to a node of the document is a
      location [Loc] (child indexes from the root); the references a
      function keeps across an insertion are moved with [relocate], which
      is what object identity gives in lxml.
    - Python [float] values are binary64 numbers, the primitive [float]
      of the Standard Library: every operation rounds as the hardware
      does.
    - Exceptions are explicit: [result] for functions that raise before
      they mutate anything, [Outcome] (which keeps the state reached) for
      the functions that mutate the document.
    - lxml's XPath engine, Django's [slugify], the markdown converter and
      the other collaborators are parameters of the development. *)

From Stdlib Require Import Ascii String ZArith Lia Floats Uint63.
From stdpp Require Import base option list strings gmap.

Set Warnings "-register-all,-clear-no-such-hyp".

Local Open Scope string_scope.
Local Open Scope list_scope.

(** ** Python strings *)

Module Py.

Fixpoint str_take (n : nat) (s : string) : string :=
  match n, s with
  | S k, String c s' => String c (str_take k s')
  | _, _ => EmptyString
  end.

Fixpoint str_drop (n : nat) (s : string) : string :=
  match n, s with
  | S k, String _ s' => str_drop k s'
  | _, _ => s
  end.

(** Position of a slice bound [o] in a sequence of length [len]: negative
    bounds count from the end, and every bound is cut to [0, len]. *)
Definition slice_bound (len : nat) (o : Z) : nat :=
  Z.to_nat (if (o <? 0)%Z then Z.max 0 (Z.of_nat len + o) else Z.min o (Z.of_nat len)).

(** [s[:o]] *)
Definition slice_to (s : string) (o : Z) : string :=
  str_take (slice_bound (String.length s) o) s.

(** [s[o:]] *)
Definition slice_from (s : string) (o : Z) : string :=
  str_drop (slice_bound (String.length s) o) s.

(** [len(s)] *)
Definition len (s : string) : Z := Z.of_nat (String.length s).

Fixpoint starts_with (p s : string) : bool :=
  match p, s with
  | EmptyString, _ => true
  | String a p', String b s' => if Ascii.eqb a b then starts_with p' s' else false
  | String _ _, EmptyString => false
  end.

(** [old in s] for strings *)
Fixpoint contains (old s : string) : bool :=
  starts_with old s ||
  match s with
  | EmptyString => false
  | String _ s' => contains old s'
  end.

(** [s.replace(old, new)] for a non-empty [old]: occurrences are replaced
    from the left and do not overlap.  [skip] counts the characters of an
    occurrence that are still to be passed over. *)
Fixpoint replace_from (old new : string) (skip : nat) (s : string) : string :=
  match s with
  | EmptyString => EmptyString
  | String c s' =>
      match skip with
      | S k => replace_from old new k s'
      | O =>
          if starts_with old s
          then new +:+ replace_from old new (String.length old - 1) s'
          else String c (replace_from old new 0 s')
      end
  end.

Definition replace (old new s : string) : string := replace_from old new 0 s.

(** The characters [strip()] removes from a text string.  A character of
    a [string] is a code point below 256; the white space there is
    U+0009 to U+000D, U+001C to U+001F, U+0020, U+0085 and U+00A0. *)
Definition is_space (c : ascii) : bool :=
  let n := nat_of_ascii c in
  ((9 <=? n)%nat && (n <=? 13)%nat) || ((28 <=? n)%nat && (n <=? 32)%nat)
  || (n =? 133)%nat || (n =? 160)%nat.

Fixpoint lstrip_by (f : ascii -> bool) (s : string) : string :=
  match s with
  | String c s' => if f c then lstrip_by f s' else s
  | EmptyString => EmptyString
  end.

(** Characters are dropped from the right end while [f] holds. *)
Fixpoint rstrip_by (f : ascii -> bool) (s : string) : string :=
  match s with
  | EmptyString => EmptyString
  | String c s' =>
      match rstrip_by f s' with
      | EmptyString => if f c then EmptyString else String c EmptyString
      | r => String c r
      end
  end.

(** [s.strip()] *)
Definition strip (s : string) : string := rstrip_by is_space (lstrip_by is_space s).

(** [s.rstrip('%')] *)
Definition rstrip_percent (s : string) : string :=
  rstrip_by (fun c => Ascii.eqb c "%"%char) s.

(** [sep.join(l)] *)
Fixpoint join (sep : string) (l : list string) : string :=
  match l with
  | [] => EmptyString
  | [x] => x
  | x :: rest => x +:+ sep +:+ join sep rest
  end.

(** [x or default] for strings: the empty string is false. *)
Definition or_default (x default : string) : string :=
  match x with
  | EmptyString => default
  | _ => x
  end.

End Py.

(** ** Exceptions *)

Inductive Exn : Type :=
  | TypeError
  | ValueError
  | UnboundLocalError
  | ConversionError
  | XMLSyntaxError.

Inductive result (A : Type) : Type :=
  | Ok (a : A)
  | Err (e : Exn).
Arguments Ok {A} a.
Arguments Err {A} e.

(** ** lxml elements *)

Inductive AttrVal : Type :=
  | AStr (s : string)
  | ANum (q : float).

Inductive Element : Type :=
  | Elem (tag : string) (attrib : list (string * AttrVal))
         (text : option string) (children : list Element)
         (tail : option string).

Definition el_tag (e : Element) : string := let 'Elem t _ _ _ _ := e in t.
Definition el_attrib (e : Element) : list (string * AttrVal) := let 'Elem _ a _ _ _ := e in a.
Definition el_text (e : Element) : option string := let 'Elem _ _ x _ _ := e in x.
Definition el_children (e : Element) : list Element := let 'Elem _ _ _ c _ := e in c.
Definition el_tail (e : Element) : option string := let 'Elem _ _ _ _ t := e in t.

Definition set_text (x : option string) (e : Element) : Element :=
  let 'Elem t a _ c tl := e in Elem t a x c tl.
Definition set_children (c : list Element) (e : Element) : Element :=
  let 'Elem t a x _ tl := e in Elem t a x c tl.
Definition set_tail (tl : option string) (e : Element) : Element :=
  let 'Elem t a x c _ := e in Elem t a x c tl.

Fixpoint attr_get (k : string) (a : list (string * AttrVal)) : option AttrVal :=
  match a with
  | [] => None
  | (k', v) :: rest => if String.eqb k k' then Some v else attr_get k rest
  end.

Definition attr_str (k : string) (e : Element) : option string :=
  match attr_get k (el_attrib e) with
  | Some (AStr s) => Some s
  | _ => None
  end.

Definition attr_num (k : string) (e : Element) : option float :=
  match attr_get k (el_attrib e) with
  | Some (ANum q) => Some q
  | _ => None
  end.

(** A reference to a node: the child indexes on the way from the root. *)
Definition Loc : Type := list nat.

Fixpoint get (e : Element) (l : Loc) : option Element :=
  match l with
  | [] => Some e
  | i :: rest =>
      match el_children e !! i with
      | Some c => get c rest
      | None => None
      end
  end.

(** [modify f l e] applies [f] to the node at [l]; the tree is returned as
    it is when [l] names no node. *)
Fixpoint modify (f : Element -> Element) (l : Loc) (e : Element) : Element :=
  match l with
  | [] => f e
  | i :: rest =>
      match el_children e !! i with
      | Some c => set_children (<[i := modify f rest c]> (el_children e)) e
      | None => e
      end
  end.

Definition insert_at {A} (i : nat) (x : A) (l : list A) : list A :=
  take i l ++ x :: drop i l.

(** Parent and index of a location; the root has none. *)
Fixpoint split_last (l : Loc) : option (Loc * nat) :=
  match l with
  | [] => None
  | [i] => Some ([], i)
  | j :: rest =>
      match split_last rest with
      | Some (p, i) => Some (j :: p, i)
      | None => None
      end
  end.

(** An insertion of one node as child [ins_index] of the node at
    [ins_parent]. *)
Record Insertion : Type := MkIns { ins_parent : Loc; ins_index : nat }.

Definition ins_loc (ins : Insertion) : Loc := ins_parent ins ++ [ins_index ins].

(** Where a node that was at [l] is after a node was inserted as child [k]
    of the node at [p]. *)
Fixpoint relocate_at (p : Loc) (k : nat) (l : Loc) : Loc :=
  match p, l with
  | [], j :: rest => if (k <=? j)%nat then S j :: rest else l
  | i :: p', j :: rest => if (i =? j)%nat then j :: relocate_at p' k rest else l
  | _, [] => []
  end.

Definition relocate (ins : Insertion) (l : Loc) : Loc :=
  relocate_at (ins_parent ins) (ins_index ins) l.

Definition relocate_all (trail : list Insertion) (l : Loc) : Loc :=
  fold_left (fun l' ins => relocate ins l') trail l.

(** ** insert_anchor *)

(** [element.addprevious(anchor)]: lxml refuses an element as a sibling of
    the root. *)
Definition addprevious (doc : Element) (element : Loc) (anchor : Element)
  : result (Element * Insertion) :=
  match split_last element with
  | None => Err TypeError
  | Some (p, i) =>
      Ok (modify (fun e => set_children (insert_at i anchor (el_children e)) e) p doc,
          MkIns p i)
  end.

(** [element.addnext(anchor)]: the new sibling follows the element and the
    element's tail. *)
Definition addnext (doc : Element) (element : Loc) (anchor : Element)
  : result (Element * Insertion) :=
  match split_last element with
  | None => Err TypeError
  | Some (p, i) =>
      Ok (modify (fun e => set_children (insert_at (S i) anchor (el_children e)) e) p doc,
          MkIns p (S i))
  end.

Definition insert_anchor (doc : Element) (element : Loc) (anchor : Element) (offset : Z)
  : result (Element * Insertion) :=
  match get doc element with
  | None => Err TypeError
  | Some el =>
      if (offset =? 0)%Z then
        (* offset zero - insert directly before this element *)
        addprevious doc element anchor
      else
        match el_text el with
        | None => Err TypeError              (* len(None) *)
        | Some t =>
            if (Py.len t <=? offset)%Z then
              (* offset at end of this element - insert directly after *)
              addnext doc element anchor
            else
              (* offset somewhere inside the text of this element *)
              Ok (modify (fun e =>
                            set_text (Some (Py.slice_to t offset))
                              (set_children
                                 (set_tail (Some (Py.slice_from t offset)) anchor
                                  :: el_children e) e))
                         element doc,
                  MkIns element 0%nat)
        end
  end.

(** ** Document order *)

(** The document read in document order: the start of every element, and
    the characters of text and tail. *)
Inductive Token : Type :=
  | TElem (tag : string) (attrib : list (string * AttrVal))
  | TChar (c : ascii).

Definition chars (s : option string) : list Token :=
  match s with
  | Some x => map TChar (list_ascii_of_string x)
  | None => []
  end.

Fixpoint tokens (e : Element) : list Token :=
  match e with
  | Elem tag attrib text children tail =>
      TElem tag attrib :: chars text ++ flat_map tokens children ++ chars tail
  end.

Definition is_char (t : Token) : bool :=
  match t with
  | TChar _ => true
  | TElem _ _ => false
  end.

(** The text of the document, every element read as zero-width. *)
Definition text_content (e : Element) : list Token := filter is_char (tokens e).

(** ** Data model *)

Record User : Type := MkUser { username : string; full_name : string }.

#[global] Instance User_eq_dec : EqDecision User.
Proof. solve_decision. Defined.

Record Range : Type := MkRange {
  range_start : string;
  range_startOffset : Z;
  range_end : string;
  range_endOffset : Z }.

Record ImageSelection : Type := MkImageSelection {
  sel_x : string;
  sel_y : string;
  sel_w : string;
  sel_h : string }.

(** Modelled from the spec: the annotation record of
    [readux.annotation.models], which is not among the sources.  The fields
    are the ones [annotate.py] reads; [ann_ranges], [ann_image_selection]
    and [ann_tags] are the entries of [info()] ([None]: the key is absent);
    [ann_extra_data_text] is the stored text of [extra_data], which the
    query [extra_data__contains] searches, and [ann_ark] is
    [extra_data.get('ark')]. *)
Record Annotation : Type := MkAnnotation {
  ann_id : string;
  ann_uri : string;
  ann_text : string;
  ann_user : option User;
  ann_absolute_url : string;
  ann_extra_data_text : string;
  ann_ark : option string;
  ann_ranges : option (list Range);
  ann_image_selection : option ImageSelection;
  ann_tags : option (list string);
  ann_related_pages : list string }.

Record Ref : Type := MkRef {
  ref_text : string;
  ref_type : string;
  ref_target : option string }.

(** Modelled from the spec: [tei.Note], [tei.Interp], [tei.Name] and the
    fields of [tei.AnnotatedFacsimile] ([readux.books.tei] is not among
    the sources), as the records the spec's data model describes. *)
Record Note : Type := MkNote {
  note_node : Element;
  note_id : string;
  note_href : string;
  note_type : string;
  note_ana : option string;
  note_resp : option string;
  note_markdown : string;
  note_related_pages : list Ref;
  note_target : option string }.

Record Interp : Type := MkInterp { interp_id : string; interp_value : string }.

Record Name : Type := MkName { name_id : string; name_value : string }.

Record PubStmt : Type := MkPubStmt {
  pub_desc : option string;
  pub_date : option string;
  pub_date_normal : option string }.

Record Volume : Type := MkVolume {
  vol_title : option string;
  vol_main_title : option string;
  vol_subtitle : option string;
  vol_responsibility : option string;
  vol_responsible_names : list Name;
  vol_pubstmt : option PubStmt;
  vol_facsimile : Element;
  vol_annotations : list Note;
  vol_tags : option (list Interp) }.

(** The document and the warnings logged so far. *)
Record State : Type := MkState { st_vol : Volume; st_log : list string }.

Definition set_facsimile (doc : Element) (v : Volume) : Volume :=
  MkVolume (vol_title v) (vol_main_title v) (vol_subtitle v) (vol_responsibility v)
    (vol_responsible_names v) (vol_pubstmt v) doc (vol_annotations v) (vol_tags v).

Definition append_annotation (n : Note) (v : Volume) : Volume :=
  MkVolume (vol_title v) (vol_main_title v) (vol_subtitle v) (vol_responsibility v)
    (vol_responsible_names v) (vol_pubstmt v) (vol_facsimile v) (vol_annotations v ++ [n]) (vol_tags v).

Definition set_tags (t : option (list Interp)) (v : Volume) : Volume :=
  MkVolume (vol_title v) (vol_main_title v) (vol_subtitle v) (vol_responsibility v)
    (vol_responsible_names v) (vol_pubstmt v) (vol_facsimile v) (vol_annotations v) t.

Definition with_volume (f : Volume -> Volume) (st : State) : State :=
  MkState (f (st_vol st)) (st_log st).

Definition warn (msg : string) (st : State) : State :=
  MkState (st_vol st) (st_log st ++ [msg]).

(** What a function that mutates the document ends with: a value, or an
    exception; both with the state reached. *)
Inductive Outcome (A : Type) : Type :=
  | Done (st : State) (a : A)
  | Raised (e : Exn) (st : State).
Arguments Done {A} st a.
Arguments Raised {A} e st.

Definition is_raised {A} (o : Outcome A) : bool :=
  match o with
  | Raised _ _ => true
  | Done _ _ => false
  end.

Definition final_state {A} (o : Outcome A) : State :=
  match o with
  | Raised _ st => st
  | Done st _ => st
  end.

(** [teimap.TEI_NAMESPACE] *)
Definition TEI_NAMESPACE : string := "http://www.tei-c.org/ns/1.0".

(** Modelled from the spec: the field mappings of [tei.Zone] (page key
    and bounds), read from the attributes of the page element.  The
    bounds are the fields [insert_note] assigns a [float] to on the zone
    of a highlight, and are read as floats. *)
Definition page_href (page : Element) : option string := attr_str "href" page.
Definition page_ulx (page : Element) : option float := attr_num "ulx" page.
Definition page_uly (page : Element) : option float := attr_num "uly" page.
Definition page_lrx (page : Element) : option float := attr_num "lrx" page.
Definition page_lry (page : Element) : option float := attr_num "lry" page.

(** [tei.Anchor(type=.., id=.., next=..).node] *)
Definition Anchor (type id : string) (next : option string) : Element :=
  Elem "anchor"
    (("type", AStr type) :: ("xml:id", AStr id) ::
     match next with Some n => [("next", AStr n)] | None => [] end)
    None [] None.

(** The zone of an image highlight, with the fields in the order they are
    set. *)
Definition Zone (type : string) (ulx uly lrx lry : float) (id : string) : Element :=
  Elem "zone"
    [("type", AStr type); ("ulx", ANum ulx); ("uly", ANum uly);
     ("lrx", ANum lrx); ("lry", ANum lry); ("xml:id", AStr id)]
    None [] None.

(** ** html_xpath_to_tei *)

(** The double quote character, as a string. *)
Definition dquote : string := String (ascii_of_nat 34) EmptyString.

(** [node()[local-name()="line" or local-name()="w"]] *)
Definition line_or_word : string :=
  "node()[local-name()=" +:+ dquote +:+ "line" +:+ dquote +:+
  " or local-name()=" +:+ dquote +:+ "w" +:+ dquote +:+ "]".

Definition html_xpath_to_tei (xpath : string) : string :=
  Py.replace "@id" "@xml:id"
    (Py.replace "span" line_or_word
       (Py.replace "div" "tei:zone" xpath)).

(** ** The export, over its collaborators *)

Section Exporter.

(** [node.xpath(expr)] of lxml: the matches, in document order, of [expr]
    evaluated at the node [ctx] of the document. *)
Variable xpath : Element -> Loc -> string -> list Loc.
(** [float(s)]; [None] when it raises. *)
Variable py_float : string -> option float.
(** [markdown_tei.convert]; [None] when it raises. *)
Variable convert : string -> option string.
(** [load_xmlobject_from_string]; [None] when the text is not XML. *)
Variable load_xmlobject_from_string : string -> option Element.
(** [readux.utils.absolutize_url] *)
Variable absolutize_url : string -> string.
(** [django.utils.text.slugify] *)
Variable slugify : string -> string.
(** [teivol.page_id_by_xlink] *)
Variable page_id_by_xlink : Volume -> string -> option string.
(** [teivol.page_list]: the pages of the facsimile, in document order. *)
Variable page_list : Element -> list Loc.
(** [readux.__version__] and [datetime.now()] *)
Variable version : string.
Variable export_date : string.

(** *** annotation_to_tei *)

Definition note_refs (teivol : Volume) (related : list string) : list Ref :=
  map (fun rel_page =>
         MkRef rel_page "related page"
           (match page_id_by_xlink teivol rel_page with
            | Some target => Some ("#" +:+ target)
            | None => None
            end))
      related.

(** [set('#%s' % slugify(t.strip()) for t in tags)].  A Python set is
    read in an order that is not specified; [elements] gives one. *)
Definition tag_refs (l : list string) : gset string :=
  list_to_set (map (fun t => "#" +:+ slugify (Py.strip t)) l).

Definition annotation_to_tei (annotation : Annotation) (teivol : Volume) : result Note :=
  (* convert markdown-formatted text content to tei *)
  match convert (ann_text annotation) with
  | None => Err ConversionError
  | Some note_content =>
      match load_xmlobject_from_string
              ("<note xmlns=" +:+ dquote +:+ TEI_NAMESPACE +:+ dquote +:+ ">"
               +:+ note_content +:+ "</note>") with
      | None => Err XMLSyntaxError
      | Some node =>
          Ok (MkNote node
                ("annotation-" +:+ ann_id annotation)
                (absolutize_url (ann_absolute_url annotation))
                "annotation"
                (match ann_tags annotation with
                 | Some (t :: l) => Some (Py.join " " (elements (tag_refs (t :: l))))
                 | _ => None
                 end)
                (match ann_user annotation with
                 | Some u => Some (username u)
                 | None => None
                 end)
                (ann_text annotation)
                (note_refs teivol (ann_related_pages annotation))
                None)
      end
  end.

(** *** insert_note *)

Definition set_target (t : string) (n : Note) : Note :=
  MkNote (note_node n) (note_id n) (note_href n) (note_type n) (note_ana n)
    (note_resp n) (note_markdown n) (note_related_pages n) (Some t).

(** [info['ranges'][0]] when ['ranges' in info and info['ranges']] *)
Definition selection_range (annotation : Annotation) : option Range :=
  match ann_ranges annotation with
  | Some (r :: _) => Some r
  | _ => None
  end.

Definition start_xpath (r : Range) : string :=
  Py.or_default (html_xpath_to_tei (range_start r)) "//tei:zone[1]".

Definition end_xpath (r : Range) : string :=
  Py.or_default (html_xpath_to_tei (range_end r)) "//tei:zone[last()]".

Definition start_anchor (annotation : Annotation) : Element :=
  Anchor "text-annotation-highlight-start"
    ("highlight-start-" +:+ ann_id annotation)
    (Some ("highlight-end-" +:+ ann_id annotation)).

Definition end_anchor (annotation : Annotation) : Element :=
  Anchor "text-annotation-highlight-end"
    ("highlight-end-" +:+ ann_id annotation) None.

(** The zone of an image annotation on a page. *)
Definition image_highlight (teipage : Element) (sel : ImageSelection) (id : string)
  : result Element :=
  match page_lrx teipage, page_ulx teipage, page_lry teipage, page_uly teipage with
  | Some lrx, Some ulx, Some lry, Some uly =>
      let page_width := (lrx - ulx)%float in
      let page_height := (lry - uly)%float in
      match py_float (Py.rstrip_percent (sel_x sel)),
            py_float (Py.rstrip_percent (sel_y sel)),
            py_float (Py.rstrip_percent (sel_w sel)),
            py_float (Py.rstrip_percent (sel_h sel)) with
      | Some x, Some y, Some w, Some h =>
          let selection_x := (x / 100)%float in
          let selection_y := (y / 100)%float in
          let selection_w := (w / 100)%float in
          let selection_h := (h / 100)%float in
          let zone_ulx := (selection_x * page_width)%float in
          let zone_uly := (selection_y * page_height)%float in
          Ok (Zone "image-annotation-highlight"
                zone_ulx zone_uly
                (zone_ulx + selection_w * page_width)%float
                (zone_uly + selection_h * page_height)%float
                ("highlight-" +:+ id))
      | _, _, _, _ => Err ValueError
      end
  | _, _, _, _ => Err TypeError
  end.

(** What the first part of [insert_note] ends with: an early return, or
    the variable [target] (unbound when no branch was taken) with the
    insertions made. *)
Inductive Placement : Type :=
  | Skipped
  | Target (target : option string) (trail : list Insertion).

Definition place_highlight (st : State) (teipage : Loc) (annotation : Annotation)
  : Outcome Placement :=
  let doc := vol_facsimile (st_vol st) in
  match selection_range annotation with
  | Some r =>
      let start := xpath doc teipage (start_xpath r) in
      let end_ := xpath doc teipage (end_xpath r) in
      match start, end_ with
      | start0 :: _, end0 :: _ =>
          (* insert the end *first* in case start and end are in the
             same element *)
          match insert_anchor doc end0 (end_anchor annotation) (range_endOffset r) with
          | Err e => Raised e st
          | Ok (doc1, ins1) =>
              let st1 := with_volume (set_facsimile doc1) st in
              match insert_anchor doc1 (relocate ins1 start0)
                      (start_anchor annotation) (range_startOffset r) with
              | Err e => Raised e st1
              | Ok (doc2, ins2) =>
                  Done (with_volume (set_facsimile doc2) st)
                    (Target
                       (Some ("#range(#highlight-start-" +:+ ann_id annotation
                              +:+ ", #highlight-end-" +:+ ann_id annotation +:+ ")"))
                       [ins1; ins2])
              end
          end
      | _, _ =>
          Done (warn ("Could not find start or end xpath for annotation "
                      +:+ ann_id annotation) st)
            Skipped
      end
  | None =>
      match ann_image_selection annotation with
      | Some sel =>
          match get doc teipage with
          | None => Raised TypeError st
          | Some page =>
              match image_highlight page sel (ann_id annotation) with
              | Err e => Raised e st
              | Ok zone =>
                  Done (with_volume
                          (set_facsimile
                             (modify (fun e => set_children (el_children e ++ [zone]) e)
                                teipage doc))
                          st)
                    (Target (Some ("#highlight-" +:+ ann_id annotation)) [])
              end
          end
      | None => Done st (Target None [])
      end
  end.

Definition insert_note (st : State) (teipage : Loc) (annotation : Annotation)
  : Outcome (list Insertion) :=
  match place_highlight st teipage annotation with
  | Raised e st' => Raised e st'
  | Done st' Skipped => Done st' []
  | Done st' (Target target trail) =>
      match annotation_to_tei annotation (st_vol st') with
      | Err e => Raised e st'
      | Ok teinote =>
          match target with
          | None => Raised UnboundLocalError st'
          | Some t => Done (with_volume (append_annotation (set_target t teinote)) st') trail
          end
      end
  end.

(** *** annotated_tei *)

(** [Q(uri=page.href) | Q(extra_data__contains=page.href)]: the key is the
    [uri], or occurs in the stored text of [extra_data]. *)
Definition page_query (href : string) (a : Annotation) : bool :=
  String.eqb (ann_uri a) href || Py.contains href (ann_extra_data_text a).

(** [set(t.strip() for t in note.info()['tags'])] when ['tags' in note.info()] *)
Definition note_tags (note : Annotation) : gset string :=
  match ann_tags note with
  | Some l => list_to_set (map Py.strip l)
  | None => ∅
  end.

(** The loop over the annotations of one page.  [page0] is where the page
    was when the export started and [trail] the insertions made since. *)
Fixpoint notes_loop (href : string) (page0 : Loc) (notes : list Annotation)
    (st : State) (tagset : gset string) (trail : list Insertion)
  : Outcome (gset string * list Insertion) :=
  match notes with
  | [] => Done st (tagset, trail)
  | note :: rest =>
      if String.eqb (default EmptyString (ann_ark note)) href then
        match insert_note st (relocate_all trail page0) note with
        | Raised e st' => Raised e st'
        | Done st' ins =>
            notes_loop href page0 rest st' (tagset ∪ note_tags note) (trail ++ ins)
        end
      else
        (* skip any notes where ark doesn't match page url *)
        notes_loop href page0 rest st tagset trail
  end.

Fixpoint pages_loop (pages : list Loc) (annotations : list Annotation)
    (st : State) (tagset : gset string) (trail : list Insertion)
  : Outcome (gset string * list Insertion) :=
  match pages with
  | [] => Done st (tagset, trail)
  | page0 :: rest =>
      match get (vol_facsimile (st_vol st)) (relocate_all trail page0) ≫= page_href with
      | None | Some EmptyString =>
          (* if for some reason href is not set, skip this page *)
          pages_loop rest annotations st tagset trail
      | Some href =>
          match notes_loop href page0 (filter (fun a => page_query href a = true) annotations)
                  st tagset trail with
          | Raised e st' => Raised e st'
          | Done st' (tagset', trail') => pages_loop rest annotations st' tagset' trail'
          end
      end
  end.

(** The distinct users of the annotations. *)
Definition annotation_users (annotations : list Annotation) : list User :=
  remove_dups (omap ann_user annotations).

Definition update_header (teivol : Volume) (annotations : list Annotation) : Volume :=
  MkVolume None (vol_title teivol) (Some ", an annotated digital edition")
    (Some "annotated by")
    (vol_responsible_names teivol
     ++ map (fun u => MkName (username u) (full_name u)) (annotation_users annotations))
    (Some (MkPubStmt
             (Some ("Annotated TEI generated by Readux version " +:+ version))
             (Some export_date) (Some export_date)))
    (vol_facsimile teivol) (vol_annotations teivol) (vol_tags teivol).

(** [teivol.create_tags()] and one [tei.Interp] for each collected tag. *)
Definition add_tags (tagset : gset string) (teivol : Volume) : Volume :=
  match elements tagset with
  | [] => teivol
  | l =>
      set_tags (Some (default [] (vol_tags teivol)
                      ++ map (fun tag => MkInterp (slugify tag) tag) l))
        teivol
  end.

Definition annotated_tei (teivol : Volume) (annotations : list Annotation) (log : list string)
  : Outcome Volume :=
  let teivol := update_header teivol annotations in
  match pages_loop (page_list (vol_facsimile teivol)) annotations
          (MkState teivol log) ∅ [] with
  | Raised e st => Raised e st
  | Done st (tagset, _) =>
      let teivol := add_tags tagset (st_vol st) in
      Done (MkState teivol (st_log st)) teivol
  end.

End Exporter.

(** ** Sample collaborators

    Small stand-ins for the collaborators, to run the export on concrete
    documents. *)

Module Sample.

(** The descendants-or-self of an element that carry the tag [name], in
    document order. *)
Fixpoint find_tag (name : string) (e : Element) : list Loc :=
  match e with
  | Elem tag _ _ children _ =>
      (if String.eqb tag name then [[]] else []) ++
      (fix go (i : nat) (l : list Element) : list Loc :=
         match l with
         | [] => []
         | c :: l' => map (cons i) (find_tag name c) ++ go (S i) l'
         end) 0%nat children
  end.

(** An XPath engine for the expressions that are a bare tag name. *)
Definition xpath (doc : Element) (ctx : Loc) (expr : string) : list Loc :=
  match get doc ctx with
  | Some e => map (app ctx) (find_tag expr e)
  | None => []
  end.

Definition digit (c : ascii) : option Z :=
  let n := nat_of_ascii c in
  if ((48 <=? n)%nat && (n <=? 57)%nat)%bool then Some (Z.of_nat (n - 48)) else None.

(** Digits read as a number, with the count of digits read. *)
Fixpoint digits (s : string) (acc : Z) (n : nat) : option (Z * nat) :=
  match s with
  | EmptyString => Some (acc, n)
  | String c s' =>
      match digit c with
      | Some d => digits s' (10 * acc + d)%Z (S n)
      | None => None
      end
  end.

Fixpoint split_dot (s : string) : string * option string :=
  match s with
  | EmptyString => (EmptyString, None)
  | String c s' =>
      if Ascii.eqb c "."%char then (EmptyString, Some s')
      else let '(a, b) := split_dot s' in (String c a, b)
  end.

(** The float of an integer below [2^53], which is exact. *)
Definition float_of_Z (z : Z) : float := PrimFloat.of_uint63 (Uint63.of_Z z).

(** The numeral [i.f] is the quotient of two integers; the division
    rounds it once, to the nearest float, when both are below [2^53] and
    there are at most 22 digits after the point. *)
Definition unsigned_float (s : string) : option float :=
  let '(ip, fp) := split_dot s in
  match ip, digits ip 0 0 with
  | String _ _, Some (i, _) =>
      match fp with
      | None => Some (float_of_Z i)
      | Some f =>
          match digits f 0 0 with
          | Some (m, k) =>
              Some (float_of_Z (i * 10 ^ Z.of_nat k + m) / float_of_Z (10 ^ Z.of_nat k))%float
          | None => None
          end
      end
  | _, _ => None
  end.

(** [float] on plain decimal numerals, with an optional sign. *)
Definition py_float (s : string) : option float :=
  match s with
  | String "-" s' => PrimFloat.opp <$> unsigned_float s'
  | String "+" s' => unsigned_float s'
  | _ => unsigned_float s
  end.

Definition lower (c : ascii) : ascii :=
  let n := nat_of_ascii c in
  if ((65 <=? n)%nat && (n <=? 90)%nat)%bool then ascii_of_nat (n + 32) else c.

Definition is_word (c : ascii) : bool :=
  let n := nat_of_ascii c in
  ((48 <=? n)%nat && (n <=? 57)%nat) || ((65 <=? n)%nat && (n <=? 90)%nat)
  || ((97 <=? n)%nat && (n <=? 122)%nat) || (n =? 95)%nat.

Definition is_hyphen (c : ascii) : bool := Ascii.eqb c "-"%char.

(** The class [\s] of a pattern compiled without the Unicode flag. *)
Definition is_blank (c : ascii) : bool :=
  let n := nat_of_ascii c in
  (n =? 32)%nat || ((9 <=? n)%nat && (n <=? 13)%nat).

Fixpoint str_filter (f : ascii -> bool) (s : string) : string :=
  match s with
  | EmptyString => EmptyString
  | String c s' => if f c then String c (str_filter f s') else str_filter f s'
  end.

Fixpoint str_map (f : ascii -> ascii) (s : string) : string :=
  match s with
  | EmptyString => EmptyString
  | String c s' => String (f c) (str_map f s')
  end.

(** Every run of hyphens and spaces becomes one hyphen. *)
Fixpoint squeeze (in_run : bool) (s : string) : string :=
  match s with
  | EmptyString => EmptyString
  | String c s' =>
      if is_hyphen c || is_blank c
      then (if in_run then squeeze true s' else String "-" (squeeze true s'))
      else String c (squeeze false s')
  end.

(** Django's [slugify] on ASCII text: characters other than letters,
    digits, underscores, hyphens and spaces are removed, the ends are
    stripped, letters are lowered and runs of hyphens and spaces become
    one hyphen. *)
Definition slugify (value : string) : string :=
  squeeze false
    (str_map lower
       (Py.strip
          (str_filter (fun c => is_word c || is_blank c || is_hyphen c) value))).

(** A converter that accepts every text but the one reading [FAIL]. *)
Definition convert (text : string) : option string :=
  if String.eqb text "FAIL" then None else Some ("<p>" +:+ text +:+ "</p>").

Definition load_xmlobject_from_string (s : string) : option Element :=
  Some (Elem "note" [] (Some s) [] None).

Definition absolutize_url (url : string) : string := "http://readux.example" +:+ url.

Definition page_id_by_xlink (v : Volume) (href : string) : option string := None.

(** Every child of the root is a page. *)
Definition page_list (doc : Element) : list Loc :=
  imap (fun i _ => [i]) (el_children doc).

Definition insert_note :=
  insert_note xpath py_float convert load_xmlobject_from_string absolutize_url
    slugify page_id_by_xlink.

Definition annotated_tei :=
  annotated_tei xpath py_float convert load_xmlobject_from_string absolutize_url
    slugify page_id_by_xlink page_list "1.0" "2016-01-01".

Definition word (s : string) : Element := Elem "w" [] (Some s) [] None.

Definition page (href : string) (content : list Element) : Element :=
  Elem "surface"
    [("href", AStr href); ("ulx", ANum 0%float); ("uly", ANum 0%float);
     ("lrx", ANum 1000%float); ("lry", ANum 1500%float)]
    None content None.

Definition volume (pages : list Element) : Volume :=
  MkVolume (Some "A Book") None None None [] None
    (Elem "facsimile" [] None pages None) [] None.

Definition text_annotation (id page_key : string) (start end_ : string) (s e : Z)
    (tag_list : option (list string)) : Annotation :=
  MkAnnotation id page_key "a comment" None ("/annotations/" +:+ id)
    ("{ark: " +:+ page_key +:+ "}") (Some page_key)
    (Some [MkRange start s end_ e]) None tag_list [].

Definition image_annotation (id page_key : string) (x y w h text : string) : Annotation :=
  MkAnnotation id page_key text None ("/annotations/" +:+ id)
    ("{ark: " +:+ page_key +:+ "}") (Some page_key)
    None (Some (MkImageSelection x y w h)) None [].

(** *** Sample documents and annotations *)

Definition words_page : Element := page "page-7" [word "abcdefghij"; word "xyz"].
Definition book : Volume := volume [words_page].
Definition start_state : State := MkState book [].

(** A selection inside the first word of the page. *)
Definition in_word (s e : Z) : Annotation :=
  text_annotation "1" "page-7" "w" "w" s e None.

(** A selection whose paths name no node of the page. *)
Definition lost (tag_list : list string) : Annotation :=
  text_annotation "3" "page-7" "line" "line" 0 4 (Some tag_list).

(** A selection inside the first word of the page, with a comment the
    converter refuses. *)
Definition refused : Annotation :=
  MkAnnotation "7" "page-7" "FAIL" None "/annotations/7" "{ark: page-7}"
    (Some "page-7") (Some [MkRange "w" 3 "w" 7]) None None [].

(** An annotation with neither a selection nor an image region. *)
Definition bare : Annotation :=
  MkAnnotation "4" "page-7" "a comment" None "/annotations/4" "{ark: page-7}"
    (Some "page-7") None None None [].

(** An annotation stored with the key of the page as its [uri], and no
    ark. *)
Definition direct : Annotation :=
  MkAnnotation "5" "page-7" "a comment" None "/annotations/5" "{}"
    None None (Some (MkImageSelection "10%" "10%" "20%" "20%")) None [].

(** An annotation of page 7 whose related pages name page 8. *)
Definition related : Annotation :=
  MkAnnotation "6" "page-8" "a comment" None "/annotations/6"
    "{ark: page-8, related_pages: [page-7]}"
    (Some "page-8") None (Some (MkImageSelection "10%" "10%" "20%" "20%")) None ["page-7"].


(** An engine that keeps the first match only. *)
Definition first_only (doc : Element) (ctx : Loc) (expr : string) : list Loc :=
  take 1 (xpath doc ctx expr).

Definition zone_ulx_of (o : Outcome (list Insertion)) (teipage : Loc) : option float :=
  match get (vol_facsimile (st_vol (final_state o))) teipage with
  | Some pg => last (el_children pg) ≫= attr_num "ulx"
  | None => None
  end.


End Sample.

(** ** Views: [readux/books/views.py]

    The parts of the views that compute on values; the repository, the
    search index and the file system are parameters. *)

Module Views.

(** An item of a page query of the search index: [p['pid']] and the
    order of the page. *)
Record PageHit : Type := MkHit { hit_pid : string; hit_page_order : Z }.

(** The loop of [PageDetail.get_context_data] over the pages around the
    current one: the index where it stops and the item before it. *)
Fixpoint find_current (pid : string) (pagequery : list PageHit)
    (index : nat) (prev : option PageHit) : nat * option PageHit :=
  match pagequery with
  | [] => (index, prev)
  | p :: rest =>
      if String.eqb (hit_pid p) pid then (index, prev)
      else find_current pid rest (S index) (Some p)
  end.

(** [prev] and [nxt] of [PageDetail.get_context_data]. *)
Definition adjacent_pages (pid : string) (pagequery : list PageHit)
  : option PageHit * option PageHit :=
  let '(index, prev) := find_current pid pagequery 0 None in
  (prev,
   if (index + 1 <? length pagequery)%nat then pagequery !! (index + 1)%nat else None).

(** [((page_order - 1) // 30) + 1] *)
Definition page_chunk (page_order : Z) : Z := ((page_order - 1) / 30 + 1)%Z.

(** The domain with its scheme, as [VolumeSearch.get_context_data] makes
    it. *)
Definition site_domain (domain : string) : string :=
  if Py.starts_with "http" domain then domain else "http://" +:+ domain.

(** [k.replace(domain, '')]: the key of the annotation counts, for the
    lookup by the urls of the items. *)
Definition site_relative (domain k : string) : string :=
  Py.replace (site_domain domain) EmptyString k.

(** The same in [VolumePageList.get_context_data], where the domain is
    first stripped of slashes at its end. *)
Definition page_list_relative (domain k : string) : string :=
  site_relative (Py.rstrip_by (fun c => Ascii.eqb c "/"%char) domain) k.

Inductive Raise : Type :=
  | Http404
  | RequestFailed (code : Z)
  | UnboundLocal
  | IOError.

Inductive outcome (A : Type) : Type :=
  | Returns (a : A)
  | Raises (e : Raise).
Arguments Returns {A} a.
Arguments Raises {A} e.

Record Response : Type := MkResponse {
  status_code : Z;
  content : string;
  content_type : string }.

Definition HttpResponse (content content_type : string) : Response :=
  MkResponse 200 content content_type.

Definition HttpResponseNotFound (content content_type : string) : Response :=
  MkResponse 404 content content_type.

(** [HttpResponseNotAllowed(permitted_methods)]: an empty body with the
    default content type of the settings. *)
Definition HttpResponseNotAllowed (content_type : string) : Response :=
  MkResponse 405 EmptyString content_type.

Definition set_status (code : Z) (r : Response) : Response :=
  MkResponse code (content r) (content_type r).

(** [VolumePdf.get_headers]: the value of [Content-Disposition];
    [label] is [None] when the object does not exist. *)
Definition pdf_headers (download : bool) (label : option string) : outcome string :=
  match label with
  | None => Raises Http404
  | Some l =>
      Returns ((if download then "attachment; " else EmptyString)
               +:+ "filename=" +:+ dquote +:+ Py.replace " " "-" l +:+ ".pdf" +:+ dquote)
  end.

(** [PageTei.get_headers] *)
Definition tei_headers (pid : string) : string :=
  "filename=" +:+ dquote +:+ Py.replace ":" "-" pid +:+ "_tei.xml" +:+ dquote.

Definition error_images (mode : option string) : option string :=
  match mode with
  | Some m =>
      if String.eqb m "thumbnail" then Some "notfound_thumbnail.png"
      else if String.eqb m "single-page" then Some "notfound_page.png"
      else if String.eqb m "mini-thumbnail" then Some "notfound_mini_thumbnail_page.png"
      else None
  | None => None
  end.

Section PageImage.

(** The content of an error image under the static files; [None] when it
    cannot be read. *)
Variable read_image : string -> option string.
(** [page.image.exists]; a request to the repository can fail. *)
Variable image_exists : outcome bool.
(** [page.get_region] for the scale and level of a mode. *)
Variable get_region : string -> outcome string.
(** [page.get_region_chunks(level='')], joined: the chunks are read when
    the response is sent. *)
Variable region_chunks : string.
(** The default content type of the settings, with its charset. *)
Variable default_content_type : string.
(** What the wrapper of [condition(etag_func, last_modified_func)] does
    before the view is called: it answers the request itself (304 or 412,
    from the headers of the request and the etag and date of the image),
    or lets the view run ([None]); the two helpers ask the repository,
    and their exception is the exception of the request. *)
Variable condition : outcome (option Response).

Definition _error_image_response (mode : option string) : outcome (option Response) :=
  match error_images mode with
  | Some img =>
      match read_image img with
      | Some bytes => Returns (Some (HttpResponseNotFound bytes "image/png"))
      | None => Raises IOError
      end
  | None => Returns None
  end.

(** The body of the [try] of [page_image]. *)
Definition page_image_body (method : string) (mode : option string) : outcome Response :=
  match image_exists with
  | Raises e => Raises e
  | Returns true =>
      if String.eqb method "HEAD" then Returns (HttpResponse EmptyString "image/jpeg")
      else
        match mode with
        | Some m =>
            if String.eqb m "thumbnail" || String.eqb m "mini-thumbnail"
               || String.eqb m "single-page" then
              match get_region m with
              | Returns c => Returns (HttpResponse c "image/jpeg")
              | Raises e => Raises e
              end
            else if String.eqb m "fullsize" then
              Returns (HttpResponse region_chunks "image/jpeg")
            else Raises UnboundLocal
        | None => Raises UnboundLocal
        end
  | Returns false =>
      match _error_image_response mode with
      | Raises e => Raises e
      | Returns (Some response) => Returns response
      | Returns None => Raises Http404
      end
  end.

(** The function [page_image], without its decorators. *)
Definition page_image_view (method : string) (mode : option string) : outcome Response :=
  match page_image_body method mode with
  | Raises (RequestFailed code) =>
      match _error_image_response mode with
      | Raises e => Raises e
      | Returns (Some response) => Returns (set_status code response)
      | Returns None =>
          if (code =? 404)%Z || (code =? 401)%Z then Raises Http404
          else Raises (RequestFailed code)
      end
  | r => r
  end.

(** [page_image] as the url configuration calls it:
    [require_http_methods(['GET', 'HEAD'])] outermost, then [condition],
    then the function.  The headers [condition] adds to the response of
    the view are not part of [Response]. *)
Definition page_image (method : string) (mode : option string) : outcome Response :=
  if String.eqb method "GET" || String.eqb method "HEAD" then
    match condition with
    | Raises e => Raises e
    | Returns (Some response) => Returns response
    | Returns None => page_image_view method mode
    end
  else Returns (HttpResponseNotAllowed default_content_type).

End PageImage.

End Views.

(** ** Further predicates *)

(** The header of a volume: what [insert_note] never touches. *)
Definition vol_header (v : Volume)
  : option string * option string * option string * option string
    * list Name * option PubStmt * option (list Interp) :=
  (vol_title v, vol_main_title v, vol_subtitle v, vol_responsibility v,
   vol_responsible_names v, vol_pubstmt v, vol_tags v).

(** An annotation with the first range only, or without its image region
    when it has a range. *)
Definition first_range_only (a : Annotation) : Annotation :=
  match ann_ranges a with
  | Some (r :: _) =>
      MkAnnotation (ann_id a) (ann_uri a) (ann_text a) (ann_user a) (ann_absolute_url a)
        (ann_extra_data_text a) (ann_ark a) (Some [r]) None (ann_tags a)
        (ann_related_pages a)
  | _ => a
  end.

(** [n] is the note of an annotation of the list that has an ark, not
    empty, which the page query accepts. *)
Definition note_of (annotations : list Annotation) (n : Note) : Prop :=
  exists a k,
    a ∈ annotations /\
    note_id n = "annotation-" +:+ ann_id a /\
    note_markdown n = ann_text a /\
    ann_ark a = Some k /\ k <> EmptyString /\ page_query k a = true.

(** [x] is a tag, stripped, of an annotation of the list. *)
Definition tag_of (annotations : list Annotation) (x : string) : Prop :=
  exists a l t, a ∈ annotations /\ ann_tags a = Some l /\ t ∈ l /\ x = Py.strip t.

(** The names [annotated_tei] adds to the responsibility statement. *)
Definition added_names (annotations : list Annotation) : list Name :=
  map (fun u => MkName (username u) (full_name u)) (annotation_users annotations).

(** The target of the note of an annotation. *)
Definition range_target (a : Annotation) : string :=
  "#range(#highlight-start-" +:+ ann_id a +:+ ", #highlight-end-" +:+ ann_id a +:+ ")".

Definition zone_target (a : Annotation) : string := "#highlight-" +:+ ann_id a.

(** ** Predicates of the statements *)

#[global] Instance spec_float_eq_dec : EqDecision spec_float.
Proof. solve_decision. Defined.

(** Two floats are equal when their decodings are. *)
#[global] Instance float_eq_dec : EqDecision float.
Proof.
  intros x y. destruct (decide (Prim2SF x = Prim2SF y)) as [H|H].
  - left. exact (Prim2SF_inj x y H).
  - right. intros E. apply H. now rewrite E.
Defined.

#[global] Instance AttrVal_eq_dec : EqDecision AttrVal.
Proof. solve_decision. Defined.

#[global] Instance Token_eq_dec : EqDecision Token.
Proof. solve_decision. Defined.

(** The token of an element's start. *)
Definition start_token (e : Element) : Token := TElem (el_tag e) (el_attrib e).

(** A new, empty element: no text, no children, no tail. *)
Definition is_leaf (e : Element) : Prop :=
  el_text e = None /\ el_children e = [] /\ el_tail e = None.

Definition opt_str (o : option string) : string := default EmptyString o.

(** [a] occurs before an occurrence of [b]. *)
Definition precedes (a b : Token) (l : list Token) : Prop :=
  exists A B C, l = A ++ a :: B ++ b :: C.

Fixpoint precedesb (a b : Token) (l : list Token) : bool :=
  match l with
  | [] => false
  | x :: l' => (bool_decide (x = a) && bool_decide (b ∈ l')) || precedesb a b l'
  end.



(** [new] is [old] with [a] and, later in the list, [b] added. *)
Definition adds_in_order (a b : Token) (old new : list Token) : Prop :=
  exists A B C, old = A ++ B ++ C /\ new = A ++ a :: B ++ b :: C.

(** The key of the page at [page0], when it is not empty. *)
Definition page_key (doc : Element) (page0 : Loc) : option string :=
  match get doc page0 ≫= page_href with
  | Some EmptyString => None
  | k => k
  end.

(** [insert_note] was called on [a] and returned, before the state [st']
    and the tag set [tagset'] were reached. *)
Definition visited_by (insert_note : State -> Loc -> Annotation -> Outcome (list Insertion))
    (a : Annotation) (st' : State) (tagset' : gset string) : Prop :=
  exists st0 page st1 ins,
    insert_note st0 page a = Done st1 ins /\
    note_tags a ⊆ tagset' /\
    st_log st1 `prefix_of` st_log st'.

(** The export, started in [st0], comes to the annotation [a] of the
    page [page0] with the key [k]: the pages before [page0] and the
    annotations selected for [page0] before [a] were processed without an
    exception, which left the state [st] and the page at [page];
    [pages_after] and [after] are the pages and the annotations of
    [page0] still to come. *)
Definition comes_to
    (pages_loop : list Loc -> list Annotation -> State -> gset string -> list Insertion
                  -> Outcome (gset string * list Insertion))
    (notes_loop : string -> Loc -> list Annotation -> State -> gset string -> list Insertion
                  -> Outcome (gset string * list Insertion))
    (pages : list Loc) (annotations : list Annotation) (st0 : State)
    (page0 : Loc) (k : string) (a : Annotation) (st : State) (page : Loc)
    (after : list Annotation) (pages_after : list Loc) : Prop :=
  exists pages_before before st1 tagset1 trail1 tagset2 trail2,
    pages = pages_before ++ page0 :: pages_after /\
    pages_loop pages_before annotations st0 ∅ [] = Done st1 (tagset1, trail1) /\
    get (vol_facsimile (st_vol st1)) (relocate_all trail1 page0) ≫= page_href = Some k /\
    k <> EmptyString /\
    filter (fun n => page_query k n = true) annotations = before ++ a :: after /\
    notes_loop k page0 before st1 tagset1 trail1 = Done st (tagset2, trail2) /\
    page = relocate_all trail2 page0.

(** The warning logged for an annotation that is skipped. *)
Definition skip_warning (a : Annotation) : string :=
  "Could not find start or end xpath for annotation " +:+ ann_id a.

(** Two states of one node: the tag and the attributes are the same. *)
Definition same_node (x x' : Element) : Prop :=
  el_tag x = el_tag x' /\ el_attrib x = el_attrib x'.

(** Every node of [d] is in [d'] at the location [trail] gives. *)
Definition tracks (d d' : Element) (trail : list Insertion) : Prop :=
  forall q x, get d q = Some x ->
    exists x', get d' (relocate_all trail q) = Some x' /\ same_node x x'.

(** ** Strings and slices *)

Lemma append_cons (c : ascii) (a b : string) : String c a +:+ b = String c (a +:+ b).
Proof. reflexivity. Qed.

Lemma str_take_drop (n : nat) (s : string) : Py.str_take n s +:+ Py.str_drop n s = s.
Proof.
  revert s. induction n as [|n IH]; intros [|c s]; simpl; try reflexivity.
  rewrite append_cons. f_equal. apply IH.
Qed.

Lemma slice_to_from (s : string) (o : Z) : Py.slice_to s o +:+ Py.slice_from s o = s.
Proof. apply str_take_drop. Qed.

Lemma str_take_length (n : nat) (s : string) :
  String.length (Py.str_take n s) = Nat.min n (String.length s).
Proof.
  revert s. induction n as [|n IH]; intros [|c s]; simpl; try reflexivity.
  now rewrite IH.
Qed.

Lemma chars_app (a b : string) :
  chars (Some (a +:+ b)) = chars (Some a) ++ chars (Some b).
Proof.
  unfold chars. induction a as [|c a IH]; [reflexivity|].
  rewrite append_cons. simpl. now rewrite IH.
Qed.

(** ** Locations *)

Lemma split_last_snoc (p : Loc) (i : nat) : split_last (p ++ [i]) = Some (p, i).
Proof.
  induction p as [|j p IH]; simpl; [reflexivity|].
  rewrite IH. destruct (p ++ [i]) eqn:E; [|reflexivity].
  destruct p; discriminate.
Qed.

Lemma get_app (e : Element) (p q : Loc) :
  get e (p ++ q) = get e p ≫= fun x => get x q.
Proof.
  revert e. induction p as [|i p IH]; intros e; simpl; [reflexivity|].
  destruct (el_children e !! i); simpl; [apply IH | reflexivity].
Qed.

Lemma get_modify_app (f : Element -> Element) (p q : Loc) (e x : Element) :
  get e p = Some x -> get (modify f (p ++ q) e) p = Some (modify f q x).
Proof.
  revert e. induction p as [|i p IH]; intros e H; simpl in *.
  - congruence.
  - destruct (el_children e !! i) as [c|] eqn:E; [|discriminate].
    destruct e as [tg at_ tx ch tl]; simpl in *.
    rewrite list_lookup_insert_eq by (eapply lookup_lt_Some; eauto).
    now apply IH.
Qed.

Lemma get_modify (f : Element -> Element) (p : Loc) (e x : Element) :
  get e p = Some x -> get (modify f p e) p = Some (f x).
Proof.
  intros H. pose proof (get_modify_app f p [] e x H) as G.
  now rewrite app_nil_r in G.
Qed.

Lemma relocate_at_snoc (p : Loc) (k i : nat) :
  relocate_at p k (p ++ [i]) = p ++ [if (k <=? i)%nat then S i else i].
Proof.
  induction p as [|j p IH]; simpl.
  - now destruct (k <=? i)%nat.
  - rewrite Nat.eqb_refl. now rewrite IH.
Qed.

(** ** Document order under a modification *)

Lemma flat_map_tokens_split (ch : list Element) (i : nat) (c : Element) :
  ch !! i = Some c ->
  flat_map tokens ch =
  flat_map tokens (take i ch) ++ tokens c ++ flat_map tokens (drop (S i) ch).
Proof.
  intros H. rewrite <- (take_drop_middle ch i c H) at 1.
  rewrite flat_map_app. reflexivity.
Qed.

Lemma flat_map_tokens_insert (ch : list Element) (i : nat) (c c' : Element) :
  ch !! i = Some c ->
  flat_map tokens (<[i := c']> ch) =
  flat_map tokens (take i ch) ++ tokens c' ++ flat_map tokens (drop (S i) ch).
Proof.
  intros H. pose proof (lookup_lt_Some _ _ _ H) as L.
  rewrite insert_take_drop by exact L.
  rewrite flat_map_app. reflexivity.
Qed.

(** Replacing the node at [l] replaces its tokens, in place. *)
Lemma tokens_modify (l : Loc) (e x : Element) :
  get e l = Some x ->
  exists A B, tokens e = A ++ tokens x ++ B /\
    forall f, tokens (modify f l e) = A ++ tokens (f x) ++ B.
Proof.
  revert e. induction l as [|i l IH]; intros e H; simpl in H.
  - inversion H; subst. exists [], []. split; [now rewrite app_nil_r|].
    intros f. simpl. now rewrite app_nil_r.
  - destruct (el_children e !! i) as [c|] eqn:E; [|discriminate].
    destruct (IH c H) as (A & B & HA & HB).
    destruct e as [tg at_ tx ch tl]; simpl in E.
    exists (TElem tg at_ :: chars tx ++ flat_map tokens (take i ch) ++ A),
           (B ++ flat_map tokens (drop (S i) ch) ++ chars tl).
    split.
    + simpl. rewrite (flat_map_tokens_split ch i c E), HA.
      now rewrite <- !app_assoc.
    + intros f. simpl. rewrite E. simpl.
      rewrite (flat_map_tokens_insert ch i c _ E), HB.
      now rewrite <- !app_assoc.
Qed.

Lemma tokens_leaf (a : Element) : is_leaf a -> tokens a = [start_token a].
Proof.
  destruct a as [tg at_ tx ch tl]. intros (H1 & H2 & H3); simpl in *; subst.
  reflexivity.
Qed.

(** ** insert_anchor, seen from the parent *)

Lemma modify_const (f : Element -> Element) (p : Loc) (e x : Element) :
  get e p = Some x -> modify f p e = modify (fun _ => f x) p e.
Proof.
  revert e. induction p as [|i p IH]; intros e H; simpl in *.
  - congruence.
  - destruct (el_children e !! i) as [c|] eqn:E; [|reflexivity].
    now rewrite (IH c H).
Qed.

Lemma modify_app (f : Element -> Element) (p q : Loc) (e : Element) :
  modify f (p ++ q) e = modify (modify f q) p e.
Proof.
  revert e. induction p as [|i p IH]; intros e; simpl; [reflexivity|].
  destruct (el_children e !! i) as [c|]; [|reflexivity].
  now rewrite IH.
Qed.

Lemma modify_modify (f g : Element -> Element) (p : Loc) (e x : Element) :
  get e p = Some x -> modify f p (modify g p e) = modify (fun y => f (g y)) p e.
Proof.
  revert e. induction p as [|i p IH]; intros e H; simpl in *; [reflexivity|].
  destruct (el_children e !! i) as [c|] eqn:E; [|discriminate].
  destruct e as [tg at_ tx ch tl]; simpl in *.
  pose proof (lookup_lt_Some _ _ _ E) as L.
  rewrite list_lookup_insert_eq by exact L. simpl.
  rewrite list_insert_insert_eq. now rewrite (IH c H).
Qed.

Lemma lookup_middle_len {A} (pre post : list A) (x : A) :
  (pre ++ x :: post) !! length pre = Some x.
Proof. apply list_lookup_middle. reflexivity. Qed.

Lemma insert_at_middle {A} (pre post : list A) (a : A) :
  insert_at (length pre) a (pre ++ post) = pre ++ a :: post.
Proof.
  unfold insert_at. rewrite take_app_length, drop_app_length. reflexivity.
Qed.

Lemma insert_at_after {A} (pre post : list A) (x a : A) :
  insert_at (S (length pre)) a (pre ++ x :: post) = pre ++ x :: a :: post.
Proof.
  unfold insert_at.
  replace (S (length pre)) with (length (pre ++ [x])) by (rewrite length_app; simpl; lia).
  replace (pre ++ x :: post) with ((pre ++ [x]) ++ post) by (now rewrite <- app_assoc).
  rewrite take_app_length, drop_app_length. now rewrite <- app_assoc.
Qed.

Lemma insert_middle {A} (pre post : list A) (x y : A) :
  <[length pre := y]> (pre ++ x :: post) = pre ++ y :: post.
Proof.
  rewrite insert_app_r_alt by lia. now rewrite Nat.sub_diag.
Qed.

Section FromParent.

Variables (doc : Element) (p : Loc) (parent el : Element) (pre post : list Element).
Hypothesis Hparent : get doc p = Some parent.
Hypothesis Hchildren : el_children parent = pre ++ el :: post.

Lemma get_element : get doc (p ++ [length pre]) = Some el.
Proof.
  rewrite get_app, Hparent. simpl. rewrite Hchildren, lookup_middle_len. reflexivity.
Qed.

Lemma insert_anchor_before (a : Element) :
  insert_anchor doc (p ++ [length pre]) a 0 =
  Ok (modify (fun _ => set_children (pre ++ a :: el :: post) parent) p doc,
      MkIns p (length pre)).
Proof.
  unfold insert_anchor. rewrite get_element. simpl.
  unfold addprevious. rewrite split_last_snoc.
  rewrite (modify_const _ p doc parent Hparent), Hchildren, insert_at_middle.
  reflexivity.
Qed.

Lemma insert_anchor_after (a : Element) (t : string) (o : Z) :
  el_text el = Some t -> o <> 0%Z -> (Py.len t <= o)%Z ->
  insert_anchor doc (p ++ [length pre]) a o =
  Ok (modify (fun _ => set_children (pre ++ el :: a :: post) parent) p doc,
      MkIns p (S (length pre))).
Proof.
  intros Ht Ho Hlen. unfold insert_anchor. rewrite get_element, Ht.
  destruct (Z.eqb_spec o 0) as [->|_]; [contradiction|].
  destruct (Z.leb_spec (Py.len t) o) as [_|]; [|lia].
  unfold addnext. rewrite split_last_snoc.
  rewrite (modify_const _ p doc parent Hparent), Hchildren, insert_at_after.
  reflexivity.
Qed.

Lemma insert_anchor_inside (a : Element) (t : string) (o : Z) :
  el_text el = Some t -> o <> 0%Z -> (o < Py.len t)%Z ->
  insert_anchor doc (p ++ [length pre]) a o =
  Ok (modify
        (fun _ =>
           set_children
             (pre ++ set_text (Some (Py.slice_to t o))
                       (set_children
                          (set_tail (Some (Py.slice_from t o)) a :: el_children el) el)
                  :: post)
             parent)
        p doc,
      MkIns (p ++ [length pre]) 0).
Proof.
  intros Ht Ho Hlen. unfold insert_anchor. rewrite get_element, Ht.
  destruct (Z.eqb_spec o 0) as [->|_]; [contradiction|].
  destruct (Z.leb_spec (Py.len t) o) as [|_]; [lia|].
  rewrite modify_app, (modify_const _ p doc parent Hparent).
  simpl. rewrite Hchildren, lookup_middle_len, insert_middle. reflexivity.
Qed.

End FromParent.

Lemma tokens_set_children (parent : Element) (ch : list Element) :
  tokens (set_children ch parent) =
  start_token parent :: chars (el_text parent) ++ flat_map tokens ch ++ chars (el_tail parent).
Proof. destruct parent; reflexivity. Qed.

Lemma tokens_unfold (e : Element) :
  tokens e =
  start_token e :: chars (el_text e) ++ flat_map tokens (el_children e) ++ chars (el_tail e).
Proof. destruct e; reflexivity. Qed.

Lemma tokens_anchor_tail (a : Element) (s : string) :
  is_leaf a -> tokens (set_tail (Some s) a) = start_token a :: chars (Some s).
Proof.
  destruct a as [tg at_ tx ch tl]. intros (H1 & H2 & _); simpl in *; subst.
  reflexivity.
Qed.

Lemma tokens_split_element (el a : Element) (t : string) (o : Z) :
  el_text el = Some t -> is_leaf a ->
  tokens (set_text (Some (Py.slice_to t o))
            (set_children (set_tail (Some (Py.slice_from t o)) a :: el_children el) el)) =
  (start_token el :: chars (Some (Py.slice_to t o))) ++ start_token a ::
  chars (Some (Py.slice_from t o)) ++ flat_map tokens (el_children el) ++ chars (el_tail el).
Proof.
  intros Ht Ha. destruct el as [tg at_ tx ch tl]; simpl in *.
  rewrite (tokens_anchor_tail a _ Ha). simpl.
  now rewrite <- !app_assoc.
Qed.

(** Lists of tokens are compared with the appends nested to the right. *)
Ltac app_norm :=
  repeat (progress (rewrite <- ?app_assoc, ?app_nil_r; simpl)); try reflexivity.

Lemma get_child (doc : Element) (p : Loc) (j : nat) (parent : Element) :
  get doc p = Some parent -> get doc (p ++ [j]) = el_children parent !! j.
Proof.
  intros H. rewrite get_app, H. simpl. now destruct (el_children parent !! j).
Qed.

Lemma children_set_children (ch : list Element) (e : Element) :
  el_children (set_children ch e) = ch.
Proof. now destruct e. Qed.

Lemma relocate_at_self (p : Loc) (k : nat) : relocate_at p k p = p.
Proof.
  induction p as [|j p IH]; simpl; [reflexivity|].
  now rewrite Nat.eqb_refl, IH.
Qed.

Lemma relocate_at_parent (p : Loc) (k i : nat) :
  relocate_at (p ++ [i]) k (p ++ [i]) = p ++ [i].
Proof. apply relocate_at_self. Qed.

Lemma slice_bound_inside (n : nat) (o : Z) :
  (0 <= o <= Z.of_nat n)%Z -> Py.slice_bound n o = Z.to_nat o.
Proof.
  intros H. unfold Py.slice_bound.
  destruct (Z.ltb_spec o 0); [lia|]. f_equal. lia.
Qed.

Lemma len_slice_to (t : string) (o : Z) :
  (0 <= o <= Py.len t)%Z -> Py.len (Py.slice_to t o) = o.
Proof.
  intros H. unfold Py.len, Py.slice_to in *.
  rewrite str_take_length, slice_bound_inside by exact H. lia.
Qed.

(** C6.  For an element [el] with direct text [t], child [i] of the node at
    [p], and an offset [0 <= o], [insert_anchor] succeeds and places a new
    empty anchor: immediately before the element when [o = 0]; immediately
    after it when [0 < o] and [len t <= o]; and otherwise as the first
    child of the element, whose text becomes [t[:o]] while [t[o:]] becomes
    the tail of the anchor.  In every case the text left in the element
    followed by the tail of the anchor is [t], and the document in document
    order is the one before with the start of the anchor added. *)
Theorem insert_anchor_placement (doc : Element) (p : Loc) (i : nat)
    (parent el anchor : Element) (t : string) (o : Z) :
  get doc p = Some parent ->
  el_children parent !! i = Some el ->
  el_text el = Some t ->
  is_leaf anchor ->
  (0 <= o)%Z ->
  exists doc' ins parent' el' anchor',
    insert_anchor doc (p ++ [i]) anchor o = Ok (doc', ins) /\
    get doc' p = Some parent' /\
    get doc' (relocate ins (p ++ [i])) = Some el' /\
    get doc' (ins_loc ins) = Some anchor' /\
    (o = 0%Z ->
       el_children parent' =
         take i (el_children parent) ++ anchor :: el :: drop (S i) (el_children parent)
       /\ el' = el /\ anchor' = anchor) /\
    ((0 < o)%Z /\ (Py.len t <= o)%Z ->
       el_children parent' =
         take i (el_children parent) ++ el :: anchor :: drop (S i) (el_children parent)
       /\ el' = el /\ anchor' = anchor) /\
    ((0 < o < Py.len t)%Z ->
       el_children parent' = <[i := el']> (el_children parent) /\
       el' = set_text (Some (Py.slice_to t o))
               (set_children (anchor' :: el_children el) el) /\
       anchor' = set_tail (Some (Py.slice_from t o)) anchor /\
       Py.len (Py.slice_to t o) = o) /\
    opt_str (el_text el') +:+ opt_str (el_tail anchor') = t /\
    exists A B, tokens doc = A ++ B /\ tokens doc' = A ++ start_token anchor :: B.
Proof.
  intros Hp Hi Ht Ha Ho.
  pose proof (lookup_lt_Some _ _ _ Hi) as Hlt.
  set (pre := take i (el_children parent)).
  set (post := drop (S i) (el_children parent)).
  assert (Hch : el_children parent = pre ++ el :: post)
    by (symmetry; apply take_drop_middle; exact Hi).
  assert (Hlen : length pre = i) by (apply length_take_le; lia).
  destruct (tokens_modify p doc parent Hp) as (A & B & HA & HB).
  destruct Ha as (Ha1 & Ha2 & Ha3).
  assert (Hleaf : is_leaf anchor) by (repeat split; assumption).
  pose proof (fun y => get_modify (fun _ => y) p doc parent Hp) as Hget.
  simpl in Hget. rewrite <- Hlen.
  destruct (Z.eq_dec o 0%Z) as [->|Hne]; [|destruct (Z_le_gt_dec (Py.len t) o) as [Hge|Hlt']].
  - (* before *)
    eexists _, _, (set_children (pre ++ anchor :: el :: post) parent), el, anchor.
    split; [apply (insert_anchor_before doc p parent el pre post Hp Hch)|].
    split; [apply Hget|].
    split.
    { unfold relocate; simpl. rewrite relocate_at_snoc, Nat.leb_refl.
      rewrite (get_child _ p _ _ (Hget _)).
      rewrite children_set_children.
      replace (pre ++ anchor :: el :: post) with ((pre ++ [anchor]) ++ el :: post)
        by (now rewrite <- app_assoc).
      replace (S (length pre)) with (length (pre ++ [anchor]))
        by (rewrite length_app; simpl; lia).
      apply lookup_middle_len. }
    split.
    { unfold ins_loc; simpl.
      rewrite (get_child _ p _ _ (Hget _)).
      rewrite children_set_children. apply lookup_middle_len. }
    split; [intros _; rewrite children_set_children; auto|].
    split; [intros [? ?]; lia|].
    split; [intros ?; lia|].
    split.
    { rewrite Ht, Ha3. simpl. unfold opt_str; simpl.
      clear. induction t as [|c t IH]; [reflexivity|].
      rewrite append_cons. now rewrite IH. }
    exists (A ++ start_token parent :: chars (el_text parent) ++ flat_map tokens pre),
           (flat_map tokens (el :: post) ++ chars (el_tail parent) ++ B).
    split.
    + rewrite HA, tokens_unfold, Hch, flat_map_app.
      app_norm.
    + rewrite HB, tokens_set_children, flat_map_app.
      simpl. rewrite (tokens_leaf anchor Hleaf).
      app_norm.
  - (* after *)
    eexists _, _, (set_children (pre ++ el :: anchor :: post) parent), el, anchor.
    split; [apply (insert_anchor_after doc p parent el pre post Hp Hch anchor t o Ht Hne Hge)|].
    split; [apply Hget|].
    split.
    { unfold relocate; simpl. rewrite relocate_at_snoc.
      destruct (Nat.leb_spec (S (length pre)) (length pre)); [lia|].
      rewrite (get_child _ p _ _ (Hget _)).
      rewrite children_set_children. apply lookup_middle_len. }
    split.
    { unfold ins_loc; simpl.
      rewrite (get_child _ p _ _ (Hget _)).
      rewrite children_set_children.
      replace (pre ++ el :: anchor :: post) with ((pre ++ [el]) ++ anchor :: post)
        by (now rewrite <- app_assoc).
      replace (S (length pre)) with (length (pre ++ [el]))
        by (rewrite length_app; simpl; lia).
      apply lookup_middle_len. }
    split; [intros ?; lia|].
    split; [intros _; rewrite children_set_children; auto|].
    split; [intros ?; lia|].
    split.
    { rewrite Ht, Ha3. simpl. unfold opt_str; simpl.
      clear. induction t as [|c t IH]; [reflexivity|].
      rewrite append_cons. now rewrite IH. }
    exists (A ++ start_token parent :: chars (el_text parent) ++ flat_map tokens (pre ++ [el])),
           (flat_map tokens post ++ chars (el_tail parent) ++ B).
    split.
    + rewrite HA, tokens_unfold, Hch, !flat_map_app.
      app_norm.
    + rewrite HB, tokens_set_children, !flat_map_app.
      simpl. rewrite (tokens_leaf anchor Hleaf).
      app_norm.
  - (* inside the text *)
    assert (Hlt2 : (o < Py.len t)%Z) by lia.
    set (anchor' := set_tail (Some (Py.slice_from t o)) anchor).
    set (el' := set_text (Some (Py.slice_to t o))
                  (set_children (anchor' :: el_children el) el)).
    eexists _, _, (set_children (pre ++ el' :: post) parent), el', anchor'.
    split; [apply (insert_anchor_inside doc p parent el pre post Hp Hch anchor t o Ht Hne Hlt2)|].
    split; [apply Hget|].
    assert (Hel' : get (modify (fun _ => set_children (pre ++ el' :: post) parent) p doc)
                     (p ++ [length pre]) = Some el').
    { rewrite (get_child _ p _ _ (Hget _)).
      rewrite children_set_children. apply lookup_middle_len. }
    split.
    { unfold relocate; simpl. rewrite relocate_at_parent. exact Hel'. }
    split.
    { unfold ins_loc; simpl. rewrite (get_child _ _ _ _ Hel').
      subst el'. destruct el; reflexivity. }
    split; [intros ?; lia|].
    split; [intros [? ?]; lia|].
    split.
    { intros _. rewrite children_set_children, Hch, insert_middle.
      repeat split; try reflexivity. apply len_slice_to; lia. }
    split.
    { subst el' anchor'. destruct el, anchor; simpl. apply slice_to_from. }
    exists (A ++ start_token parent :: chars (el_text parent) ++ flat_map tokens pre
              ++ start_token el :: chars (Some (Py.slice_to t o))),
           (chars (Some (Py.slice_from t o)) ++ flat_map tokens (el_children el)
              ++ chars (el_tail el) ++ flat_map tokens post ++ chars (el_tail parent) ++ B).
    split.
    + rewrite HA, tokens_unfold, Hch, flat_map_app. simpl.
      rewrite (tokens_unfold el), Ht.
      rewrite <- (slice_to_from t o) at 1. rewrite chars_app.
      app_norm.
    + rewrite HB, tokens_set_children, flat_map_app. simpl.
      subst el' anchor'. rewrite (tokens_split_element el anchor t o Ht Hleaf).
      app_norm.
Qed.

(** ** Two anchors in one element *)

Lemma tokens_children_twice (parent : Element) (c1 c2 : list Element) :
  tokens (set_children c2 (set_children c1 parent)) = tokens (set_children c2 parent).
Proof. now destruct parent. Qed.

Lemma adds_in_order_precedes (a b : Token) (old new : list Token) :
  adds_in_order a b old new -> precedes a b new.
Proof. intros (A & B & C & _ & H). now exists A, B, C. Qed.

Lemma adds_in_order_text (a b : Element) (old new : list Token) :
  adds_in_order (start_token a) (start_token b) old new ->
  filter is_char new = filter is_char old.
Proof.
  intros (A & B & C & -> & ->).
  rewrite !filter_app, !filter_cons, !filter_app, !filter_cons. reflexivity.
Qed.

Lemma chars_slices (t : string) (o : Z) :
  chars (Some t) = chars (Some (Py.slice_to t o)) ++ chars (Some (Py.slice_from t o)).
Proof. now rewrite <- chars_app, slice_to_from. Qed.

Section TwoAnchors.

Variables (doc : Element) (p : Loc) (parent el : Element) (pre post : list Element).
Variables (t : string) (aS aE : Element) (s e : Z).
Hypothesis Hparent : get doc p = Some parent.
Hypothesis Hchildren : el_children parent = pre ++ el :: post.
Hypothesis Htext : el_text el = Some t.
Hypothesis HaS : is_leaf aS.
Hypothesis HaE : is_leaf aE.

(** An addition inside the tokens of the element is an addition to the
    document. *)
Lemma lift_to_document (P2 : Element) (new : list Token) :
  tokens P2 =
    start_token parent :: chars (el_text parent) ++
    (flat_map tokens pre ++ new ++ flat_map tokens post) ++ chars (el_tail parent) ->
  adds_in_order (start_token aS) (start_token aE) (tokens el) new ->
  adds_in_order (start_token aS) (start_token aE) (tokens doc)
    (tokens (modify (fun _ => P2) p doc)).
Proof.
  intros HX (A1 & B1 & C1 & Hel & ->).
  destruct (tokens_modify p doc parent Hparent) as (A & B & HA & HB).
  exists (A ++ start_token parent :: chars (el_text parent) ++ flat_map tokens pre ++ A1),
         B1, (C1 ++ flat_map tokens post ++ chars (el_tail parent) ++ B).
  split.
  - rewrite HA, tokens_unfold, Hchildren, flat_map_app. simpl. rewrite Hel. app_norm.
  - rewrite HB, HX. app_norm.
Qed.

Lemma relocate_after_sibling :
  relocate (MkIns p (S (length pre))) (p ++ [length pre]) = p ++ [length pre].
Proof.
  unfold relocate; simpl. rewrite relocate_at_snoc.
  destruct (Nat.leb_spec (S (length pre)) (length pre)); [lia | reflexivity].
Qed.

Lemma relocate_first_child :
  relocate (MkIns (p ++ [length pre]) 0) (p ++ [length pre]) = p ++ [length pre].
Proof. unfold relocate; simpl. apply relocate_at_self. Qed.

(** The end anchor is inserted at [e], then the start anchor at [s], in the
    same element. *)
Lemma insert_end_then_start :
  (0 <= s < e)%Z ->
  exists doc1 ins1 doc2 ins2,
    insert_anchor doc (p ++ [length pre]) aE e = Ok (doc1, ins1) /\
    insert_anchor doc1 (relocate ins1 (p ++ [length pre])) aS s = Ok (doc2, ins2) /\
    adds_in_order (start_token aS) (start_token aE) (tokens doc) (tokens doc2).
Proof.
  intros Hse.
  pose proof (fun y => get_modify (fun _ => y) p doc parent Hparent) as Hget.
  simpl in Hget.
  destruct (Z_le_gt_dec (Py.len t) e) as [Hend|Hend].
  - (* the end anchor follows the element *)
    set (P1 := set_children (pre ++ el :: aE :: post) parent).
    assert (Hch1 : el_children P1 = pre ++ el :: aE :: post)
      by apply children_set_children.
    eexists _, _.
    destruct (Z.eq_dec s 0%Z) as [Hs|Hs];
      [|destruct (Z_le_gt_dec (Py.len t) s) as [Hs'|Hs']].
    + eexists _, _. split; [|split].
      * apply (insert_anchor_after doc p parent el pre post Hparent Hchildren
                 aE t e Htext); lia.
      * rewrite relocate_after_sibling, Hs.
        apply (insert_anchor_before _ p P1 el pre (aE :: post) (Hget P1) Hch1).
      * rewrite (modify_modify _ _ p doc parent Hparent).
        apply (lift_to_document _ (start_token aS :: tokens el ++ [start_token aE])).
        -- unfold P1. rewrite tokens_children_twice, tokens_set_children.
           rewrite flat_map_app. simpl.
           rewrite (tokens_leaf aS HaS), (tokens_leaf aE HaE). app_norm.
        -- exists [], (tokens el), []. split; app_norm.
    + eexists _, _. split; [|split].
      * apply (insert_anchor_after doc p parent el pre post Hparent Hchildren
                 aE t e Htext); lia.
      * rewrite relocate_after_sibling.
        apply (insert_anchor_after _ p P1 el pre (aE :: post) (Hget P1) Hch1
                 aS t s Htext Hs Hs').
      * rewrite (modify_modify _ _ p doc parent Hparent).
        apply (lift_to_document _ (tokens el ++ start_token aS :: [start_token aE])).
        -- unfold P1. rewrite tokens_children_twice, tokens_set_children.
           rewrite flat_map_app. simpl.
           rewrite (tokens_leaf aS HaS), (tokens_leaf aE HaE). app_norm.
        -- exists (tokens el), [], []. split; app_norm.
    + eexists _, _. split; [|split].
      * apply (insert_anchor_after doc p parent el pre post Hparent Hchildren
                 aE t e Htext); lia.
      * rewrite relocate_after_sibling.
        apply (insert_anchor_inside _ p P1 el pre (aE :: post) (Hget P1) Hch1
                 aS t s Htext Hs); lia.
      * rewrite (modify_modify _ _ p doc parent Hparent).
        apply (lift_to_document _
                 ((start_token el :: chars (Some (Py.slice_to t s))) ++ start_token aS ::
                  (chars (Some (Py.slice_from t s)) ++ flat_map tokens (el_children el)
                   ++ chars (el_tail el)) ++ [start_token aE])).
        -- unfold P1. rewrite tokens_children_twice, tokens_set_children.
           rewrite flat_map_app. simpl.
           rewrite (tokens_split_element el aS t s Htext HaS), (tokens_leaf aE HaE).
           app_norm.
        -- eexists _, _, []. split; [|reflexivity].
           rewrite (tokens_unfold el), Htext, (chars_slices t s). app_norm.
  - (* the end anchor is inside the text *)
    set (el1 := set_text (Some (Py.slice_to t e))
                  (set_children (set_tail (Some (Py.slice_from t e)) aE :: el_children el) el)).
    set (P1 := set_children (pre ++ el1 :: post) parent).
    assert (Hch1 : el_children P1 = pre ++ el1 :: post)
      by apply children_set_children.
    assert (Htext1 : el_text el1 = Some (Py.slice_to t e))
      by (unfold el1; now destruct el).
    assert (Hlen1 : Py.len (Py.slice_to t e) = e) by (apply len_slice_to; lia).
    assert (Htok1 : tokens el1 =
              (start_token el :: chars (Some (Py.slice_to t e))) ++ start_token aE ::
              chars (Some (Py.slice_from t e)) ++ flat_map tokens (el_children el)
              ++ chars (el_tail el))
      by apply (tokens_split_element el aE t e Htext HaE).
    eexists _, _.
    destruct (Z.eq_dec s 0%Z) as [Hs|Hs].
    + eexists _, _. split; [|split].
      * apply (insert_anchor_inside doc p parent el pre post Hparent Hchildren
                 aE t e Htext); lia.
      * rewrite relocate_first_child, Hs.
        apply (insert_anchor_before _ p P1 el1 pre post (Hget P1) Hch1).
      * rewrite (modify_modify _ _ p doc parent Hparent).
        apply (lift_to_document _ (start_token aS :: tokens el1)).
        -- unfold P1. rewrite tokens_children_twice, tokens_set_children.
           rewrite flat_map_app. simpl.
           rewrite (tokens_leaf aS HaS). app_norm.
        -- rewrite Htok1. exists [], (start_token el :: chars (Some (Py.slice_to t e))), 
             (chars (Some (Py.slice_from t e)) ++ flat_map tokens (el_children el)
              ++ chars (el_tail el)).
           split; [|app_norm].
           rewrite (tokens_unfold el), Htext, (chars_slices t e). app_norm.
    + eexists _, _. split; [|split].
      * apply (insert_anchor_inside doc p parent el pre post Hparent Hchildren
                 aE t e Htext); lia.
      * rewrite relocate_first_child.
        apply (insert_anchor_inside _ p P1 el1 pre post (Hget P1) Hch1
                 aS _ s Htext1 Hs); lia.
      * rewrite (modify_modify _ _ p doc parent Hparent).
        apply (lift_to_document _
                 ((start_token el :: chars (Some (Py.slice_to (Py.slice_to t e) s))) ++
                  start_token aS ::
                  chars (Some (Py.slice_from (Py.slice_to t e) s)) ++
                  start_token aE ::
                  chars (Some (Py.slice_from t e)) ++ flat_map tokens (el_children el)
                  ++ chars (el_tail el))).
        -- unfold P1. rewrite tokens_children_twice, tokens_set_children.
           rewrite flat_map_app. simpl.
           rewrite (tokens_split_element el1 aS _ s Htext1 HaS).
           unfold el1 at 2 3. destruct el as [tg at_ tx ch tl]. simpl.
           rewrite (tokens_anchor_tail aE _ HaE). app_norm.
        -- eexists _, _, _. split; [|reflexivity].
           rewrite (tokens_unfold el), Htext, (chars_slices t e).
           rewrite (chars_slices (Py.slice_to t e) s). app_norm.
Qed.

End TwoAnchors.

Lemma precedes_precedesb (a b : Token) (l : list Token) :
  precedes a b l -> precedesb a b l = true.
Proof.
  intros (A & B & C & ->). induction A as [|x A IH]; simpl.
  - rewrite bool_decide_eq_true_2 by reflexivity.
    rewrite bool_decide_eq_true_2; [reflexivity|].
    apply elem_of_app. right. apply elem_of_cons. now left.
  - rewrite IH. apply orb_true_r.
Qed.

Lemma precedesb_precedes (a b : Token) (l : list Token) :
  precedesb a b l = true -> precedes a b l.
Proof.
  induction l as [|x l IH]; simpl; [discriminate|].
  intros H. apply orb_true_iff in H as [H|H].
  - apply andb_true_iff in H as [H1 H2].
    apply bool_decide_eq_true_1 in H1. apply bool_decide_eq_true_1 in H2. subst x.
    apply list_elem_of_split in H2 as (B & C & ->). now exists [], B, C.
  - destruct (IH H) as (A & B & C & ->). now exists (x :: A), B, C.
Qed.

(** ** Properties of insert_note *)

Section InsertNote.

Variable xpath : Element -> Loc -> string -> list Loc.
Variable py_float : string -> option float.
Variable convert : string -> option string.
Variable load_xmlobject_from_string : string -> option Element.
Variable absolutize_url : string -> string.
Variable slugify : string -> string.
Variable page_id_by_xlink : Volume -> string -> option string.

Local Abbreviation insert_note' :=
  (insert_note xpath py_float convert load_xmlobject_from_string absolutize_url
     slugify page_id_by_xlink).
Local Abbreviation annotation_to_tei' :=
  (annotation_to_tei convert load_xmlobject_from_string absolutize_url
     slugify page_id_by_xlink).

Lemma anchor_is_leaf (type id : string) (next : option string) :
  is_leaf (Anchor type id next).
Proof. repeat split. Qed.

(** C5, amended.  When the start and the end of a selection are found in
    the same element, one with direct text, and the offsets are
    [0 <= s < e], [insert_note] inserts both anchors: the document it
    leaves, read in document order, is the document before with the start
    anchor and, later, the end anchor added.  So the text read with the
    anchors as zero-width is the original text, and the start anchor
    precedes the end anchor. *)
Theorem same_element_highlight (st : State) (teipage : Loc) (a : Annotation)
    (r : Range) (p : Loc) (i : nat) (parent el : Element) (t : string)
    (more_starts more_ends : list Loc) :
  selection_range a = Some r ->
  xpath (vol_facsimile (st_vol st)) teipage (start_xpath r) = (p ++ [i]) :: more_starts ->
  xpath (vol_facsimile (st_vol st)) teipage (end_xpath r) = (p ++ [i]) :: more_ends ->
  get (vol_facsimile (st_vol st)) p = Some parent ->
  el_children parent !! i = Some el ->
  el_text el = Some t ->
  (0 <= range_startOffset r < range_endOffset r)%Z ->
  let doc' := vol_facsimile (st_vol (final_state (insert_note' st teipage a))) in
  adds_in_order (start_token (start_anchor a)) (start_token (end_anchor a))
    (tokens (vol_facsimile (st_vol st))) (tokens doc') /\
  text_content doc' = text_content (vol_facsimile (st_vol st)) /\
  precedes (start_token (start_anchor a)) (start_token (end_anchor a)) (tokens doc').
Proof.
  intros Hr Hs He Hp Hi Ht Hoff.
  pose proof (lookup_lt_Some _ _ _ Hi) as Hlt.
  assert (Hch : el_children parent =
                take i (el_children parent) ++ el :: drop (S i) (el_children parent))
    by (symmetry; apply take_drop_middle; exact Hi).
  assert (Hlen : length (take i (el_children parent)) = i)
    by (apply length_take_le; lia).
  destruct (insert_end_then_start _ p parent el _ _ t
              (start_anchor a) (end_anchor a)
              (range_startOffset r) (range_endOffset r)
              Hp Hch Ht (anchor_is_leaf _ _ _) (anchor_is_leaf _ _ _) Hoff)
    as (doc1 & ins1 & doc2 & ins2 & H1 & H2 & Hord).
  rewrite Hlen in H1, H2.
  assert (Hdoc : vol_facsimile (st_vol (final_state (insert_note' st teipage a))) = doc2).
  { unfold insert_note, place_highlight. rewrite Hr, Hs, He, H1, H2.
    destruct (annotation_to_tei' a _) as [n|err]; reflexivity. }
  simpl. rewrite Hdoc. split; [exact Hord|]. split.
  - apply (adds_in_order_text _ _ _ _ Hord).
  - apply (adds_in_order_precedes _ _ _ _ Hord).
Qed.

Lemma insert_note_unresolved (st : State) (teipage : Loc) (a : Annotation) (r : Range) :
  selection_range a = Some r ->
  xpath (vol_facsimile (st_vol st)) teipage (start_xpath r) = [] \/
  xpath (vol_facsimile (st_vol st)) teipage (end_xpath r) = [] ->
  insert_note' st teipage a = Done (warn (skip_warning a) st) [].
Proof.
  intros Hr Hx. unfold insert_note, place_highlight. rewrite Hr.
  destruct Hx as [-> | ->]; [reflexivity|].
  destruct (xpath _ teipage (start_xpath r)); reflexivity.
Qed.

(** C7.  When the start path or the end path of a selection finds no
    node, [insert_note] returns without an error: a warning is logged, and
    the document is left as it was, so no note is appended and no anchor
    is inserted. *)
Theorem unresolved_path_skips (st : State) (teipage : Loc) (a : Annotation) (r : Range) :
  selection_range a = Some r ->
  xpath (vol_facsimile (st_vol st)) teipage (start_xpath r) = [] \/
  xpath (vol_facsimile (st_vol st)) teipage (end_xpath r) = [] ->
  exists st',
    insert_note' st teipage a = Done st' [] /\
    st_vol st' = st_vol st /\
    st_log st' =
      st_log st ++ ["Could not find start or end xpath for annotation " +:+ ann_id a].
Proof.
  intros Hr Hx. exists (warn (skip_warning a) st).
  split; [now apply (insert_note_unresolved st teipage a r) | split; reflexivity].
Qed.

(** C8.  For an annotation with no selection ([ranges] absent or empty)
    and no image region, [insert_note] raises and leaves the state as it
    was: no note is appended.  The error is the unbound [target], unless
    building the note raised first. *)
Theorem no_descriptor_raises (st : State) (teipage : Loc) (a : Annotation) :
  ann_ranges a = None \/ ann_ranges a = Some [] ->
  ann_image_selection a = None ->
  exists e,
    insert_note' st teipage a = Raised e st /\
    (forall n, annotation_to_tei' a (st_vol st) = Ok n -> e = UnboundLocalError).
Proof.
  intros Hr Hi. unfold insert_note, place_highlight, selection_range.
  assert (Hsel : match ann_ranges a with Some (r :: _) => Some r | _ => None end = None)
    by (destruct Hr as [-> | ->]; reflexivity).
  rewrite Hsel, Hi.
  destruct (annotation_to_tei' a (st_vol st)) as [n|err].
  - exists UnboundLocalError. split; [reflexivity | reflexivity].
  - exists err. split; [reflexivity | discriminate].
Qed.


End InsertNote.

(** ** References across insertions *)

Lemma same_node_refl (x : Element) : same_node x x.
Proof. split; reflexivity. Qed.

Lemma same_node_trans (x y z : Element) : same_node x y -> same_node y z -> same_node x z.
Proof. intros [H1 H2] [H3 H4]. split; congruence. Qed.

Lemma same_node_set_children (c : list Element) (e : Element) :
  same_node e (set_children c e).
Proof. destruct e; split; reflexivity. Qed.

Lemma insert_at_lookup_lt {A} (k j : nat) (a : A) (l : list A) (c : A) :
  l !! j = Some c -> (j < k)%nat -> insert_at k a l !! j = Some c.
Proof.
  intros H Hlt. unfold insert_at.
  pose proof (lookup_lt_Some _ _ _ H) as L.
  rewrite lookup_app_l by (rewrite length_take; lia).
  rewrite lookup_take_lt by lia. exact H.
Qed.

Lemma insert_at_lookup_ge {A} (k j : nat) (a : A) (l : list A) (c : A) :
  l !! j = Some c -> (k <= j)%nat -> insert_at k a l !! S j = Some c.
Proof.
  intros H Hge. unfold insert_at.
  pose proof (lookup_lt_Some _ _ _ H) as L.
  rewrite lookup_app_r by (rewrite length_take; lia).
  rewrite length_take, Nat.min_l by lia.
  replace (S j - k)%nat with (S (j - k)) by lia. simpl.
  rewrite lookup_drop. replace (k + (j - k))%nat with j by lia. exact H.
Qed.

Lemma tracks_refl (d : Element) : tracks d d [].
Proof. intros q x H. exists x. split; [exact H | apply same_node_refl]. Qed.

Lemma tracks_app (d d' d'' : Element) (t1 t2 : list Insertion) :
  tracks d d' t1 -> tracks d' d'' t2 -> tracks d d'' (t1 ++ t2).
Proof.
  intros H1 H2 q x Hq.
  destruct (H1 q x Hq) as (x' & Hq' & S1).
  destruct (H2 _ x' Hq') as (x'' & Hq'' & S2).
  exists x''. split; [|eapply same_node_trans; eauto].
  unfold relocate_all in *. now rewrite fold_left_app.
Qed.

(** A node inserted as child [k] of the node at [p]: every node is found
    again at its relocated place. *)
Lemma tracks_modify (f : Element -> Element) (k : nat) (a : Element) (p : Loc) :
  forall doc parent,
  get doc p = Some parent ->
  same_node parent (f parent) ->
  el_children (f parent) = insert_at k a (el_children parent) ->
  tracks doc (modify f p doc) [MkIns p k].
Proof.
  induction p as [|i p IH]; intros doc parent Hp Hsame Hch q x Hq;
    unfold relocate_all, relocate; simpl in *.
  - inversion Hp; subst parent. destruct q as [|j rest]; simpl in *.
    + inversion Hq; subst x. eauto.
    + destruct (el_children doc !! j) as [c|] eqn:E; [|discriminate].
      exists x. split; [|apply same_node_refl].
      destruct (Nat.leb_spec k j); simpl; rewrite Hch.
      * now rewrite (insert_at_lookup_ge k j a _ c E).
      * now rewrite (insert_at_lookup_lt k j a _ c E).
  - destruct (el_children doc !! i) as [c|] eqn:E; [|discriminate].
    pose proof (lookup_lt_Some _ _ _ E) as L.
    destruct q as [|j rest]; simpl in *.
    + inversion Hq; subst x. eexists. split; [reflexivity|].
      apply same_node_set_children.
    + destruct (Nat.eqb_spec i j) as [->|Hne]; simpl.
      * rewrite children_set_children, list_lookup_insert_eq by exact L.
        rewrite E in Hq.
        destruct (IH c parent Hp Hsame Hch rest x Hq) as (x' & Hx' & S').
        exists x'. split; [exact Hx' | exact S'].
      * rewrite children_set_children, list_lookup_insert_ne by exact Hne.
        exists x. split; [exact Hq | apply same_node_refl].
Qed.

(** A node appended after the children of the node at [p] moves no node. *)
Lemma relocate_at_end (p : Loc) :
  forall doc parent q x,
  get doc p = Some parent -> get doc q = Some x ->
  relocate_at p (length (el_children parent)) q = q.
Proof.
  induction p as [|i p IH]; intros doc parent q x Hp Hq; simpl in *.
  - inversion Hp; subst parent. destruct q as [|j rest]; [reflexivity|]. simpl in Hq.
    destruct (el_children doc !! j) as [c|] eqn:E; [|discriminate].
    pose proof (lookup_lt_Some _ _ _ E) as L.
    destruct (Nat.leb_spec (length (el_children doc)) j); [lia | reflexivity].
  - destruct (el_children doc !! i) as [c|] eqn:E; [|discriminate].
    destruct q as [|j rest]; [reflexivity|]. simpl in Hq.
    destruct (Nat.eqb_spec i j) as [->|Hne]; [|reflexivity].
    rewrite E in Hq. now rewrite (IH c parent rest x Hp Hq).
Qed.

Lemma tracks_append (doc : Element) (p : Loc) (page zone : Element) :
  get doc p = Some page ->
  tracks doc (modify (fun e => set_children (el_children e ++ [zone]) e) p doc) [].
Proof.
  intros Hp q x Hq.
  assert (T : tracks doc (modify (fun e => set_children (el_children e ++ [zone]) e) p doc)
                [MkIns p (length (el_children page))]).
  { apply (tracks_modify _ _ zone p doc page Hp).
    - apply same_node_set_children.
    - rewrite children_set_children. unfold insert_at.
      now rewrite take_ge, drop_ge by lia. }
  destruct (T q x Hq) as (x' & Hx' & S').
  exists x'. split; [|exact S'].
  unfold relocate_all, relocate in Hx'. simpl in Hx'.
  now rewrite (relocate_at_end p doc page q x Hp Hq) in Hx'.
Qed.

Lemma split_last_Some (l p : Loc) (i : nat) : split_last l = Some (p, i) -> l = p ++ [i].
Proof.
  revert p. induction l as [|j l IH]; intros p H; simpl in H; [discriminate|].
  destruct l as [|j' l'].
  - inversion H; subst. reflexivity.
  - destruct (split_last (j' :: l')) as [[p' i']|] eqn:E; [|discriminate].
    inversion H; subst. simpl. f_equal. now apply IH.
Qed.

Lemma get_parent (doc : Element) (p : Loc) (i : nat) (el : Element) :
  get doc (p ++ [i]) = Some el -> exists parent, get doc p = Some parent.
Proof.
  rewrite get_app. destruct (get doc p) as [parent|]; [eauto | discriminate].
Qed.

Lemma insert_anchor_tracks (doc : Element) (l : Loc) (a : Element) (o : Z)
    (doc' : Element) (ins : Insertion) :
  insert_anchor doc l a o = Ok (doc', ins) -> tracks doc doc' [ins].
Proof.
  unfold insert_anchor. destruct (get doc l) as [el|] eqn:Hel; [|discriminate].
  assert (Hsib : forall k,
            match split_last l with
            | Some (p, i) =>
                Ok (modify (fun e => set_children (insert_at (k i) a (el_children e)) e) p doc,
                    MkIns p (k i))
            | None => Err TypeError
            end = Ok (doc', ins) -> tracks doc doc' [ins]).
  { intros k H. destruct (split_last l) as [[p i]|] eqn:E; [|discriminate].
    apply split_last_Some in E. subst l. inversion H; subst.
    destruct (get_parent doc p i el Hel) as (parent & Hp).
    apply (tracks_modify _ _ a p doc parent Hp).
    - apply same_node_set_children.
    - apply children_set_children. }
  destruct (o =? 0)%Z.
  - intros H. apply (Hsib (fun i => i)). exact H.
  - destruct (el_text el) as [t|]; [|discriminate].
    destruct (Py.len t <=? o)%Z.
    + intros H. apply (Hsib S). exact H.
    + intros H. inversion H; subst.
      apply (tracks_modify _ _ (set_tail (Some (Py.slice_from t o)) a) l doc el Hel).
      * destruct el; split; reflexivity.
      * destruct el; reflexivity.
Qed.

(** ** Properties of annotated_tei *)

Section AnnotatedTei.

Variable xpath : Element -> Loc -> string -> list Loc.
Variable py_float : string -> option float.
Variable convert : string -> option string.
Variable load_xmlobject_from_string : string -> option Element.
Variable absolutize_url : string -> string.
Variable slugify : string -> string.
Variable page_id_by_xlink : Volume -> string -> option string.
Variable page_list : Element -> list Loc.
Variable version : string.
Variable export_date : string.

Local Abbreviation insert_note' :=
  (insert_note xpath py_float convert load_xmlobject_from_string absolutize_url
     slugify page_id_by_xlink).
Local Abbreviation notes_loop' :=
  (notes_loop xpath py_float convert load_xmlobject_from_string absolutize_url
     slugify page_id_by_xlink).
Local Abbreviation pages_loop' :=
  (pages_loop xpath py_float convert load_xmlobject_from_string absolutize_url
     slugify page_id_by_xlink).
Local Abbreviation annotated_tei' :=
  (annotated_tei xpath py_float convert load_xmlobject_from_string absolutize_url
     slugify page_id_by_xlink page_list version export_date).

Local Abbreviation visited := (visited_by insert_note').

Lemma insert_note_done (st : State) (page : Loc) (a : Annotation)
    (st' : State) (ins : list Insertion) :
  insert_note' st page a = Done st' ins ->
  tracks (vol_facsimile (st_vol st)) (vol_facsimile (st_vol st')) ins /\
  st_log st `prefix_of` st_log st'.
Proof.
  unfold insert_note, place_highlight.
  destruct (selection_range a) as [r|].
  - destruct (xpath _ page (start_xpath r)) as [|s0 ?];
      [intros H; inversion H; subst; split;
         [apply tracks_refl | now apply prefix_app_r]|].
    destruct (xpath _ page (end_xpath r)) as [|e0 ?];
      [intros H; inversion H; subst; split;
         [apply tracks_refl | now apply prefix_app_r]|].
    destruct (insert_anchor _ e0 _ _) as [[doc1 ins1]|] eqn:H1; [|discriminate].
    destruct (insert_anchor doc1 _ _ _) as [[doc2 ins2]|] eqn:H2; [|discriminate].
    destruct (annotation_to_tei _ _ _ _ _ a _) as [n|]; [|discriminate].
    intros H; inversion H; subst. simpl. split; [|reflexivity].
    apply (tracks_app _ doc1 _ [ins1] [ins2]).
    + eapply insert_anchor_tracks; eauto.
    + eapply insert_anchor_tracks; eauto.
  - destruct (ann_image_selection a) as [sel|].
    + destruct (get _ page) as [pg|] eqn:Hpg; [|discriminate].
      destruct (image_highlight py_float pg sel _) as [zone|]; [|discriminate].
      destruct (annotation_to_tei _ _ _ _ _ a _) as [n|]; [|discriminate].
      intros H; inversion H; subst. simpl. split; [|reflexivity].
      eapply tracks_append; eauto.
    + destruct (annotation_to_tei _ _ _ _ _ a _) as [n|]; discriminate.
Qed.

Lemma notes_loop_done (d0 : Element) (href : string) (page0 : Loc) (notes : list Annotation) :
  forall st tagset trail st' tagset' trail',
  notes_loop' href page0 notes st tagset trail = Done st' (tagset', trail') ->
  tracks d0 (vol_facsimile (st_vol st)) trail ->
  tracks d0 (vol_facsimile (st_vol st')) trail' /\
  tagset ⊆ tagset' /\
  st_log st `prefix_of` st_log st' /\
  forall a, a ∈ notes -> default EmptyString (ann_ark a) = href -> visited a st' tagset'.
Proof.
  induction notes as [|note rest IH]; intros st tagset trail st' tagset' trail' H T; simpl in H.
  - inversion H; subst. repeat split; try done.
    intros a Ha. inversion Ha.
  - destruct (String.eqb_spec (default EmptyString (ann_ark note)) href) as [Hark|Hark].
    + destruct (insert_note' st (relocate_all trail page0) note) as [st1 ins|] eqn:Hn;
        [|discriminate].
      destruct (insert_note_done _ _ _ _ _ Hn) as (T1 & L1).
      destruct (IH _ _ _ _ _ _ H (tracks_app _ _ _ _ _ T T1)) as (T' & S' & L' & V').
      split; [exact T'|]. split; [set_solver|]. split; [etrans; eauto|].
      intros a Ha Hak. apply elem_of_cons in Ha as [->|Ha]; [|now apply V'].
      exists st, (relocate_all trail page0), st1, ins.
      split; [exact Hn|]. split; [set_solver | exact L'].
    + destruct (IH _ _ _ _ _ _ H T) as (T' & S' & L' & V').
      repeat split; try done.
      intros a Ha Hak. apply elem_of_cons in Ha as [->|Ha]; [contradiction | now apply V'].
Qed.

Lemma visited_mono (a : Annotation) (st st' : State) (tagset tagset' : gset string) :
  visited a st tagset -> tagset ⊆ tagset' -> st_log st `prefix_of` st_log st' ->
  visited a st' tagset'.
Proof.
  intros (st0 & pg & st1 & ins & H & S & L) S' L'.
  exists st0, pg, st1, ins. split; [exact H|]. split; [set_solver | etrans; eauto].
Qed.

Lemma page_key_tracked (d0 d : Element) (trail : list Insertion) (page0 : Loc) (k : string) :
  tracks d0 d trail -> page_key d0 page0 = Some k ->
  get d (relocate_all trail page0) ≫= page_href = Some k /\ k <> EmptyString.
Proof.
  intros T. unfold page_key.
  destruct (get d0 page0) as [pg|] eqn:Hpg; simpl; [|discriminate].
  destruct (T page0 pg Hpg) as (pg' & Hpg' & Htag & Hattr).
  rewrite Hpg'. simpl. unfold page_href, attr_str. rewrite <- Hattr.
  destruct (attr_get "href" (el_attrib pg)) as [[s|]|]; try discriminate.
  destruct s; [discriminate|]. intros H; inversion H; subst. split; [reflexivity | discriminate].
Qed.

Lemma pages_loop_done (d0 : Element) (annotations : list Annotation) (pages : list Loc) :
  forall st tagset trail st' tagset' trail',
  pages_loop' pages annotations st tagset trail = Done st' (tagset', trail') ->
  tracks d0 (vol_facsimile (st_vol st)) trail ->
  tracks d0 (vol_facsimile (st_vol st')) trail' /\
  tagset ⊆ tagset' /\
  st_log st `prefix_of` st_log st' /\
  forall page0 k a,
    page0 ∈ pages -> page_key d0 page0 = Some k ->
    a ∈ annotations -> page_query k a = true -> ann_ark a = Some k ->
    visited a st' tagset'.
Proof.
  induction pages as [|page0 rest IH]; intros st tagset trail st' tagset' trail' H T;
    simpl in H.
  - inversion H; subst. repeat split; try done.
    intros ? ? ? Hp. inversion Hp.
  - destruct (get (vol_facsimile (st_vol st)) (relocate_all trail page0) ≫= page_href)
      as [href|] eqn:Hhref.
    + destruct href as [|c href'].
      * destruct (IH _ _ _ _ _ _ H T) as (T' & S' & L' & V').
        repeat split; try done.
        intros pg k a Hp Hk. apply elem_of_cons in Hp as [->|Hp]; [|now apply (V' pg k a)].
        destruct (page_key_tracked _ _ _ _ _ T Hk) as (Hk' & Hne). congruence.
      * destruct (notes_loop' _ page0 _ st tagset trail) as [st1 [tagset1 trail1]|] eqn:Hn;
          [|discriminate].
        destruct (notes_loop_done d0 _ _ _ _ _ _ _ _ _ Hn T) as (T1 & S1 & L1 & V1).
        destruct (IH _ _ _ _ _ _ H T1) as (T' & S' & L' & V').
        split; [exact T'|]. split; [set_solver|]. split; [etrans; eauto|].
        intros pg k a Hp Hk Ha Hq Hark.
        apply elem_of_cons in Hp as [->|Hp]; [|now apply (V' pg k a)].
        destruct (page_key_tracked _ _ _ _ _ T Hk) as (Hk' & Hne).
        rewrite Hhref in Hk'. inversion Hk'; subst k.
        apply (visited_mono a st1 st' tagset1 tagset'); [|exact S'|exact L'].
        apply V1; [|now rewrite Hark].
        apply list_elem_of_filter. split; [exact Hq | exact Ha].
    + destruct (IH _ _ _ _ _ _ H T) as (T' & S' & L' & V').
      repeat split; try done.
      intros pg k a Hp Hk. apply elem_of_cons in Hp as [->|Hp]; [|now apply (V' pg k a)].
      destruct (page_key_tracked _ _ _ _ _ T Hk) as (Hk' & Hne). congruence.
Qed.

Lemma insert_note_needs_conversion (st : State) (page : Loc) (a : Annotation)
    (st' : State) (ins : list Insertion) :
  convert (ann_text a) = None ->
  (forall r, selection_range a = Some r ->
     xpath (vol_facsimile (st_vol st)) page (start_xpath r) <> [] /\
     xpath (vol_facsimile (st_vol st)) page (end_xpath r) <> []) ->
  insert_note' st page a <> Done st' ins.
Proof.
  intros Hc Hx. unfold insert_note, place_highlight, annotation_to_tei. rewrite Hc.
  destruct (selection_range a) as [r|].
  - destruct (Hx r eq_refl) as (Hs & He).
    destruct (xpath _ page (start_xpath r)) as [|s0 ?]; [contradiction|].
    destruct (xpath _ page (end_xpath r)) as [|e0 ?]; [contradiction|].
    destruct (insert_anchor _ e0 _ _) as [[doc1 ins1]|]; [|discriminate].
    destruct (insert_anchor doc1 _ _ _) as [[doc2 ins2]|]; discriminate.
  - destruct (ann_image_selection a) as [sel|]; [|discriminate].
    destruct (get _ page) as [pg|]; [|discriminate].
    destruct (image_highlight py_float pg sel _) as [zone|]; discriminate.
Qed.

Lemma notes_loop_app (href : string) (page0 : Loc) (l1 l2 : list Annotation) :
  forall st tagset trail,
  notes_loop' href page0 (l1 ++ l2) st tagset trail =
  match notes_loop' href page0 l1 st tagset trail with
  | Done st' (tagset', trail') => notes_loop' href page0 l2 st' tagset' trail'
  | Raised e st' => Raised e st'
  end.
Proof.
  induction l1 as [|note rest IH]; intros st tagset trail; simpl; [reflexivity|].
  destruct (String.eqb _ href); [|apply IH].
  destruct (insert_note' st _ note) as [st1 ins|]; [apply IH | reflexivity].
Qed.

Lemma pages_loop_app (annotations : list Annotation) (l1 l2 : list Loc) :
  forall st tagset trail,
  pages_loop' (l1 ++ l2) annotations st tagset trail =
  match pages_loop' l1 annotations st tagset trail with
  | Done st' (tagset', trail') => pages_loop' l2 annotations st' tagset' trail'
  | Raised e st' => Raised e st'
  end.
Proof.
  induction l1 as [|page0 rest IH]; intros st tagset trail; simpl; [reflexivity|].
  destruct (get _ _ ≫= page_href) as [[|c href]|]; try apply IH.
  destruct (notes_loop' _ page0 _ st tagset trail) as [st1 [tagset1 trail1]|];
    [apply IH | reflexivity].
Qed.

(** A highlight that is placed leaves the notes and the log as they
    were. *)
Lemma place_highlight_target (st : State) (page : Loc) (a : Annotation)
    (st' : State) (target : option string) (trail : list Insertion) :
  place_highlight xpath py_float st page a = Done st' (Target target trail) ->
  vol_annotations (st_vol st') = vol_annotations (st_vol st) /\ st_log st' = st_log st.
Proof.
  unfold place_highlight.
  destruct (selection_range a) as [r|].
  - destruct (xpath _ page (start_xpath r)) as [|s0 ?]; [discriminate|].
    destruct (xpath _ page (end_xpath r)) as [|e0 ?]; [discriminate|].
    destruct (insert_anchor _ e0 _ _) as [[doc1 ins1]|]; [|discriminate].
    destruct (insert_anchor doc1 _ _ _) as [[doc2 ins2]|]; [|discriminate].
    intros H; inversion H; subst. split; reflexivity.
  - destruct (ann_image_selection a) as [sel|].
    + destruct (get _ page) as [pg|]; [|discriminate].
      destruct (image_highlight py_float pg sel _) as [zone|]; [|discriminate].
      intros H; inversion H; subst. split; reflexivity.
    + intros H; inversion H; subst. split; reflexivity.
Qed.

(** C4, amended.  Nothing in [annotated_tei] catches an exception.  When
    the export comes to an annotation of a page (its ark is the key of
    the page) whose highlight is placed, so that the annotation is not
    skipped by an unresolved path, and the markdown converter raises for
    its text, the export raises that error and no document is returned.
    The state it stops in is the one the placing of that highlight left:
    the highlight is in the document, no note was added for the
    annotation, and the annotations and the pages still to come, whatever
    they are, are not processed. *)
Theorem conversion_failure_propagates (teivol : Volume) (annotations : list Annotation)
    (log : list string) (page0 : Loc) (k : string) (a : Annotation)
    (st : State) (page : Loc) (after : list Annotation) (pages_after : list Loc)
    (st' : State) (target : option string) (trail : list Insertion) :
  comes_to pages_loop' notes_loop' (page_list (vol_facsimile teivol)) annotations
    (MkState (update_header version export_date teivol annotations) log)
    page0 k a st page after pages_after ->
  ann_ark a = Some k ->
  place_highlight xpath py_float st page a = Done st' (Target target trail) ->
  convert (ann_text a) = None ->
  annotated_tei' teivol annotations log = Raised ConversionError st' /\
  vol_annotations (st_vol st') = vol_annotations (st_vol st) /\
  st_log st' = st_log st.
Proof.
  intros (pages_before & before & st1 & tagset1 & trail1 & tagset2 & trail2
          & Hpages & Hprefix & Hkey & Hne & Hsel & Hbefore & ->) Hark Hplace Hc.
  split; [|exact (place_highlight_target _ _ _ _ _ _ Hplace)].
  unfold annotated_tei. simpl vol_facsimile. rewrite Hpages, pages_loop_app, Hprefix.
  simpl pages_loop. rewrite Hkey.
  destruct k as [|c k']; [contradiction|].
  rewrite Hsel, notes_loop_app, Hbefore. simpl notes_loop.
  rewrite Hark. simpl default. rewrite String.eqb_refl.
  unfold insert_note. rewrite Hplace. unfold annotation_to_tei. rewrite Hc. reflexivity.
Qed.

(** C9.  When the export completes, every tag of an annotation that is
    selected for a page with a key has its entry in the tag vocabulary of
    the document returned, whatever [insert_note] did with the annotation.
    In particular, [insert_note] was called on it and returned; and when
    its start path or its end path found no node then, the annotation was
    skipped (the document was left as it was and the warning is in the
    log) and its tags are in the vocabulary all the same. *)
Theorem skipped_annotation_tags (teivol : Volume) (annotations : list Annotation)
    (log : list string) (st' : State) (vol' : Volume)
    (page0 : Loc) (k : string) (a : Annotation) (l : list string) (t : string) :
  annotated_tei' teivol annotations log = Done st' vol' ->
  page0 ∈ page_list (vol_facsimile teivol) ->
  page_key (vol_facsimile teivol) page0 = Some k ->
  a ∈ annotations ->
  page_query k a = true ->
  ann_ark a = Some k ->
  ann_tags a = Some l ->
  t ∈ l ->
  (exists interps,
     vol_tags vol' = Some interps /\
     MkInterp (slugify (Py.strip t)) (Py.strip t) ∈ interps) /\
  exists st0 page st1 ins,
    insert_note' st0 page a = Done st1 ins /\
    st_log st1 `prefix_of` st_log st' /\
    forall r,
      selection_range a = Some r ->
      xpath (vol_facsimile (st_vol st0)) page (start_xpath r) = [] \/
      xpath (vol_facsimile (st_vol st0)) page (end_xpath r) = [] ->
      st_vol st1 = st_vol st0 /\ ins = [] /\ skip_warning a ∈ st_log st'.
Proof.
  intros Hrun Hp Hk Ha Hq Hark Htags Ht. unfold annotated_tei in Hrun.
  destruct (pages_loop' _ annotations _ ∅ []) as [st1 [tagset1 trail1]|e st1] eqn:Hloop;
    [|discriminate].
  inversion Hrun; subst st' vol'. clear Hrun. simpl.
  destruct (pages_loop_done (vol_facsimile teivol) _ _ _ _ _ _ _ _ Hloop (tracks_refl _))
    as (_ & _ & _ & V).
  destruct (V page0 k a Hp Hk Ha Hq Hark) as (st0 & pg & st2 & ins & Hdone & Hsub & Hlog).
  split.
  - assert (Hin : Py.strip t ∈ tagset1).
    { apply Hsub. unfold note_tags. rewrite Htags.
      apply elem_of_list_to_set. apply list_elem_of_fmap. exists t. split; [reflexivity|].
      exact Ht. }
    apply elem_of_elements in Hin. unfold add_tags.
    destruct (elements tagset1) as [|x xs] eqn:E; [inversion Hin|].
    eexists. split; [reflexivity|].
    apply elem_of_app. right.
    apply (list_elem_of_fmap_2 (fun tag => MkInterp (slugify tag) tag)). exact Hin.
  - exists st0, pg, st2, ins. split; [exact Hdone|]. split; [exact Hlog|].
    intros r Hr Hx.
    rewrite (insert_note_unresolved _ _ _ _ _ _ _ st0 pg a r Hr Hx) in Hdone.
    inversion Hdone; subst st2 ins. split; [reflexivity|]. split; [reflexivity|].
    destruct Hlog as (more & ->). simpl.
    apply elem_of_app. left. apply elem_of_app. right. apply list_elem_of_singleton.
    reflexivity.
Qed.

End AnnotatedTei.

(** ** The first match of a path *)

Section FirstMatch.

Variables xpath1 xpath2 : Element -> Loc -> string -> list Loc.
Variable py_float : string -> option float.
Variable convert : string -> option string.
Variable load_xmlobject_from_string : string -> option Element.
Variable absolutize_url : string -> string.
Variable slugify : string -> string.
Variable page_id_by_xlink : Volume -> string -> option string.

Local Abbreviation insert_note_with xp :=
  (insert_note xp py_float convert load_xmlobject_from_string absolutize_url
     slugify page_id_by_xlink).

(** C10.  When the start path and the end path of a selection match the
    nodes [start0 :: _] and [end0 :: _], the anchors are inserted at
    [end0] and then at [start0]: an error of either insertion is the error
    of [insert_note], and otherwise the document left is the one the two
    insertions give.  Nothing depends on the later matches: an engine with
    the same first matches gives the same outcome. *)
Theorem first_match_is_target (st : State) (teipage : Loc) (a : Annotation) (r : Range)
    (start0 end0 : Loc) (starts1 ends1 starts2 ends2 : list Loc) :
  selection_range a = Some r ->
  xpath1 (vol_facsimile (st_vol st)) teipage (start_xpath r) = start0 :: starts1 ->
  xpath1 (vol_facsimile (st_vol st)) teipage (end_xpath r) = end0 :: ends1 ->
  xpath2 (vol_facsimile (st_vol st)) teipage (start_xpath r) = start0 :: starts2 ->
  xpath2 (vol_facsimile (st_vol st)) teipage (end_xpath r) = end0 :: ends2 ->
  insert_note_with xpath1 st teipage a = insert_note_with xpath2 st teipage a /\
  match insert_anchor (vol_facsimile (st_vol st)) end0 (end_anchor a) (range_endOffset r) with
  | Err e => insert_note_with xpath1 st teipage a = Raised e st
  | Ok (doc1, ins1) =>
      match insert_anchor doc1 (relocate ins1 start0) (start_anchor a)
              (range_startOffset r) with
      | Err e =>
          insert_note_with xpath1 st teipage a
          = Raised e (with_volume (set_facsimile doc1) st)
      | Ok (doc2, ins2) =>
          vol_facsimile (st_vol (final_state (insert_note_with xpath1 st teipage a))) = doc2
      end
  end.
Proof.
  intros Hr Hs1 He1 Hs2 He2.
  unfold insert_note, place_highlight. rewrite Hr, Hs1, He1, Hs2, He2.
  split; [reflexivity|].
  destruct (insert_anchor _ end0 _ _) as [[doc1 ins1]|]; [|reflexivity].
  destruct (insert_anchor doc1 _ _ _) as [[doc2 ins2]|]; [|reflexivity].
  destruct (annotation_to_tei _ _ _ _ _ a _); reflexivity.
Qed.

End FirstMatch.

(** ** The export on sample documents *)



(** The zone of that annotation starts a quarter of the way into the page,
    and the zone of a region a third of the way in starts at the float next
    below 333. *)
Example zone_inside_page :
  Sample.zone_ulx_of
    (Sample.insert_note Sample.start_state [0%nat]
       (Sample.image_annotation "2" "page-7" "25%" "10%" "50%" "20%" "a comment"))
    [0%nat] = Some 250%float /\
  exists q,
    Sample.zone_ulx_of
      (Sample.insert_note Sample.start_state [0%nat]
         (Sample.image_annotation "2" "page-7" "33.3%" "10%" "50%" "20%" "a comment"))
      [0%nat] = Some q /\
    (q <? 333)%float = true /\ PrimFloat.next_up q = 333%float.
Proof.
  split; [vm_compute; reflexivity|].
  eexists. repeat split; vm_compute; reflexivity.
Qed.

(** C2.  Two labels with one identifier, [History] and [history], give two
    entries of the tag vocabulary, both with the identifier [history],
    while the note refers to the identifier once. *)
Theorem colliding_tags_two_entries :
  exists st vol note,
    Sample.annotated_tei Sample.book
      [Sample.text_annotation "1" "page-7" "w" "w" 3 7 (Some ["History"; "history"])] []
    = Done st vol /\
    (map interp_id <$> vol_tags vol) = Some ["history"; "history"] /\
    length (default [] (vol_tags vol)) = 2%nat /\
    vol_annotations vol = [note] /\
    note_ana note = Some "#history".
Proof.
  eexists _, _, _. split; [vm_compute; reflexivity|].
  repeat split.
Qed.

(** C3.  An annotation stored with the key of the page as its [uri] and
    without an ark is selected by the query, is then passed over by the
    test of the ark, and is not placed. *)
Theorem direct_match_not_placed :
  page_query "page-7" Sample.direct = true /\
  exists st vol,
    Sample.annotated_tei Sample.book [Sample.direct] [] = Done st vol /\
    vol_annotations vol = [] /\
    vol_facsimile vol = vol_facsimile Sample.book.
Proof.
  split; [reflexivity|].
  eexists _, _. split; [vm_compute; reflexivity|]. split; reflexivity.
Qed.

(** An annotation of another page that names this page among its related
    pages is selected by the query and passed over by the test of the
    ark. *)
Example related_page_not_placed :
  page_query "page-7" Sample.related = true /\
  exists st vol,
    Sample.annotated_tei Sample.book [Sample.related] [] = Done st vol /\
    vol_annotations vol = [].
Proof.
  split; [reflexivity|].
  eexists _, _. split; [vm_compute; reflexivity|]. reflexivity.
Qed.

(** C4, as stated, fails.  The converter raises for the first of two
    annotations of a page: the export raises, no document is returned, and
    the second annotation is not processed. *)
Lemma conversion_failure_aborts :
  exists st,
    Sample.annotated_tei Sample.book
      [Sample.image_annotation "2" "page-7" "25%" "10%" "50%" "20%" "FAIL";
       Sample.in_word 3 7] []
    = Raised ConversionError st /\
    vol_annotations (st_vol st) = [].
Proof. eexists. split; [vm_compute; reflexivity | reflexivity]. Qed.

Lemma conversion_failure_propagates_witness :
  exists st',
    Sample.annotated_tei Sample.book [Sample.refused; Sample.in_word 3 7] []
    = Raised ConversionError st' /\
    get (vol_facsimile (st_vol st')) [0; 0]%nat
    = Some (Elem "w" [] (Some "abc")
              [set_tail (Some "defg") (start_anchor Sample.refused);
               set_tail (Some "hij") (end_anchor Sample.refused)]
              None) /\
    vol_annotations (st_vol st') = [] /\
    st_log st' = [].
Proof.
  eexists.
  edestruct (conversion_failure_propagates Sample.xpath Sample.py_float Sample.convert
              Sample.load_xmlobject_from_string Sample.absolutize_url Sample.slugify
              Sample.page_id_by_xlink Sample.page_list "1.0" "2016-01-01"
              Sample.book [Sample.refused; Sample.in_word 3 7] [] [0%nat] "page-7"
              Sample.refused
              (MkState
                 (update_header "1.0" "2016-01-01" Sample.book
                    [Sample.refused; Sample.in_word 3 7]) [])
              [0%nat] [Sample.in_word 3 7] [])
    as (H1 & H2 & H3).
  - exists [], [], (MkState
                      (update_header "1.0" "2016-01-01" Sample.book
                         [Sample.refused; Sample.in_word 3 7]) []),
      ∅, [], ∅, [].
    repeat split; try reflexivity. discriminate.
  - reflexivity.
  - vm_compute. reflexivity.
  - reflexivity.
  - split; [exact H1|]. split; [reflexivity|]. split; [exact H2 | exact H3].
Defined.

(** C5, as stated, fails.  With both offsets at 3 in a text of ten
    characters the end anchor splits the text and the start anchor is put
    after the element: the text is kept, and the start anchor follows the
    end anchor. *)
Lemma equal_offsets_start_follows_end :
  let a := Sample.in_word 3 3 in
  let out := Sample.insert_note Sample.start_state [0%nat] a in
  let doc' := vol_facsimile (st_vol (final_state out)) in
  is_raised out = false /\
  text_content doc' = text_content (vol_facsimile Sample.book) /\
  ~ precedes (start_token (start_anchor a)) (start_token (end_anchor a)) (tokens doc') /\
  precedes (start_token (end_anchor a)) (start_token (start_anchor a)) (tokens doc').
Proof.
  repeat split.
  - intros H. apply precedes_precedesb in H. vm_compute in H. discriminate H.
  - apply precedesb_precedes. vm_compute. reflexivity.
Qed.

Lemma same_element_highlight_witness :
  let a := Sample.in_word 3 7 in
  let doc' := vol_facsimile (st_vol (final_state
                (Sample.insert_note Sample.start_state [0%nat] a))) in
  adds_in_order (start_token (start_anchor a)) (start_token (end_anchor a))
    (tokens (vol_facsimile Sample.book)) (tokens doc') /\
  text_content doc' = text_content (vol_facsimile Sample.book) /\
  precedes (start_token (start_anchor a)) (start_token (end_anchor a)) (tokens doc').
Proof.
  apply (same_element_highlight Sample.xpath Sample.py_float Sample.convert
           Sample.load_xmlobject_from_string Sample.absolutize_url Sample.slugify
           Sample.page_id_by_xlink Sample.start_state [0%nat] (Sample.in_word 3 7)
           (MkRange "w" 3 "w" 7) [0%nat] 0%nat Sample.words_page
           (Sample.word "abcdefghij") "abcdefghij" [[0; 1]%nat] [[0; 1]%nat]);
    try reflexivity.
  simpl. lia.
Defined.

(** The selection of the spec's example: offsets 3 and 7 in a text of ten
    characters. *)
Example offsets_3_7 :
  get (vol_facsimile (st_vol (final_state
         (Sample.insert_note Sample.start_state [0%nat] (Sample.in_word 3 7)))))
      [0; 0]%nat
  = Some (Elem "w" [] (Some "abc")
            [set_tail (Some "defg") (start_anchor (Sample.in_word 3 7));
             set_tail (Some "hij") (end_anchor (Sample.in_word 3 7))]
            None).
Proof. reflexivity. Qed.

Lemma insert_anchor_placement_witness :
  exists doc' ins,
    insert_anchor (vol_facsimile Sample.book) [0; 0]%nat
      (end_anchor (Sample.in_word 3 7)) 7 = Ok (doc', ins) /\
    exists A B,
      tokens (vol_facsimile Sample.book) = A ++ B /\
      tokens doc' = A ++ start_token (end_anchor (Sample.in_word 3 7)) :: B.
Proof.
  destruct (insert_anchor_placement (vol_facsimile Sample.book) [0%nat] 0%nat
              Sample.words_page (Sample.word "abcdefghij")
              (end_anchor (Sample.in_word 3 7)) "abcdefghij" 7)
    as (doc' & ins & parent' & el' & anchor' & H1 & _ & _ & _ & _ & _ & _ & _ & H9);
    try reflexivity.
  - repeat split.
  - lia.
  - exists doc', ins. split; [exact H1 | exact H9].
Defined.

Lemma unresolved_path_skips_witness :
  exists st',
    Sample.insert_note Sample.start_state [0%nat] (Sample.lost ["History"]) = Done st' [] /\
    st_vol st' = Sample.book /\
    st_log st' = ["Could not find start or end xpath for annotation 3"].
Proof.
  apply (unresolved_path_skips Sample.xpath Sample.py_float Sample.convert
           Sample.load_xmlobject_from_string Sample.absolutize_url Sample.slugify
           Sample.page_id_by_xlink Sample.start_state [0%nat] (Sample.lost ["History"])
           (MkRange "line" 0 "line" 4)).
  - reflexivity.
  - left. reflexivity.
Defined.

Lemma no_descriptor_raises_witness :
  exists e,
    Sample.insert_note Sample.start_state [0%nat] Sample.bare
    = Raised e Sample.start_state.
Proof.
  destruct (no_descriptor_raises Sample.xpath Sample.py_float Sample.convert
              Sample.load_xmlobject_from_string Sample.absolutize_url Sample.slugify
              Sample.page_id_by_xlink Sample.start_state [0%nat] Sample.bare)
    as (e & H & _).
  - left. reflexivity.
  - reflexivity.
  - exists e. exact H.
Defined.

(** The error for that annotation is the unbound [target]. *)
Example bare_annotation_unbound_target :
  Sample.insert_note Sample.start_state [0%nat] Sample.bare
  = Raised UnboundLocalError Sample.start_state.
Proof. reflexivity. Qed.

Lemma first_match_is_target_witness :
  insert_note Sample.xpath Sample.py_float Sample.convert
    Sample.load_xmlobject_from_string Sample.absolutize_url Sample.slugify
    Sample.page_id_by_xlink Sample.start_state [0%nat] (Sample.in_word 3 7)
  = insert_note Sample.first_only Sample.py_float Sample.convert
      Sample.load_xmlobject_from_string Sample.absolutize_url Sample.slugify
      Sample.page_id_by_xlink Sample.start_state [0%nat] (Sample.in_word 3 7).
Proof.
  apply (first_match_is_target Sample.xpath Sample.first_only Sample.py_float
           Sample.convert Sample.load_xmlobject_from_string Sample.absolutize_url
           Sample.slugify Sample.page_id_by_xlink Sample.start_state [0%nat]
           (Sample.in_word 3 7) (MkRange "w" 3 "w" 7)
           [0; 0]%nat [0; 0]%nat [[0; 1]%nat] [[0; 1]%nat] [] []);
    reflexivity.
Defined.

Lemma skipped_annotation_tags_witness :
  let out := Sample.annotated_tei Sample.book [Sample.lost ["History"]] [] in
  exists interps,
    vol_tags (st_vol (final_state out)) = Some interps /\
    MkInterp "history" "History" ∈ interps.
Proof.
  intros out.
  destruct (skipped_annotation_tags Sample.xpath Sample.py_float Sample.convert
              Sample.load_xmlobject_from_string Sample.absolutize_url Sample.slugify
              Sample.page_id_by_xlink Sample.page_list "1.0" "2016-01-01"
              Sample.book [Sample.lost ["History"]] []
              (final_state out) (st_vol (final_state out)) [0%nat] "page-7"
              (Sample.lost ["History"]) ["History"] "History")
    as [H _].
  - vm_compute. reflexivity.
  - apply list_elem_of_here.
  - reflexivity.
  - apply list_elem_of_here.
  - reflexivity.
  - reflexivity.
  - reflexivity.
  - apply list_elem_of_here.
  - exact H.
Defined.

(** That annotation is skipped: the page has no node for its paths.  Its tag is in the vocabulary while the document has no
    note and no anchor. *)
Example skipped_annotation_run :
  exists st vol,
    Sample.annotated_tei Sample.book [Sample.lost ["History"]] [] = Done st vol /\
    vol_annotations vol = [] /\
    vol_facsimile vol = vol_facsimile Sample.book /\
    vol_tags vol = Some [MkInterp "history" "History"] /\
    st_log st = [skip_warning (Sample.lost ["History"])].
Proof. eexists _, _. split; [vm_compute; reflexivity|]. repeat split. Qed.

(** The white space [strip()] removes from a tag includes the no-break
    space (U+00A0), the next-line control (U+0085) and the separators
    U+001C to U+001F: such a tag gives the entry of the bare label. *)
Example tag_with_no_break_space :
  let tag := String (ascii_of_nat 160)
               ("History" +:+ String (ascii_of_nat 133) (String (ascii_of_nat 28) EmptyString)) in
  Py.strip tag = "History" /\
  exists st vol,
    Sample.annotated_tei Sample.book [Sample.lost [tag]] [] = Done st vol /\
    vol_tags vol = Some [MkInterp "history" "History"].
Proof. split; [reflexivity|]. eexists _, _. split; [vm_compute; reflexivity|]. reflexivity. Qed.

(** * Further properties *)

(** ** Path translation and string replacement *)

Lemma contains_cons_false (old : string) (c : ascii) (s : string) :
  Py.contains old (String c s) = false ->
  Py.starts_with old (String c s) = false /\ Py.contains old s = false.
Proof. simpl. intros H. now apply orb_false_iff in H. Qed.

Lemma replace_absent (old new s : string) :
  Py.contains old s = false -> Py.replace old new s = s.
Proof.
  unfold Py.replace. induction s as [|c s IH]; intros H; [reflexivity|].
  destruct (contains_cons_false old c s H) as (H1 & H2).
  cbn [Py.replace_from]. rewrite H1. f_equal. now apply IH.
Qed.

Lemma append_empty (a b : string) : a +:+ b = EmptyString -> a = EmptyString.
Proof. destruct a; [reflexivity | discriminate]. Qed.

Lemma replace_empty (old new s : string) :
  new <> EmptyString -> Py.replace old new s = EmptyString -> s = EmptyString.
Proof.
  intros Hnew. unfold Py.replace. destruct s as [|c s]; [reflexivity|].
  cbn [Py.replace_from]. destruct (Py.starts_with old (String c s)).
  - intros H. apply append_empty in H. contradiction.
  - discriminate.
Qed.

Lemma html_xpath_to_tei_empty (s : string) :
  html_xpath_to_tei s = EmptyString -> s = EmptyString.
Proof.
  unfold html_xpath_to_tei. intros H.
  apply replace_empty in H; [|discriminate].
  apply replace_empty in H; [|discriminate].
  apply replace_empty in H; [|discriminate]. exact H.
Qed.

(** X1.  A path in which [div], [span] and [@id] do not occur is left as
    it is by [html_xpath_to_tei]. *)
Theorem html_xpath_to_tei_passes_through (xpath : string) :
  Py.contains "div" xpath = false ->
  Py.contains "span" xpath = false ->
  Py.contains "@id" xpath = false ->
  html_xpath_to_tei xpath = xpath.
Proof.
  intros H1 H2 H3. unfold html_xpath_to_tei.
  rewrite (replace_absent "div" _ _ H1), (replace_absent "span" _ _ H2).
  now apply replace_absent.
Qed.

Lemma html_xpath_to_tei_passes_through_witness :
  html_xpath_to_tei "//p[@n=2]/text()" = "//p[@n=2]/text()".
Proof.
  apply html_xpath_to_tei_passes_through; reflexivity.
Defined.

(** X2.  The start path of a selection is the first zone of the page
    exactly when the stored path is empty, and the end path is the last
    zone exactly when the stored path is empty: a stored path that is not
    empty is translated to a path that is not empty, and used. *)
Theorem default_paths_only_for_empty (r : Range) :
  (range_start r = EmptyString -> start_xpath r = "//tei:zone[1]") /\
  (range_start r <> EmptyString ->
     start_xpath r = html_xpath_to_tei (range_start r) /\ start_xpath r <> EmptyString) /\
  (range_end r = EmptyString -> end_xpath r = "//tei:zone[last()]") /\
  (range_end r <> EmptyString ->
     end_xpath r = html_xpath_to_tei (range_end r) /\ end_xpath r <> EmptyString).
Proof.
  unfold start_xpath, end_xpath, Py.or_default.
  split; [intros ->; reflexivity|]. split.
  - intros H. destruct (html_xpath_to_tei (range_start r)) eqn:E.
    + apply html_xpath_to_tei_empty in E. contradiction.
    + split; [reflexivity | discriminate].
  - split; [intros ->; reflexivity|].
    intros H. destruct (html_xpath_to_tei (range_end r)) eqn:E.
    + apply html_xpath_to_tei_empty in E. contradiction.
    + split; [reflexivity | discriminate].
Qed.

(** ** insert_anchor at any offset *)

Lemma tokens_insert_child (parent : Element) (k : nat) (a : Element) :
  exists A B, tokens parent = A ++ B /\
    tokens (set_children (insert_at k a (el_children parent)) parent) = A ++ tokens a ++ B.
Proof.
  destruct parent as [tg at_ tx ch tl]; simpl.
  exists (TElem tg at_ :: chars tx ++ flat_map tokens (take k ch)),
         (flat_map tokens (drop k ch) ++ chars tl).
  split.
  - rewrite <- (take_drop k ch) at 1. rewrite flat_map_app. app_norm.
  - unfold insert_at. rewrite flat_map_app. app_norm.
Qed.

Lemma tokens_add_sibling (doc : Element) (p : Loc) (parent a : Element) (k : nat) :
  get doc p = Some parent -> is_leaf a ->
  exists A B, tokens doc = A ++ B /\
    tokens (modify (fun e => set_children (insert_at k a (el_children e)) e) p doc)
    = A ++ start_token a :: B.
Proof.
  intros Hp Ha.
  destruct (tokens_modify p doc parent Hp) as (A & B & HA & HB).
  destruct (tokens_insert_child parent k a) as (A1 & B1 & H1 & H2).
  exists (A ++ A1), (B1 ++ B). split.
  - rewrite HA, H1. app_norm.
  - rewrite HB, H2, (tokens_leaf a Ha). app_norm.
Qed.

Lemma insert_anchor_tokens (doc : Element) (element : Loc) (anchor : Element)
    (offset : Z) (doc' : Element) (ins : Insertion) :
  is_leaf anchor ->
  insert_anchor doc element anchor offset = Ok (doc', ins) ->
  (exists A B, tokens doc = A ++ B /\ tokens doc' = A ++ start_token anchor :: B) /\
  text_content doc' = text_content doc.
Proof.
  intros Ha H.
  assert (Hadd : exists A B, tokens doc = A ++ B /\ tokens doc' = A ++ start_token anchor :: B).
  { unfold insert_anchor in H.
    destruct (get doc element) as [el|] eqn:Hel; [|discriminate].
    assert (Hsib : forall k,
              match split_last element with
              | Some (p, i) =>
                  Ok (modify (fun e => set_children (insert_at (k i) anchor (el_children e)) e)
                        p doc, MkIns p (k i))
              | None => Err TypeError
              end = Ok (doc', ins) ->
              exists A B, tokens doc = A ++ B /\ tokens doc' = A ++ start_token anchor :: B).
    { intros k Hk. destruct (split_last element) as [[p i]|] eqn:E; [|discriminate].
      apply split_last_Some in E. subst element. inversion Hk; subst.
      destruct (get_parent doc p i el Hel) as (parent & Hp).
      apply (tokens_add_sibling doc p parent anchor _ Hp Ha). }
    destruct (offset =? 0)%Z; [apply (Hsib (fun i => i)); exact H|].
    destruct (el_text el) as [t|] eqn:Ht; [|discriminate].
    destruct (Py.len t <=? offset)%Z; [apply (Hsib S); exact H|].
    inversion H; subst.
    destruct (tokens_modify element doc el Hel) as (A & B & HA & HB).
    exists (A ++ start_token el :: chars (Some (Py.slice_to t offset))),
           (chars (Some (Py.slice_from t offset)) ++ flat_map tokens (el_children el)
            ++ chars (el_tail el) ++ B).
    split.
    - rewrite HA, (tokens_unfold el), Ht, (chars_slices t offset). app_norm.
    - rewrite HB, (tokens_split_element el anchor t offset Ht Ha). app_norm. }
  split; [exact Hadd|].
  destruct Hadd as (A & B & H1 & H2). unfold text_content.
  rewrite H1, H2, !filter_app, filter_cons. reflexivity.
Qed.

(** X3.  Whenever [insert_anchor] returns, for any element and any offset
    (negative ones included), the document read in document order is the
    one before with the start of the new, empty anchor added at one place:
    no text is lost or moved and no other node is added or removed. *)
Theorem insert_anchor_adds_only_anchor (doc : Element) (element : Loc) (anchor : Element)
    (offset : Z) (doc' : Element) (ins : Insertion) :
  is_leaf anchor ->
  insert_anchor doc element anchor offset = Ok (doc', ins) ->
  (exists A B, tokens doc = A ++ B /\ tokens doc' = A ++ start_token anchor :: B) /\
  text_content doc' = text_content doc.
Proof. apply insert_anchor_tokens. Qed.

Lemma insert_anchor_adds_only_anchor_witness :
  text_content
    (match insert_anchor (vol_facsimile Sample.book) [0; 0]%nat
             (end_anchor (Sample.in_word 3 7)) (-4) with
     | Ok (doc', _) => doc'
     | Err _ => vol_facsimile Sample.book
     end)
  = text_content (vol_facsimile Sample.book).
Proof.
  destruct (insert_anchor (vol_facsimile Sample.book) [0; 0]%nat
              (end_anchor (Sample.in_word 3 7)) (-4)) as [[doc' ins]|] eqn:E;
    [|reflexivity].
  assert (Ha : is_leaf (end_anchor (Sample.in_word 3 7))) by (repeat split).
  destruct (insert_anchor_adds_only_anchor _ _ _ _ _ _ Ha E) as [_ H]. exact H.
Defined.

(** X4.  For an element that has a parent, [insert_anchor] raises exactly
    when the offset is not zero and the element has no text (the length
    of [None] is taken); it then raises [TypeError].  With offset zero no
    text is needed. *)
Theorem insert_anchor_raises_without_text (doc : Element) (p : Loc) (i : nat)
    (el anchor : Element) (offset : Z) :
  get doc (p ++ [i]) = Some el ->
  (offset <> 0%Z /\ el_text el = None ->
     insert_anchor doc (p ++ [i]) anchor offset = Err TypeError) /\
  (offset = 0%Z \/ el_text el <> None ->
     exists doc' ins, insert_anchor doc (p ++ [i]) anchor offset = Ok (doc', ins)).
Proof.
  intros Hel. unfold insert_anchor, addprevious, addnext. rewrite Hel, split_last_snoc.
  split.
  - intros (Ho & Ht). destruct (Z.eqb_spec offset 0); [contradiction|]. now rewrite Ht.
  - intros H. destruct (Z.eqb_spec offset 0); [eauto|].
    destruct H as [H|H]; [contradiction|].
    destruct (el_text el) as [t|]; [|contradiction].
    destruct (Py.len t <=? offset)%Z; eauto.
Qed.

Lemma insert_anchor_raises_without_text_witness :
  insert_anchor (vol_facsimile Sample.book) [0%nat] (end_anchor (Sample.in_word 3 7)) 2
  = Err TypeError.
Proof.
  apply (insert_anchor_raises_without_text (vol_facsimile Sample.book) [] 0%nat
           Sample.words_page); [reflexivity|].
  split; [discriminate | reflexivity].
Defined.

Lemma slice_bound_negative (n : nat) (o : Z) :
  (o < 0)%Z -> Z.of_nat (Py.slice_bound n o) = Z.max 0 (Z.of_nat n + o).
Proof.
  intros H. unfold Py.slice_bound. destruct (Z.ltb_spec o 0); lia.
Qed.

Lemma str_drop_length (n : nat) (s : string) :
  String.length (Py.str_drop n s) = (String.length s - n)%nat.
Proof.
  revert s. induction n as [|n IH]; intros [|c s]; simpl; try reflexivity.
  apply IH.
Qed.

(** X5.  A negative offset is counted from the end of the text, as Python
    slices do: the element keeps the text up to [-offset] characters
    before its end (nothing when the text is shorter), and the rest
    becomes the tail of the anchor, which is the first child of the
    element. *)
Theorem insert_anchor_negative_offset (doc : Element) (element : Loc)
    (el anchor : Element) (t : string) (offset : Z) :
  get doc element = Some el ->
  el_text el = Some t ->
  (offset < 0)%Z ->
  exists doc' kept tail,
    insert_anchor doc element anchor offset = Ok (doc', MkIns element 0) /\
    get doc' element =
      Some (set_text (Some kept)
              (set_children (set_tail (Some tail) anchor :: el_children el) el)) /\
    kept +:+ tail = t /\
    Py.len kept = Z.max 0 (Py.len t + offset) /\
    Py.len tail = Z.min (Py.len t) (- offset).
Proof.
  intros Hel Ht Ho.
  exists (modify (fun e => set_text (Some (Py.slice_to t offset))
                    (set_children (set_tail (Some (Py.slice_from t offset)) anchor
                                   :: el_children e) e)) element doc),
         (Py.slice_to t offset), (Py.slice_from t offset).
  split.
  { unfold insert_anchor. rewrite Hel, Ht.
    destruct (Z.eqb_spec offset 0); [lia|].
    destruct (Z.leb_spec (Py.len t) offset); [unfold Py.len in *; lia | reflexivity]. }
  split.
  { apply (get_modify
             (fun e => set_text (Some (Py.slice_to t offset))
                         (set_children (set_tail (Some (Py.slice_from t offset)) anchor
                                        :: el_children e) e))
             element doc el Hel). }
  split; [apply slice_to_from|].
  unfold Py.len, Py.slice_to, Py.slice_from.
  rewrite str_take_length, str_drop_length.
  pose proof (slice_bound_negative (String.length t) offset Ho). lia.
Qed.

Lemma insert_anchor_negative_offset_witness :
  exists doc' kept tail,
    insert_anchor (vol_facsimile Sample.book) [0; 0]%nat
      (end_anchor (Sample.in_word 3 7)) (-4) = Ok (doc', MkIns [0; 0]%nat 0) /\
    get doc' [0; 0]%nat =
      Some (set_text (Some kept)
              (set_children [set_tail (Some tail) (end_anchor (Sample.in_word 3 7))]
                 (Sample.word "abcdefghij"))) /\
    kept +:+ tail = "abcdefghij" /\
    Py.len kept = 6%Z /\
    Py.len tail = 4%Z.
Proof.
  apply (insert_anchor_negative_offset (vol_facsimile Sample.book) [0; 0]%nat
           (Sample.word "abcdefghij") (end_anchor (Sample.in_word 3 7))
           "abcdefghij" (-4)); [reflexivity | reflexivity | lia].
Defined.

(** The split of that run: six characters are kept. *)
Example negative_offset_run :
  (let '(doc', _) :=
     match insert_anchor (vol_facsimile Sample.book) [0; 0]%nat
             (end_anchor (Sample.in_word 3 7)) (-4) with
     | Ok r => r
     | Err _ => (vol_facsimile Sample.book, MkIns [] 0)
     end in get doc' [0; 0]%nat)
  = Some (Elem "w" [] (Some "abcdef")
            [set_tail (Some "ghij") (end_anchor (Sample.in_word 3 7))] None).
Proof. reflexivity. Qed.

(** ** insert_note and annotation_to_tei, case by case *)

Section NoteCases.

Variable xpath : Element -> Loc -> string -> list Loc.
Variable py_float : string -> option float.
Variable convert : string -> option string.
Variable load_xmlobject_from_string : string -> option Element.
Variable absolutize_url : string -> string.
Variable slugify : string -> string.
Variable page_id_by_xlink : Volume -> string -> option string.

Local Abbreviation insert_note' :=
  (insert_note xpath py_float convert load_xmlobject_from_string absolutize_url
     slugify page_id_by_xlink).
Local Abbreviation annotation_to_tei' :=
  (annotation_to_tei convert load_xmlobject_from_string absolutize_url
     slugify page_id_by_xlink).

Lemma annotation_to_tei_ok (a : Annotation) (v : Volume) (n : Note) :
  annotation_to_tei' a v = Ok n ->
  note_id n = "annotation-" +:+ ann_id a /\
  note_href n = absolutize_url (ann_absolute_url a) /\
  note_type n = "annotation" /\
  note_markdown n = ann_text a /\
  note_resp n = username <$> ann_user a /\
  note_related_pages n =
    note_refs page_id_by_xlink v (ann_related_pages a) /\
  note_ana n =
    match ann_tags a with
    | Some (t :: l) => Some (Py.join " " (elements (tag_refs slugify (t :: l))))
    | _ => None
    end /\
  note_target n = None.
Proof.
  unfold annotation_to_tei.
  destruct (convert (ann_text a)) as [c|]; [|discriminate].
  destruct (load_xmlobject_from_string _) as [node|]; [|discriminate].
  intros H; inversion H; subst; simpl. repeat split.
Qed.

(** X6.  When the markdown converter raises for an image annotation whose
    region is well formed, [insert_note] raises after the zone was
    appended to the page: the page keeps the zone, and no note is
    appended for it. *)
Theorem zone_stays_when_conversion_fails (st : State) (teipage : Loc) (a : Annotation)
    (sel : ImageSelection) (page zone : Element) :
  selection_range a = None ->
  ann_image_selection a = Some sel ->
  get (vol_facsimile (st_vol st)) teipage = Some page ->
  image_highlight py_float page sel (ann_id a) = Ok zone ->
  convert (ann_text a) = None ->
  exists st',
    insert_note' st teipage a = Raised ConversionError st' /\
    get (vol_facsimile (st_vol st')) teipage
      = Some (set_children (el_children page ++ [zone]) page) /\
    vol_annotations (st_vol st') = vol_annotations (st_vol st) /\
    st_log st' = st_log st.
Proof.
  intros Hr Hsel Hpage Hzone Hc.
  unfold insert_note, place_highlight, annotation_to_tei.
  rewrite Hr, Hsel, Hpage, Hzone, Hc. eexists. split; [reflexivity|]. simpl.
  split; [|split; reflexivity].
  rewrite (modify_const _ teipage _ page Hpage).
  apply (get_modify (fun _ => _) teipage _ page Hpage).
Qed.

(** X7.  An image region that is not well formed makes [insert_note]
    raise before anything is changed: [TypeError] when a bound of the page
    is missing, and otherwise [ValueError] when one of the four
    percentages is not a number.  Nothing is clamped or repaired. *)
Theorem malformed_region_raises (st : State) (teipage : Loc) (a : Annotation)
    (sel : ImageSelection) (page : Element) :
  selection_range a = None ->
  ann_image_selection a = Some sel ->
  get (vol_facsimile (st_vol st)) teipage = Some page ->
  (page_ulx page = None \/ page_uly page = None \/
   page_lrx page = None \/ page_lry page = None ->
     insert_note' st teipage a = Raised TypeError st) /\
  (is_Some (page_ulx page) -> is_Some (page_uly page) ->
   is_Some (page_lrx page) -> is_Some (page_lry page) ->
   py_float (Py.rstrip_percent (sel_x sel)) = None \/
   py_float (Py.rstrip_percent (sel_y sel)) = None \/
   py_float (Py.rstrip_percent (sel_w sel)) = None \/
   py_float (Py.rstrip_percent (sel_h sel)) = None ->
     insert_note' st teipage a = Raised ValueError st).
Proof.
  intros Hr Hsel Hpage.
  unfold insert_note, place_highlight, image_highlight. rewrite Hr, Hsel, Hpage.
  split.
  - intros H.
    destruct (page_lrx page), (page_ulx page), (page_lry page), (page_uly page);
      try reflexivity; destruct H as [H|[H|[H|H]]]; discriminate.
  - intros [? ->] [? ->] [? ->] [? ->] H.
    destruct (py_float (Py.rstrip_percent (sel_x sel))),
             (py_float (Py.rstrip_percent (sel_y sel))),
             (py_float (Py.rstrip_percent (sel_w sel))),
             (py_float (Py.rstrip_percent (sel_h sel)));
      try reflexivity; destruct H as [H|[H|[H|H]]]; discriminate.
Qed.

(** X8.  [insert_note] reads the first range of an annotation only, and
    reads the image region only when there is no range: the outcome is
    the one for the annotation with its other ranges and, when it has a
    range, its image region removed. *)
Theorem only_first_range_is_used (st : State) (teipage : Loc) (a : Annotation) :
  insert_note' st teipage (first_range_only a) = insert_note' st teipage a.
Proof.
  unfold first_range_only. destruct (ann_ranges a) as [[|r rest]|] eqn:E; try reflexivity.
  unfold insert_note, place_highlight, selection_range, annotation_to_tei,
    start_anchor, end_anchor. simpl. rewrite E. reflexivity.
Qed.

(** X9.  When [insert_note] returns, the header of the document is as it
    was, and either the annotation was skipped (a path of its selection
    found no node: the document and its notes are as they were and the
    warning is logged), or exactly one note was appended after the notes
    there were, with the identifier [annotation-<id>], the text of the
    annotation as its markdown, and the target of the kind of the
    annotation. *)
Theorem insert_note_appends_one_note (st : State) (teipage : Loc) (a : Annotation)
    (st' : State) (ins : list Insertion) :
  insert_note' st teipage a = Done st' ins ->
  vol_header (st_vol st') = vol_header (st_vol st) /\
  ((exists r,
      selection_range a = Some r /\
      (xpath (vol_facsimile (st_vol st)) teipage (start_xpath r) = [] \/
       xpath (vol_facsimile (st_vol st)) teipage (end_xpath r) = []) /\
      st_vol st' = st_vol st /\ ins = [] /\
      st_log st' = st_log st ++ [skip_warning a]) \/
   (exists n,
      vol_annotations (st_vol st') = vol_annotations (st_vol st) ++ [n] /\
      note_id n = "annotation-" +:+ ann_id a /\
      note_markdown n = ann_text a /\
      note_target n =
        Some (match selection_range a with
              | Some _ => range_target a
              | None => zone_target a
              end) /\
      st_log st' = st_log st)).
Proof.
  unfold insert_note, place_highlight.
  destruct (selection_range a) as [r|] eqn:Hr.
  - destruct (xpath _ teipage (start_xpath r)) as [|s0 ?] eqn:Hs.
    { intros H; inversion H; subst. split; [reflexivity|]. left. exists r. eauto 10. }
    destruct (xpath _ teipage (end_xpath r)) as [|e0 ?] eqn:He.
    { intros H; inversion H; subst. split; [reflexivity|]. left. exists r. eauto 10. }
    destruct (insert_anchor _ e0 _ _) as [[doc1 ins1]|]; [|discriminate].
    destruct (insert_anchor doc1 _ _ _) as [[doc2 ins2]|]; [|discriminate].
    destruct (annotation_to_tei' a _) as [n|] eqn:Hn; [|discriminate].
    intros H; inversion H; subst. split; [reflexivity|]. right.
    destruct (annotation_to_tei_ok _ _ _ Hn) as (H1 & _ & _ & H4 & _).
    exists (set_target (range_target a) n). repeat split; assumption.
  - destruct (ann_image_selection a) as [sel|].
    + destruct (get _ teipage) as [pg|]; [|discriminate].
      destruct (image_highlight py_float pg sel _) as [zone|]; [|discriminate].
      destruct (annotation_to_tei' a _) as [n|] eqn:Hn; [|discriminate].
      intros H; inversion H; subst. split; [reflexivity|]. right.
      destruct (annotation_to_tei_ok _ _ _ Hn) as (H1 & _ & _ & H4 & _).
      exists (set_target (zone_target a) n). repeat split; assumption.
    + destruct (annotation_to_tei' a _) as [n|]; discriminate.
Qed.

(** X10.  When [insert_note] returns for an image annotation, the target
    of the note appended names the zone appended to the page: the last
    child of the page is a zone of type [image-annotation-highlight] with
    the identifier [highlight-<id>], and the target is [#highlight-<id>]. *)
Theorem image_note_refers_to_zone (st : State) (teipage : Loc) (a : Annotation)
    (page : Element) (st' : State) (ins : list Insertion) :
  selection_range a = None ->
  get (vol_facsimile (st_vol st)) teipage = Some page ->
  insert_note' st teipage a = Done st' ins ->
  exists zone n,
    get (vol_facsimile (st_vol st')) teipage
      = Some (set_children (el_children page ++ [zone]) page) /\
    el_tag zone = "zone" /\
    attr_str "type" zone = Some "image-annotation-highlight" /\
    attr_str "xml:id" zone = Some ("highlight-" +:+ ann_id a) /\
    last (vol_annotations (st_vol st')) = Some n /\
    note_target n = Some ("#" +:+ "highlight-" +:+ ann_id a) /\
    ins = [].
Proof.
  intros Hr Hpage. unfold insert_note, place_highlight. rewrite Hr, Hpage.
  destruct (ann_image_selection a) as [sel|].
  - unfold image_highlight.
    destruct (page_lrx page), (page_ulx page), (page_lry page), (page_uly page);
      try discriminate.
    destruct (py_float (Py.rstrip_percent (sel_x sel))),
             (py_float (Py.rstrip_percent (sel_y sel))),
             (py_float (Py.rstrip_percent (sel_w sel))),
             (py_float (Py.rstrip_percent (sel_h sel))); try discriminate.
    destruct (annotation_to_tei' a _) as [n|]; [|discriminate].
    intros H; inversion H; subst. simpl.
    eexists _, (set_target (zone_target a) n).
    split.
    { rewrite (modify_const _ teipage _ page Hpage).
      apply (get_modify (fun _ => _) teipage _ page Hpage). }
    repeat split. apply last_snoc.
  - destruct (annotation_to_tei' a _) as [n|]; discriminate.
Qed.

(** X11.  When [insert_note] returns for a text annotation and did not
    skip it, both anchors are in the document, which has two nodes more
    and the text it had; the start anchor names the end anchor as its
    [next]; and the target of the note appended is the range between the
    identifiers of the two anchors. *)
Theorem text_note_refers_to_anchors (st : State) (teipage : Loc) (a : Annotation)
    (r : Range) (st' : State) (ins : list Insertion) :
  selection_range a = Some r ->
  insert_note' st teipage a = Done st' ins ->
  ins <> [] ->
  let doc := vol_facsimile (st_vol st) in
  let doc' := vol_facsimile (st_vol st') in
  start_token (start_anchor a) ∈ tokens doc' /\
  start_token (end_anchor a) ∈ tokens doc' /\
  length (tokens doc') = (length (tokens doc) + 2)%nat /\
  text_content doc' = text_content doc /\
  attr_str "next" (start_anchor a) = attr_str "xml:id" (end_anchor a) /\
  exists n,
    last (vol_annotations (st_vol st')) = Some n /\
    note_target n =
      Some ("#range(#" +:+ "highlight-start-" +:+ ann_id a +:+ ", #"
            +:+ "highlight-end-" +:+ ann_id a +:+ ")").
Proof.
  intros Hr. unfold insert_note, place_highlight. rewrite Hr.
  destruct (xpath _ teipage (start_xpath r)) as [|s0 ?];
    [intros H; inversion H; subst; contradiction|].
  destruct (xpath _ teipage (end_xpath r)) as [|e0 ?];
    [intros H; inversion H; subst; contradiction|].
  destruct (insert_anchor _ e0 _ _) as [[doc1 ins1]|] eqn:H1; [|discriminate].
  destruct (insert_anchor doc1 _ _ _) as [[doc2 ins2]|] eqn:H2; [|discriminate].
  destruct (annotation_to_tei' a _) as [n|]; [|discriminate].
  intros H _; inversion H; subst. simpl.
  assert (HaE : is_leaf (end_anchor a)) by (repeat split).
  assert (HaS : is_leaf (start_anchor a)) by (repeat split).
  destruct (insert_anchor_tokens _ _ _ _ _ _ HaE H1) as ((A1 & B1 & E0 & E1) & T1).
  destruct (insert_anchor_tokens _ _ _ _ _ _ HaS H2) as ((A2 & B2 & E2 & E3) & T2).
  split; [rewrite E3; apply elem_of_app; right; apply elem_of_cons; now left|].
  split.
  { assert (Hin : start_token (end_anchor a) ∈ tokens doc1)
      by (rewrite E1; apply elem_of_app; right; apply elem_of_cons; now left).
    rewrite E2 in Hin. rewrite E3.
    apply elem_of_app in Hin as [Hin|Hin]; apply elem_of_app;
      [now left | right; apply elem_of_cons; now right]. }
  split.
  { rewrite E3, E0. rewrite E2 in E1.
    apply (f_equal length) in E1. rewrite !length_app in *. simpl in *. lia. }
  split; [now rewrite T2, T1|].
  split; [reflexivity|].
  exists (set_target (range_target a) n). split; [apply last_snoc | reflexivity].
Qed.

(** X12.  [annotation_to_tei] returns a note exactly when the converter
    and the parser of its result return: tags, user and related pages
    never make it raise.  Every related page has its reference, in order,
    with the page as its text; the reference has a target when the page
    is found in the document and none when it is not. *)
Theorem related_pages_never_fail (a : Annotation) (v : Volume) :
  ((exists n, annotation_to_tei' a v = Ok n) <->
   (exists c node,
      convert (ann_text a) = Some c /\
      load_xmlobject_from_string
        ("<note xmlns=" +:+ dquote +:+ TEI_NAMESPACE +:+ dquote +:+ ">" +:+ c +:+ "</note>")
      = Some node)) /\
  forall n, annotation_to_tei' a v = Ok n ->
    length (note_related_pages n) = length (ann_related_pages a) /\
    forall i rel_page, ann_related_pages a !! i = Some rel_page ->
      exists ref,
        note_related_pages n !! i = Some ref /\
        ref_text ref = rel_page /\
        ref_type ref = "related page" /\
        ref_target ref = (fun t => "#" +:+ t) <$> page_id_by_xlink v rel_page.
Proof.
  split.
  - unfold annotation_to_tei. split.
    + intros (n & H). destruct (convert (ann_text a)) as [c|]; [|discriminate].
      destruct (load_xmlobject_from_string _) as [node|] eqn:E; [|discriminate].
      eauto.
    + intros (c & node & -> & ->). eauto.
  - intros n H. destruct (annotation_to_tei_ok _ _ _ H) as (_ & _ & _ & _ & _ & -> & _).
    unfold note_refs. split; [apply length_map|].
    intros i rel_page Hi. eexists. split.
    + change (map ?f ?l) with (f <$> l). rewrite list_lookup_fmap, Hi. reflexivity.
    + simpl. repeat split.
Qed.

(** X13.  The tag references of a note are one per identifier: when the
    annotation has tags, [ana] is the references joined by spaces, the
    references are distinct, and they are exactly the [#]-prefixed
    identifiers [slugify(tag.strip())] of the tags.  Without tags, [ana]
    is not set. *)
Theorem ana_has_one_reference_per_slug (a : Annotation) (v : Volume) (n : Note) :
  annotation_to_tei' a v = Ok n ->
  match ann_tags a with
  | Some (t :: l) =>
      exists refs,
        note_ana n = Some (Py.join " " refs) /\
        NoDup refs /\
        forall ref, ref ∈ refs <->
          exists tag, tag ∈ t :: l /\ ref = "#" +:+ slugify (Py.strip tag)
  | _ => note_ana n = None
  end.
Proof.
  intros H. destruct (annotation_to_tei_ok _ _ _ H) as (_ & _ & _ & _ & _ & _ & -> & _).
  destruct (ann_tags a) as [[|t l]|]; try reflexivity.
  exists (elements (tag_refs slugify (t :: l))).
  split; [reflexivity|]. split; [apply NoDup_elements|].
  intros ref. rewrite elem_of_elements. unfold tag_refs.
  rewrite elem_of_list_to_set.
  change (map ?f ?l0) with (f <$> l0). rewrite list_elem_of_fmap.
  split; intros (tag & H1 & H2); exists tag; auto.
Qed.

End NoteCases.

(** ** annotated_tei: header, notes and tags *)

Section ExportMore.

Variable xpath : Element -> Loc -> string -> list Loc.
Variable py_float : string -> option float.
Variable convert : string -> option string.
Variable load_xmlobject_from_string : string -> option Element.
Variable absolutize_url : string -> string.
Variable slugify : string -> string.
Variable page_id_by_xlink : Volume -> string -> option string.
Variable page_list : Element -> list Loc.
Variable version : string.
Variable export_date : string.

Local Abbreviation insert_note' :=
  (insert_note xpath py_float convert load_xmlobject_from_string absolutize_url
     slugify page_id_by_xlink).
Local Abbreviation annotation_to_tei' :=
  (annotation_to_tei convert load_xmlobject_from_string absolutize_url
     slugify page_id_by_xlink).
Local Abbreviation notes_loop' :=
  (notes_loop xpath py_float convert load_xmlobject_from_string absolutize_url
     slugify page_id_by_xlink).
Local Abbreviation pages_loop' :=
  (pages_loop xpath py_float convert load_xmlobject_from_string absolutize_url
     slugify page_id_by_xlink).
Local Abbreviation annotated_tei' :=
  (annotated_tei xpath py_float convert load_xmlobject_from_string absolutize_url
     slugify page_id_by_xlink page_list version export_date).

Lemma insert_note_header (st : State) (page : Loc) (a : Annotation) :
  vol_header (st_vol (final_state (insert_note' st page a))) = vol_header (st_vol st).
Proof.
  unfold insert_note, place_highlight.
  destruct (selection_range a) as [r|].
  - destruct (xpath _ page (start_xpath r)) as [|s0 ?]; [reflexivity|].
    destruct (xpath _ page (end_xpath r)) as [|e0 ?]; [reflexivity|].
    destruct (insert_anchor _ e0 _ _) as [[doc1 ins1]|]; [|reflexivity].
    destruct (insert_anchor doc1 _ _ _) as [[doc2 ins2]|]; [|reflexivity].
    destruct (annotation_to_tei' a _) as [n|]; reflexivity.
  - destruct (ann_image_selection a) as [sel|].
    + destruct (get _ page) as [pg|]; [|reflexivity].
      destruct (image_highlight py_float pg sel _) as [zone|]; [|reflexivity].
      destruct (annotation_to_tei' a _) as [n|]; reflexivity.
    + destruct (annotation_to_tei' a _) as [n|]; reflexivity.
Qed.

Lemma notes_loop_header (href : string) (page0 : Loc) (notes : list Annotation) :
  forall st tagset trail,
  vol_header (st_vol (final_state (notes_loop' href page0 notes st tagset trail)))
  = vol_header (st_vol st).
Proof.
  induction notes as [|note rest IH]; intros st tagset trail; simpl; [reflexivity|].
  destruct (String.eqb _ href); [|apply IH].
  pose proof (insert_note_header st (relocate_all trail page0) note) as H.
  destruct (insert_note' st _ note) as [st1 ins|e st1]; simpl in H.
  - now rewrite IH.
  - exact H.
Qed.

Lemma pages_loop_header (annotations : list Annotation) (pages : list Loc) :
  forall st tagset trail,
  vol_header (st_vol (final_state (pages_loop' pages annotations st tagset trail)))
  = vol_header (st_vol st).
Proof.
  induction pages as [|page0 rest IH]; intros st tagset trail; simpl; [reflexivity|].
  destruct (get _ _ ≫= page_href) as [[|c href]|]; try apply IH.
  pose proof (notes_loop_header (String c href) page0
                (filter (fun a => page_query (String c href) a = true) annotations)
                st tagset trail) as H.
  destruct (notes_loop' _ page0 _ st tagset trail) as [st1 [tagset1 trail1]|e st1];
    simpl in H.
  - now rewrite IH.
  - exact H.
Qed.

Lemma annotated_tei_header (teivol : Volume) (annotations : list Annotation)
    (log : list string) :
  let v := st_vol (final_state (annotated_tei' teivol annotations log)) in
  vol_title v = None /\
  vol_main_title v = vol_title teivol /\
  vol_subtitle v = Some ", an annotated digital edition" /\
  vol_responsibility v = Some "annotated by" /\
  vol_responsible_names v = vol_responsible_names teivol ++ added_names annotations /\
  vol_pubstmt v =
    Some (MkPubStmt (Some ("Annotated TEI generated by Readux version " +:+ version))
            (Some export_date) (Some export_date)).
Proof.
  unfold annotated_tei.
  pose proof (pages_loop_header annotations
                (page_list (vol_facsimile (update_header version export_date teivol annotations)))
                (MkState (update_header version export_date teivol annotations) log) ∅ [])
    as H.
  destruct (pages_loop' _ annotations _ ∅ []) as [st1 [tagset1 trail1]|e st1];
    simpl in *; unfold vol_header in H; inversion H as [[H1 H2 H3 H4 H5 H6 H7]].
  - unfold add_tags. destruct (elements tagset1); simpl; rewrite H1, H2, H3, H4, H5, H6;
      repeat split.
  - rewrite H1, H2, H3, H4, H5, H6. repeat split.
Qed.

(** X14.  Whatever happens to the annotations, also when the export
    raises, the document reached has the header of the annotated edition:
    the title it had is the main title, the plain title is removed, the
    subtitle and the responsibility are the fixed ones, and the
    publication statement names the version and has the same export date
    in its two forms. *)
Theorem header_is_rewritten (teivol : Volume) (annotations : list Annotation)
    (log : list string) :
  let v := st_vol (final_state (annotated_tei' teivol annotations log)) in
  vol_title v = None /\
  vol_main_title v = vol_title teivol /\
  vol_subtitle v = Some ", an annotated digital edition" /\
  vol_responsibility v = Some "annotated by" /\
  exists p,
    vol_pubstmt v = Some p /\
    pub_desc p = Some ("Annotated TEI generated by Readux version " +:+ version) /\
    pub_date p = Some export_date /\
    pub_date_normal p = pub_date p.
Proof.
  destruct (annotated_tei_header teivol annotations log) as (H1 & H2 & H3 & H4 & _ & H6).
  simpl. repeat (split; [assumption|]). eexists. split; [exact H6|]. repeat split.
Qed.

(** X15.  The names added to the responsibility statement are one for
    every distinct user of the annotations passed in, without repeats,
    after the names there were: a user is named when one of the
    annotations is theirs, also when none of their annotations is placed
    and when the export raises. *)
Theorem every_annotating_user_is_named (teivol : Volume) (annotations : list Annotation)
    (log : list string) :
  let v := st_vol (final_state (annotated_tei' teivol annotations log)) in
  exists names,
    vol_responsible_names v = vol_responsible_names teivol ++ names /\
    NoDup names /\
    forall name, name ∈ names <->
      exists a u, a ∈ annotations /\ ann_user a = Some u /\
        name = MkName (username u) (full_name u).
Proof.
  destruct (annotated_tei_header teivol annotations log) as (_ & _ & _ & _ & H5 & _).
  simpl. exists (added_names annotations). split; [exact H5|].
  unfold added_names, annotation_users.
  change (map ?f ?l) with (f <$> l).
  split.
  - apply NoDup_fmap_2; [|apply NoDup_remove_dups].
    intros [u1 f1] [u2 f2] H. inversion H. reflexivity.
  - intros name. rewrite list_elem_of_fmap. split.
    + intros (u & -> & Hu). apply (proj1 (elem_of_remove_dups _ _)) in Hu.
      apply (proj1 (list_elem_of_omap _ _ _)) in Hu as (a & Ha & Hau). eauto.
    + intros (a & u & Ha & Hau & ->). exists u. split; [reflexivity|].
      apply (proj2 (elem_of_remove_dups _ _)).
      apply (proj2 (list_elem_of_omap _ _ _)). eauto.
Qed.

Lemma ark_is_href (a : Annotation) (href : string) :
  href <> EmptyString ->
  String.eqb (default EmptyString (ann_ark a)) href = true -> ann_ark a = Some href.
Proof.
  intros Hne H. apply String.eqb_eq in H. destruct (ann_ark a) as [k|]; simpl in H.
  - now subst.
  - symmetry in H. contradiction.
Qed.

Lemma insert_note_done_note (st : State) (page : Loc) (a : Annotation)
    (st' : State) (ins : list Insertion) :
  insert_note' st page a = Done st' ins ->
  vol_annotations (st_vol st') = vol_annotations (st_vol st) \/
  exists n,
    vol_annotations (st_vol st') = vol_annotations (st_vol st) ++ [n] /\
    note_id n = "annotation-" +:+ ann_id a /\
    note_markdown n = ann_text a.
Proof.
  unfold insert_note, place_highlight.
  destruct (selection_range a) as [r|].
  - destruct (xpath _ page (start_xpath r)) as [|s0 ?];
      [intros H; inversion H; subst; now left|].
    destruct (xpath _ page (end_xpath r)) as [|e0 ?];
      [intros H; inversion H; subst; now left|].
    destruct (insert_anchor _ e0 _ _) as [[doc1 ins1]|]; [|discriminate].
    destruct (insert_anchor doc1 _ _ _) as [[doc2 ins2]|]; [|discriminate].
    destruct (annotation_to_tei' a _) as [n|] eqn:Hn; [|discriminate].
    intros H; inversion H; subst. right.
    destruct (annotation_to_tei_ok _ _ _ _ _ _ _ _ Hn) as (H1 & _ & _ & H4 & _).
    eexists. split; [reflexivity|]. split; assumption.
  - destruct (ann_image_selection a) as [sel|].
    + destruct (get _ page) as [pg|]; [|discriminate].
      destruct (image_highlight py_float pg sel _) as [zone|]; [|discriminate].
      destruct (annotation_to_tei' a _) as [n|] eqn:Hn; [|discriminate].
      intros H; inversion H; subst. right.
      destruct (annotation_to_tei_ok _ _ _ _ _ _ _ _ Hn) as (H1 & _ & _ & H4 & _).
      eexists. split; [reflexivity|]. split; assumption.
    + destruct (annotation_to_tei' a _) as [n|]; discriminate.
Qed.

Lemma notes_loop_provenance (href : string) (page0 : Loc) (notes : list Annotation) :
  href <> EmptyString ->
  forall st tagset trail st' tagset' trail',
  notes_loop' href page0 notes st tagset trail = Done st' (tagset', trail') ->
  (exists new,
     vol_annotations (st_vol st') = vol_annotations (st_vol st) ++ new /\
     Forall (fun n => exists a, a ∈ notes /\ ann_ark a = Some href /\
                        note_id n = "annotation-" +:+ ann_id a /\
                        note_markdown n = ann_text a) new) /\
  (forall x, x ∈ tagset' -> x ∈ tagset \/ exists a, a ∈ notes /\ x ∈ note_tags a).
Proof.
  intros Hne. induction notes as [|note rest IH];
    intros st tagset trail st' tagset' trail' H; simpl in H.
  - inversion H; subst. split; [exists []; now rewrite app_nil_r | auto].
  - destruct (String.eqb _ href) eqn:Hark.
    + apply (ark_is_href note href Hne) in Hark.
      destruct (insert_note' st _ note) as [st1 ins|] eqn:Hn; [|discriminate].
      destruct (IH _ _ _ _ _ _ H) as ((new & Hnew & Hall) & Htags).
      split.
      * assert (Hrest : Forall (fun n => exists a, a ∈ note :: rest /\
                           ann_ark a = Some href /\
                           note_id n = "annotation-" +:+ ann_id a /\
                           note_markdown n = ann_text a) new).
        { eapply Forall_impl; [exact Hall|]. intros n (a & Ha & Hrest).
          exists a. split; [now apply elem_of_cons; right | exact Hrest]. }
        destruct (insert_note_done_note _ _ _ _ _ Hn) as [Hsame|(n & Hadd & Hid & Hmd)].
        -- exists new. split; [now rewrite Hnew, Hsame | exact Hrest].
        -- exists (n :: new). split; [rewrite Hnew, Hadd; now rewrite <- app_assoc|].
           constructor; [|exact Hrest].
           exists note. split; [apply elem_of_cons; now left | auto].
      * intros x Hx. destruct (Htags x Hx) as [Hin|(a & Ha & Hxa)].
        -- apply elem_of_union in Hin as [Hin|Hin]; [now left|].
           right. exists note. split; [apply elem_of_cons; now left | exact Hin].
        -- right. exists a. split; [apply elem_of_cons; now right | exact Hxa].
    + destruct (IH _ _ _ _ _ _ H) as ((new & Hnew & Hall) & Htags).
      split.
      * exists new. split; [exact Hnew|].
        eapply Forall_impl; [exact Hall|]. intros n (a & Ha & Hrest).
        exists a. split; [now apply elem_of_cons; right | exact Hrest].
      * intros x Hx. destruct (Htags x Hx) as [Hin|(a & Ha & Hxa)]; [now left|].
        right. exists a. split; [apply elem_of_cons; now right | exact Hxa].
Qed.

Lemma note_tags_tag_of (annotations : list Annotation) (a : Annotation) (x : string) :
  a ∈ annotations -> x ∈ note_tags a -> tag_of annotations x.
Proof.
  intros Ha. unfold note_tags. destruct (ann_tags a) as [l|] eqn:E.
  - intros Hx. apply elem_of_list_to_set in Hx.
    change (map ?f ?l0) with (f <$> l0) in Hx.
    apply (proj1 (list_elem_of_fmap _ _ _)) in Hx as (t & -> & Ht).
    exists a, l, t. auto.
  - intros Hx. apply not_elem_of_empty in Hx. contradiction.
Qed.

Lemma pages_loop_provenance (annotations : list Annotation) (pages : list Loc) :
  forall st tagset trail st' tagset' trail',
  pages_loop' pages annotations st tagset trail = Done st' (tagset', trail') ->
  (exists new,
     vol_annotations (st_vol st') = vol_annotations (st_vol st) ++ new /\
     Forall (note_of annotations) new) /\
  (forall x, x ∈ tagset' -> x ∈ tagset \/ tag_of annotations x).
Proof.
  induction pages as [|page0 rest IH]; intros st tagset trail st' tagset' trail' H;
    simpl in H.
  - inversion H; subst. split; [exists []; now rewrite app_nil_r | auto].
  - destruct (get _ _ ≫= page_href) as [[|c href]|]; try (now apply (IH _ _ _ _ _ _ H)).
    destruct (notes_loop' _ page0 _ st tagset trail) as [st1 [tagset1 trail1]|] eqn:Hn;
      [|discriminate].
    assert (Hne : String c href <> EmptyString) by discriminate.
    destruct (notes_loop_provenance _ page0 _ Hne _ _ _ _ _ _ Hn)
      as ((new1 & Hnew1 & Hall1) & Htags1).
    destruct (IH _ _ _ _ _ _ H) as ((new & Hnew & Hall) & Htags).
    split.
    + exists (new1 ++ new). split; [rewrite Hnew, Hnew1; now rewrite <- app_assoc|].
      apply Forall_app. split; [|exact Hall].
      eapply Forall_impl; [exact Hall1|]. intros n (a & Ha & Hark & Hid & Hmd).
      apply list_elem_of_filter in Ha as (Hq & Ha).
      exists a, (String c href). repeat split; assumption || discriminate.
    + intros x Hx. destruct (Htags x Hx) as [Hin|Hin]; [|now right].
      destruct (Htags1 x Hin) as [Hin1|(a & Ha & Hxa)]; [now left|].
      right. apply list_elem_of_filter in Ha as (_ & Ha).
      now apply (note_tags_tag_of annotations a x).
Qed.

(** X16.  Every note the export adds comes from an annotation passed in
    whose ark is set, is the key of a page and is accepted by the page
    query: the notes there were are kept, in order, before the new ones,
    and an annotation without an ark is never placed, whatever its
    [uri]. *)
Theorem placed_notes_have_an_ark (teivol : Volume) (annotations : list Annotation)
    (log : list string) (st' : State) (vol' : Volume) :
  annotated_tei' teivol annotations log = Done st' vol' ->
  exists new,
    vol_annotations vol' = vol_annotations teivol ++ new /\
    Forall (note_of annotations) new.
Proof.
  unfold annotated_tei.
  destruct (pages_loop' _ annotations _ ∅ []) as [st1 [tagset1 trail1]|] eqn:Hloop;
    [|discriminate].
  intros H; inversion H; subst.
  destruct (pages_loop_provenance _ _ _ _ _ _ _ _ Hloop) as ((new & Hnew & Hall) & _).
  exists new. split; [|exact Hall].
  unfold add_tags. destruct (elements tagset1); exact Hnew.
Qed.

(** X17.  The entries the export adds to the tag vocabulary follow the
    entries there were; each has the stripped text of a tag of an
    annotation passed in as its label and [slugify] of that label as its
    identifier; and no two of them have the same label. *)
Theorem vocabulary_entries_are_tags (teivol : Volume) (annotations : list Annotation)
    (log : list string) (st' : State) (vol' : Volume) :
  annotated_tei' teivol annotations log = Done st' vol' ->
  exists new,
    (new = [] -> vol_tags vol' = vol_tags teivol) /\
    (new <> [] -> vol_tags vol' = Some (default [] (vol_tags teivol) ++ new)) /\
    NoDup (interp_value <$> new) /\
    Forall (fun i => interp_id i = slugify (interp_value i) /\
                     tag_of annotations (interp_value i)) new.
Proof.
  unfold annotated_tei.
  destruct (pages_loop' _ annotations _ ∅ []) as [st1 [tagset1 trail1]|] eqn:Hloop;
    [|discriminate].
  intros H; inversion H; subst. clear H.
  destruct (pages_loop_provenance _ _ _ _ _ _ _ _ Hloop) as (_ & Htags).
  pose proof (pages_loop_header annotations
                (page_list (vol_facsimile (update_header version export_date teivol annotations)))
                (MkState (update_header version export_date teivol annotations) log) ∅ [])
    as Hh.
  rewrite Hloop in Hh. simpl in Hh.
  assert (Ht : vol_tags (st_vol st1) = vol_tags teivol)
    by (apply (f_equal snd) in Hh; exact Hh).
  clear Hh.
  exists ((fun tag => MkInterp (slugify tag) tag) <$> elements tagset1).
  unfold add_tags.
  split; [|split; [|split]].
  - destruct (elements tagset1); [intros _; exact Ht | discriminate].
  - destruct (elements tagset1) as [|x l] eqn:E; [intros Hn; now contradiction Hn|].
    intros _. simpl. rewrite Ht. reflexivity.
  - rewrite <- list_fmap_compose.
    apply NoDup_fmap_2; [intros x y Hxy; exact Hxy | apply NoDup_elements].
  - apply Forall_fmap. apply Forall_forall. intros x Hx. simpl.
    split; [reflexivity|].
    apply elem_of_elements in Hx. destruct (Htags x Hx) as [Hin|Hin]; [|exact Hin].
    apply not_elem_of_empty in Hin. contradiction.
Qed.

(** X18.  When no annotation passed in has a tag, the export leaves the
    tag vocabulary as it was: no empty block is created. *)
Theorem no_tags_no_vocabulary (teivol : Volume) (annotations : list Annotation)
    (log : list string) (st' : State) (vol' : Volume) :
  (forall a, a ∈ annotations -> ann_tags a = None \/ ann_tags a = Some []) ->
  annotated_tei' teivol annotations log = Done st' vol' ->
  vol_tags vol' = vol_tags teivol.
Proof.
  intros Hno. unfold annotated_tei.
  destruct (pages_loop' _ annotations _ ∅ []) as [st1 [tagset1 trail1]|] eqn:Hloop;
    [|discriminate].
  intros H; inversion H; subst. clear H.
  destruct (pages_loop_provenance _ _ _ _ _ _ _ _ Hloop) as (_ & Htags).
  pose proof (pages_loop_header annotations
                (page_list (vol_facsimile (update_header version export_date teivol annotations)))
                (MkState (update_header version export_date teivol annotations) log) ∅ [])
    as Hh.
  rewrite Hloop in Hh. simpl in Hh.
  assert (Ht : vol_tags (st_vol st1) = vol_tags teivol)
    by (apply (f_equal snd) in Hh; exact Hh).
  clear Hh.
  unfold add_tags. destruct (elements tagset1) as [|x l] eqn:E; [exact Ht|].
  exfalso.
  assert (Hx : x ∈ tagset1) by (apply elem_of_elements; rewrite E; apply elem_of_cons; now left).
  destruct (Htags x Hx) as [Hin|(a & l0 & t & Ha & Hl & Ht0 & _)].
  - apply not_elem_of_empty in Hin. contradiction.
  - destruct (Hno a Ha) as [Hn|Hn]; rewrite Hn in Hl; [discriminate|].
    inversion Hl; subst. inversion Ht0.
Qed.

Lemma notes_loop_none_selected (href : string) (page0 : Loc) (notes : list Annotation) :
  (forall a, a ∈ notes -> String.eqb (default EmptyString (ann_ark a)) href = false) ->
  forall st tagset trail,
  notes_loop' href page0 notes st tagset trail = Done st (tagset, trail).
Proof.
  induction notes as [|note rest IH]; intros Hno st tagset trail; simpl; [reflexivity|].
  rewrite (Hno note) by (apply elem_of_cons; now left).
  apply IH. intros a Ha. apply Hno. apply elem_of_cons. now right.
Qed.

Lemma pages_loop_none_selected (annotations : list Annotation) (st : State)
    (tagset : gset string) (pages : list Loc) :
  (forall page0 k a,
     page0 ∈ pages -> page_key (vol_facsimile (st_vol st)) page0 = Some k ->
     a ∈ annotations -> page_query k a = true -> ann_ark a <> Some k) ->
  pages_loop' pages annotations st tagset [] = Done st (tagset, []).
Proof.
  induction pages as [|page0 rest IH]; intros Hno; simpl; [reflexivity|].
  assert (Hrest : pages_loop' rest annotations st tagset [] = Done st (tagset, [])).
  { apply IH. intros pg k a Hp. apply Hno. apply elem_of_cons. now right. }
  destruct (get _ page0 ≫= page_href) as [[|c href]|] eqn:Hk; try exact Hrest.
  rewrite notes_loop_none_selected; [exact Hrest|].
  intros a Ha. apply list_elem_of_filter in Ha as (Hq & Ha).
  destruct (String.eqb_spec (default EmptyString (ann_ark a)) (String c href)) as [E|];
    [|reflexivity].
  exfalso. apply (Hno page0 (String c href) a); try assumption.
  - apply elem_of_cons. now left.
  - unfold page_key. now rewrite Hk.
  - destruct (ann_ark a); simpl in E; [now subst | discriminate].
Qed.

(** X19.  When no annotation is selected for a page (there is no
    annotation, or no page has a key, or no annotation that the query of
    a page accepts has the key of the page as its ark), the export
    returns the document with its header rewritten and nothing else
    changed: the facsimile, the notes and the tag vocabulary are as they
    were, and nothing is logged. *)
Theorem nothing_selected_nothing_placed (teivol : Volume) (annotations : list Annotation)
    (log : list string) :
  (forall page0 k a,
     page0 ∈ page_list (vol_facsimile teivol) ->
     page_key (vol_facsimile teivol) page0 = Some k ->
     a ∈ annotations -> page_query k a = true -> ann_ark a <> Some k) ->
  exists v,
    annotated_tei' teivol annotations log = Done (MkState v log) v /\
    vol_facsimile v = vol_facsimile teivol /\
    vol_annotations v = vol_annotations teivol /\
    vol_tags v = vol_tags teivol.
Proof.
  intros Hno. unfold annotated_tei.
  rewrite pages_loop_none_selected by exact Hno.
  unfold add_tags. rewrite elements_empty. simpl.
  eexists. split; [reflexivity|]. repeat split.
Qed.

End ExportMore.

(** ** Views *)

Lemma find_current_skips (pid : string) (before rest : list Views.PageHit) :
  (forall p, p ∈ before -> Views.hit_pid p <> pid) ->
  forall index prev,
  Views.find_current pid (before ++ rest) index prev =
  Views.find_current pid rest (index + length before)%nat
    (match last before with Some p => Some p | None => prev end).
Proof.
  induction before as [|b before IH]; intros Hno index prev; simpl.
  - now rewrite Nat.add_0_r.
  - destruct (String.eqb_spec (Views.hit_pid b) pid) as [E|_].
    + exfalso. apply (Hno b); [apply elem_of_cons; now left | exact E].
    + rewrite IH by (intros p Hp; apply Hno; apply elem_of_cons; now right).
      replace (S index + length before)%nat with (index + S (length before))%nat by lia.
      f_equal. destruct before as [|b' before']; [reflexivity|].
      change (last (b :: b' :: before')) with (last (b' :: before')).
      destruct (last (b' :: before')) eqn:E; [reflexivity|].
      apply last_None in E. discriminate.
Qed.

(** X20.  In [PageDetail], when the current page is in the pages found,
    [prev] is the page just before its first occurrence and [nxt] the page
    just after it; there is no [prev] for the first page found and no
    [nxt] for the last. *)
Theorem adjacent_pages_found (pid : string) (before after : list Views.PageHit)
    (current : Views.PageHit) :
  (forall p, p ∈ before -> Views.hit_pid p <> pid) ->
  Views.hit_pid current = pid ->
  Views.adjacent_pages pid (before ++ current :: after) = (last before, head after).
Proof.
  intros Hno Hcur. unfold Views.adjacent_pages.
  rewrite (find_current_skips pid before (current :: after) Hno 0 None). simpl.
  rewrite Hcur, String.eqb_refl. f_equal.
  - now destruct (last before).
  - rewrite length_app. simpl.
    destruct after as [|x after']; simpl length;
      match goal with
      | |- context [(?a <? ?b)%nat] => destruct (Nat.ltb_spec a b)
      end; try lia; try reflexivity.
    replace (length before + 1)%nat with (length (before ++ [current]))
        by (rewrite length_app; reflexivity).
      replace (before ++ current :: x :: after') with ((before ++ [current]) ++ x :: after')
        by (now rewrite <- app_assoc).
      apply lookup_middle_len.
Qed.

Lemma adjacent_pages_found_witness :
  Views.adjacent_pages "p:2"
    [Views.MkHit "p:1" 1; Views.MkHit "p:2" 2; Views.MkHit "p:3" 3]
  = (Some (Views.MkHit "p:1" 1), Some (Views.MkHit "p:3" 3)).
Proof.
  apply (adjacent_pages_found "p:2" [Views.MkHit "p:1" 1] [Views.MkHit "p:3" 3]
           (Views.MkHit "p:2" 2)); [|reflexivity].
  intros p Hp. apply list_elem_of_singleton in Hp. subst p. discriminate.
Defined.

(** X21.  In [PageDetail], when the current page is not among the pages
    found, the loop runs to the end: [prev] is the last page found, and
    there is no [nxt]. *)
Theorem adjacent_pages_not_found (pid : string) (pagequery : list Views.PageHit) :
  (forall p, p ∈ pagequery -> Views.hit_pid p <> pid) ->
  Views.adjacent_pages pid pagequery = (last pagequery, None).
Proof.
  intros Hno. unfold Views.adjacent_pages.
  pose proof (find_current_skips pid pagequery [] Hno 0 None) as H.
  rewrite app_nil_r in H. rewrite H. simpl. f_equal.
  - now destruct (last pagequery).
  - destruct (Nat.ltb_spec (length pagequery + 1) (length pagequery)); [lia | reflexivity].
Qed.

Lemma adjacent_pages_not_found_witness :
  Views.adjacent_pages "p:9" [Views.MkHit "p:1" 1; Views.MkHit "p:2" 2]
  = (Some (Views.MkHit "p:2" 2), None).
Proof.
  apply (adjacent_pages_not_found "p:9" [Views.MkHit "p:1" 1; Views.MkHit "p:2" 2]).
  intros p Hp. apply elem_of_cons in Hp as [->|Hp]; [discriminate|].
  apply list_elem_of_singleton in Hp. subst p. discriminate.
Defined.

(** X22.  For a page order from 1 on, [page_chunk] is the number, from 1
    on, of the run of 30 pages the page is in: pages 1 to 30 are in chunk
    1, pages 31 to 60 in chunk 2, and so on. *)
Theorem page_chunk_bounds (page_order : Z) :
  (1 <= page_order)%Z ->
  (1 <= Views.page_chunk page_order)%Z /\
  (30 * (Views.page_chunk page_order - 1) < page_order
   <= 30 * Views.page_chunk page_order)%Z.
Proof.
  intros H. unfold Views.page_chunk.
  pose proof (Z.div_mod (page_order - 1) 30 ltac:(lia)) as Hdm.
  pose proof (Z.mod_pos_bound (page_order - 1) 30 ltac:(lia)) as Hb.
  pose proof (Z.div_pos (page_order - 1) 30 ltac:(lia) ltac:(lia)) as Hp.
  lia.
Qed.

Lemma page_chunk_bounds_witness :
  (1 <= Views.page_chunk 31)%Z /\
  (30 * (Views.page_chunk 31 - 1) < 31 <= 30 * Views.page_chunk 31)%Z.
Proof. apply page_chunk_bounds. lia. Defined.

Section PageImageFacts.

Variable read_image : string -> option string.
Variable image_exists : Views.outcome bool.
Variable get_region : string -> Views.outcome string.
Variable region_chunks : string.
Variable default_content_type : string.
Variable condition : Views.outcome (option Views.Response).

Lemma page_image_runs_view (method : string) (mode : option string) :
  method = "GET" \/ method = "HEAD" ->
  condition = Views.Returns None ->
  Views.page_image read_image image_exists get_region region_chunks
    default_content_type condition method mode
  = Views.page_image_view read_image image_exists get_region region_chunks method mode.
Proof.
  intros Hm Hc. unfold Views.page_image. rewrite Hc.
  destruct Hm as [-> | ->]; reflexivity.
Qed.

(** X23.  For a [GET] or [HEAD] request that the [condition] decorator
    lets through, when the page has no image, [page_image] answers 404
    with the error image of the mode in the three modes that have one
    (thumbnail, single-page, mini-thumbnail), and raises [Http404] in
    every other mode, [fullsize] and no mode included. *)
Theorem missing_image_response (method : string) (mode : option string) :
  method = "GET" \/ method = "HEAD" ->
  condition = Views.Returns None ->
  image_exists = Views.Returns false ->
  (forall img bytes,
     Views.error_images mode = Some img -> read_image img = Some bytes ->
     Views.page_image read_image image_exists get_region region_chunks
       default_content_type condition method mode
     = Views.Returns (Views.MkResponse 404 bytes "image/png")) /\
  (Views.error_images mode = None ->
     Views.page_image read_image image_exists get_region region_chunks
       default_content_type condition method mode
     = Views.Raises Views.Http404).
Proof.
  intros Hm Hc He. rewrite (page_image_runs_view _ _ Hm Hc).
  unfold Views.page_image_view, Views.page_image_body, Views._error_image_response.
  rewrite He. split.
  - intros img bytes -> ->. reflexivity.
  - intros ->. reflexivity.
Qed.

(** X24.  For a [GET] or [HEAD] request that the [condition] decorator
    lets through, when the repository fails with a status code while the
    image is looked up, [page_image] answers with the error image of the
    mode and that status code in the three modes that have one; in the
    other modes it raises [Http404] for the codes 404 and 401 and raises
    the failure again for any other code. *)
Theorem repository_failure_response (method : string) (mode : option string) (code : Z) :
  method = "GET" \/ method = "HEAD" ->
  condition = Views.Returns None ->
  image_exists = Views.Raises (Views.RequestFailed code) ->
  (forall img bytes,
     Views.error_images mode = Some img -> read_image img = Some bytes ->
     Views.page_image read_image image_exists get_region region_chunks
       default_content_type condition method mode
     = Views.Returns (Views.MkResponse code bytes "image/png")) /\
  (Views.error_images mode = None ->
     (code = 404%Z \/ code = 401%Z ->
        Views.page_image read_image image_exists get_region region_chunks
          default_content_type condition method mode
        = Views.Raises Views.Http404) /\
     (code <> 404%Z -> code <> 401%Z ->
        Views.page_image read_image image_exists get_region region_chunks
          default_content_type condition method mode
        = Views.Raises (Views.RequestFailed code))).
Proof.
  intros Hm Hc He. rewrite (page_image_runs_view _ _ Hm Hc).
  unfold Views.page_image_view, Views.page_image_body, Views._error_image_response.
  rewrite He. split.
  - intros img bytes -> ->. reflexivity.
  - intros ->. split.
    + intros [-> | ->]; reflexivity.
    + intros H1 H2.
      destruct (Z.eqb_spec code 404); [contradiction|].
      destruct (Z.eqb_spec code 401); [contradiction|]. reflexivity.
Qed.

(** X25.  When the [condition] decorator lets the request through and the
    page has an image, a [HEAD] request is answered 200 with an empty
    body in every mode, without the image being read; a [GET] request in
    a mode that is none of thumbnail, mini-thumbnail, single-page and
    fullsize (no mode included) raises, [content] being unbound. *)
Theorem head_and_unknown_mode (mode : option string) :
  condition = Views.Returns None ->
  image_exists = Views.Returns true ->
  Views.page_image read_image image_exists get_region region_chunks
    default_content_type condition "HEAD" mode
  = Views.Returns (Views.MkResponse 200 EmptyString "image/jpeg") /\
  ((forall m, mode = Some m ->
      m <> "thumbnail" /\ m <> "mini-thumbnail" /\ m <> "single-page" /\ m <> "fullsize") ->
   Views.page_image read_image image_exists get_region region_chunks
     default_content_type condition "GET" mode
   = Views.Raises Views.UnboundLocal).
Proof.
  intros Hc He. split.
  - rewrite (page_image_runs_view _ _ (or_intror eq_refl) Hc).
    unfold Views.page_image_view, Views.page_image_body. rewrite He. reflexivity.
  - intros Hmode. rewrite (page_image_runs_view _ _ (or_introl eq_refl) Hc).
    unfold Views.page_image_view, Views.page_image_body. rewrite He.
    destruct mode as [m|]; [|reflexivity].
    destruct (Hmode m eq_refl) as (H1 & H2 & H3 & H4). simpl.
    destruct (String.eqb_spec m "thumbnail"); [contradiction|].
    destruct (String.eqb_spec m "mini-thumbnail"); [contradiction|].
    destruct (String.eqb_spec m "single-page"); [contradiction|].
    destruct (String.eqb_spec m "fullsize"); [contradiction|]. reflexivity.
Qed.

(** X28.  The decorators of [page_image] answer first: a request whose
    method is neither [GET] nor [HEAD] is answered 405 whatever the page
    and the mode are, and for a [GET] or a [HEAD] a response or an
    exception of the [condition] decorator is the outcome, the view not
    being run. *)
Theorem decorators_answer_first (method : string) (mode : option string) :
  (method <> "GET" -> method <> "HEAD" ->
   Views.page_image read_image image_exists get_region region_chunks
     default_content_type condition method mode
   = Views.Returns (Views.MkResponse 405 EmptyString default_content_type)) /\
  (method = "GET" \/ method = "HEAD" ->
   (forall response, condition = Views.Returns (Some response) ->
      Views.page_image read_image image_exists get_region region_chunks
        default_content_type condition method mode
      = Views.Returns response) /\
   (forall e, condition = Views.Raises e ->
      Views.page_image read_image image_exists get_region region_chunks
        default_content_type condition method mode
      = Views.Raises e)).
Proof.
  unfold Views.page_image. split.
  - intros H1 H2.
    destruct (String.eqb_spec method "GET"); [contradiction|].
    destruct (String.eqb_spec method "HEAD"); [contradiction|]. reflexivity.
  - intros Hm. split.
    + intros r ->. destruct Hm as [-> | ->]; reflexivity.
    + intros e ->. destruct Hm as [-> | ->]; reflexivity.
Qed.

End PageImageFacts.

Lemma starts_with_app (old s : string) : Py.starts_with old (old +:+ s) = true.
Proof.
  induction old as [|c old IH]; [reflexivity|].
  rewrite append_cons. simpl. now rewrite Ascii.eqb_refl.
Qed.

Lemma replace_from_skip (old new s1 s2 : string) :
  Py.replace_from old new (String.length s1) (s1 +:+ s2) = Py.replace_from old new 0 s2.
Proof.
  induction s1 as [|c s1 IH]; [reflexivity|].
  rewrite append_cons. simpl. exact IH.
Qed.

Lemma replace_prefix (old new s : string) :
  old <> EmptyString ->
  Py.replace old new (old +:+ s) = new +:+ Py.replace old new s.
Proof.
  intros Hne. unfold Py.replace. destruct old as [|c old]; [contradiction|].
  rewrite append_cons. cbn [Py.replace_from].
  rewrite <- append_cons, starts_with_app. simpl String.length.
  replace (S (String.length old) - 1)%nat with (String.length old) by lia.
  now rewrite replace_from_skip.
Qed.

Lemma site_domain_not_empty (domain : string) : Views.site_domain domain <> EmptyString.
Proof.
  unfold Views.site_domain. destruct domain as [|c d]; [discriminate|].
  destruct (Py.starts_with "http" (String c d)); discriminate.
Qed.

Lemma site_relative_prefix (domain path : string) :
  Py.contains (Views.site_domain domain) path = false ->
  Views.site_relative domain (Views.site_domain domain +:+ path) = path.
Proof.
  intros H. unfold Views.site_relative.
  rewrite replace_prefix by apply site_domain_not_empty.
  now rewrite replace_absent.
Qed.

(** X26.  The domain the views strip from the keys of the annotation
    counts always starts with [http]; and the key of an item of the site,
    the domain followed by a path in which the domain does not occur,
    becomes the path, which is the url the templates look up.  The same
    holds in the list of pages, for the domain without the slashes at its
    end. *)
Theorem site_relative_is_the_path (domain path : string) :
  Py.starts_with "http" (Views.site_domain domain) = true /\
  (Py.contains (Views.site_domain domain) path = false ->
   Views.site_relative domain (Views.site_domain domain +:+ path) = path) /\
  (let stripped := Py.rstrip_by (fun c => Ascii.eqb c "/"%char) domain in
   Py.contains (Views.site_domain stripped) path = false ->
   Views.page_list_relative domain (Views.site_domain stripped +:+ path) = path).
Proof.
  split; [|split].
  - unfold Views.site_domain.
    destruct (Py.starts_with "http" domain) eqn:E; [exact E | reflexivity].
  - apply site_relative_prefix.
  - intros stripped. apply site_relative_prefix.
Qed.

(** A count stored for a volume of the site is found under the url of the
    volume. *)
Example site_relative_run :
  Views.site_relative "readux.example.org"
    "http://readux.example.org/books/emory:123/" = "/books/emory:123/" /\
  Views.page_list_relative "https://readux.example.org/"
    "https://readux.example.org/books/emory:123/pages/emory:456/"
  = "/books/emory:123/pages/emory:456/".
Proof. split; reflexivity. Qed.

Lemma append_empty_l (s : string) : EmptyString +:+ s = s.
Proof. reflexivity. Qed.

Lemma replace_char (c d : ascii) (s : string) :
  c <> d ->
  Py.contains (String c EmptyString)
    (Py.replace (String c EmptyString) (String d EmptyString) s) = false /\
  String.length (Py.replace (String c EmptyString) (String d EmptyString) s)
  = String.length s.
Proof.
  intros Hcd. unfold Py.replace. induction s as [|x s [IH1 IH2]]; [split; reflexivity|].
  cbn [Py.replace_from Py.starts_with]. destruct (Ascii.eqb_spec c x) as [->|Hx].
  - simpl. rewrite ?append_cons, ?append_empty_l. simpl.
    destruct (Ascii.eqb_spec x d) as [E|_]; [contradiction|].
    simpl. split; [exact IH1 | now rewrite IH2].
  - simpl. destruct (Ascii.eqb_spec c x) as [E|_]; [contradiction|].
    simpl. split; [exact IH1 | now rewrite IH2].
Qed.

Lemma replace_char_map (c d : ascii) (s : string) :
  list_ascii_of_string (Py.replace (String c EmptyString) (String d EmptyString) s)
  = map (fun x => if Ascii.eqb x c then d else x) (list_ascii_of_string s).
Proof.
  unfold Py.replace. induction s as [|x s IH]; [reflexivity|].
  cbn [Py.replace_from Py.starts_with list_ascii_of_string map].
  rewrite (Ascii.eqb_sym x c).
  destruct (Ascii.eqb c x).
  - simpl. rewrite ?append_cons, ?append_empty_l. simpl. now rewrite IH.
  - simpl. now rewrite IH.
Qed.

(** X27.  The file name [VolumePdf] offers is the label, character by
    character, with a hyphen where the label has a space and the
    character of the label everywhere else, followed by [.pdf]: it has no
    space and the length of the label.  It is offered as an attachment
    exactly when a download is asked for, and there is a 404 when the
    object does not exist.  The file name [PageTei] offers is the pid with
    a hyphen where the pid has a colon and the character of the pid
    everywhere else, followed by [_tei.xml]. *)
Theorem download_file_names (download : bool) (label pid : string) :
  Views.pdf_headers download None = Views.Raises Views.Http404 /\
  (exists name,
     Views.pdf_headers download (Some label) =
       Views.Returns ((if download then "attachment; " else EmptyString)
                      +:+ "filename=" +:+ dquote +:+ name +:+ ".pdf" +:+ dquote) /\
     list_ascii_of_string name
     = map (fun x => if Ascii.eqb x " "%char then "-"%char else x)
         (list_ascii_of_string label) /\
     Py.contains " " name = false /\
     String.length name = String.length label) /\
  (exists name,
     Views.tei_headers pid = "filename=" +:+ dquote +:+ name +:+ "_tei.xml" +:+ dquote /\
     list_ascii_of_string name
     = map (fun x => if Ascii.eqb x ":"%char then "-"%char else x)
         (list_ascii_of_string pid) /\
     Py.contains ":" name = false /\
     String.length name = String.length pid).
Proof.
  split; [reflexivity|]. split.
  - exists (Py.replace " " "-" label). split; [reflexivity|].
    split; [apply replace_char_map|]. apply replace_char. discriminate.
  - exists (Py.replace ":" "-" pid). split; [reflexivity|].
    split; [apply replace_char_map|]. apply replace_char. discriminate.
Qed.

(** ** The further properties on sample documents *)

Lemma zone_stays_when_conversion_fails_witness :
  exists st' zone,
    Sample.insert_note Sample.start_state [0%nat]
      (Sample.image_annotation "2" "page-7" "25%" "10%" "50%" "20%" "FAIL")
    = Raised ConversionError st' /\
    get (vol_facsimile (st_vol st')) [0%nat]
      = Some (set_children (el_children Sample.words_page ++ [zone]) Sample.words_page) /\
    vol_annotations (st_vol st') = [].
Proof.
  destruct (zone_stays_when_conversion_fails Sample.xpath Sample.py_float Sample.convert
              Sample.load_xmlobject_from_string Sample.absolutize_url Sample.slugify
              Sample.page_id_by_xlink Sample.start_state [0%nat]
              (Sample.image_annotation "2" "page-7" "25%" "10%" "50%" "20%" "FAIL")
              (MkImageSelection "25%" "10%" "50%" "20%") Sample.words_page
              (Zone "image-annotation-highlight" (25 / 100 * (1000 - 0))
                 (10 / 100 * (1500 - 0))
                 (25 / 100 * (1000 - 0) + 50 / 100 * (1000 - 0))
                 (10 / 100 * (1500 - 0) + 20 / 100 * (1500 - 0)) "highlight-2"))
    as (st' & H1 & H2 & H3 & _); try reflexivity.
  exists st'. eexists. split; [exact H1|]. split; [exact H2 | exact H3].
Defined.

Lemma malformed_region_raises_witness :
  Sample.insert_note Sample.start_state [0%nat]
    (Sample.image_annotation "2" "page-7" "wide" "10%" "50%" "20%" "a comment")
  = Raised ValueError Sample.start_state.
Proof.
  destruct (malformed_region_raises Sample.xpath Sample.py_float Sample.convert
              Sample.load_xmlobject_from_string Sample.absolutize_url Sample.slugify
              Sample.page_id_by_xlink Sample.start_state [0%nat]
              (Sample.image_annotation "2" "page-7" "wide" "10%" "50%" "20%" "a comment")
              (MkImageSelection "wide" "10%" "50%" "20%") Sample.words_page)
    as [_ H]; [reflexivity | reflexivity | reflexivity |].
  apply H; try (eexists; reflexivity). left. reflexivity.
Defined.

Lemma insert_note_appends_one_note_witness :
  let out := Sample.insert_note Sample.start_state [0%nat] (Sample.in_word 3 7) in
  vol_header (st_vol (final_state out)) = vol_header Sample.book.
Proof.
  intros out.
  destruct (insert_note_appends_one_note Sample.xpath Sample.py_float Sample.convert
              Sample.load_xmlobject_from_string Sample.absolutize_url Sample.slugify
              Sample.page_id_by_xlink Sample.start_state [0%nat] (Sample.in_word 3 7)
              (final_state out) [MkIns [0; 0]%nat 0; MkIns [0; 0]%nat 0])
    as [H _]; [vm_compute; reflexivity | exact H].
Defined.

Lemma image_note_refers_to_zone_witness :
  let out := Sample.insert_note Sample.start_state [0%nat]
               (Sample.image_annotation "2" "page-7" "25%" "10%" "50%" "20%" "a comment") in
  exists zone n,
    get (vol_facsimile (st_vol (final_state out))) [0%nat]
      = Some (set_children (el_children Sample.words_page ++ [zone]) Sample.words_page) /\
    attr_str "xml:id" zone = Some "highlight-2" /\
    last (vol_annotations (st_vol (final_state out))) = Some n /\
    note_target n = Some "#highlight-2".
Proof.
  intros out.
  destruct (image_note_refers_to_zone Sample.xpath Sample.py_float Sample.convert
              Sample.load_xmlobject_from_string Sample.absolutize_url Sample.slugify
              Sample.page_id_by_xlink Sample.start_state [0%nat]
              (Sample.image_annotation "2" "page-7" "25%" "10%" "50%" "20%" "a comment")
              Sample.words_page (final_state out) [])
    as (zone & n & H1 & _ & _ & H4 & H5 & H6 & _);
    [reflexivity | reflexivity | vm_compute; reflexivity |].
  exists zone, n. repeat split; assumption.
Defined.

Lemma text_note_refers_to_anchors_witness :
  let out := Sample.insert_note Sample.start_state [0%nat] (Sample.in_word 3 7) in
  let doc' := vol_facsimile (st_vol (final_state out)) in
  start_token (start_anchor (Sample.in_word 3 7)) ∈ tokens doc' /\
  start_token (end_anchor (Sample.in_word 3 7)) ∈ tokens doc' /\
  length (tokens doc') = (length (tokens (vol_facsimile Sample.book)) + 2)%nat.
Proof.
  intros out doc'.
  destruct (text_note_refers_to_anchors Sample.xpath Sample.py_float Sample.convert
              Sample.load_xmlobject_from_string Sample.absolutize_url Sample.slugify
              Sample.page_id_by_xlink Sample.start_state [0%nat] (Sample.in_word 3 7)
              (MkRange "w" 3 "w" 7)
              (final_state out) [MkIns [0; 0]%nat 0; MkIns [0; 0]%nat 0])
    as (H1 & H2 & H3 & _);
    [reflexivity | vm_compute; reflexivity | discriminate |].
  repeat split; assumption.
Defined.

Lemma ana_has_one_reference_per_slug_witness :
  exists n refs,
    annotation_to_tei Sample.convert Sample.load_xmlobject_from_string
      Sample.absolutize_url Sample.slugify Sample.page_id_by_xlink
      (Sample.text_annotation "1" "page-7" "w" "w" 3 7 (Some ["History"; " history"]))
      Sample.book = Ok n /\
    note_ana n = Some (Py.join " " refs) /\
    NoDup refs /\
    "#history" ∈ refs.
Proof.
  eexists.
  pose proof (ana_has_one_reference_per_slug Sample.convert
                Sample.load_xmlobject_from_string Sample.absolutize_url Sample.slugify
                Sample.page_id_by_xlink
                (Sample.text_annotation "1" "page-7" "w" "w" 3 7
                   (Some ["History"; " history"]))
                Sample.book _ eq_refl) as (refs & H1 & H2 & H3).
  exists refs. split; [reflexivity|]. split; [exact H1|]. split; [exact H2|].
  apply H3. exists "History". split; [apply elem_of_cons; now left | reflexivity].
Defined.

Lemma placed_notes_have_an_ark_witness :
  let out := Sample.annotated_tei Sample.book [Sample.direct; Sample.in_word 3 7] [] in
  exists new,
    vol_annotations (st_vol (final_state out)) = vol_annotations Sample.book ++ new /\
    Forall (note_of [Sample.direct; Sample.in_word 3 7]) new.
Proof.
  intros out.
  apply (placed_notes_have_an_ark Sample.xpath Sample.py_float Sample.convert
           Sample.load_xmlobject_from_string Sample.absolutize_url Sample.slugify
           Sample.page_id_by_xlink Sample.page_list "1.0" "2016-01-01"
           Sample.book [Sample.direct; Sample.in_word 3 7] []
           (final_state out) (st_vol (final_state out))).
  vm_compute. reflexivity.
Defined.

(** In that run only the annotation with an ark has its note. *)
Example only_the_ark_annotation_is_placed :
  exists st vol,
    Sample.annotated_tei Sample.book [Sample.direct; Sample.in_word 3 7] [] = Done st vol /\
    map note_id (vol_annotations vol) = ["annotation-1"].
Proof. eexists _, _. split; [vm_compute; reflexivity | reflexivity]. Qed.

Lemma vocabulary_entries_are_tags_witness :
  let annotations :=
    [Sample.text_annotation "1" "page-7" "w" "w" 3 7 (Some ["History"; "history"])] in
  let out := Sample.annotated_tei Sample.book annotations [] in
  exists new,
    (new <> [] ->
     vol_tags (st_vol (final_state out)) = Some (default [] (vol_tags Sample.book) ++ new)) /\
    NoDup (interp_value <$> new).
Proof.
  intros annotations out.
  destruct (vocabulary_entries_are_tags Sample.xpath Sample.py_float Sample.convert
              Sample.load_xmlobject_from_string Sample.absolutize_url Sample.slugify
              Sample.page_id_by_xlink Sample.page_list "1.0" "2016-01-01"
              Sample.book annotations [] (final_state out) (st_vol (final_state out)))
    as (new & _ & H2 & H3 & _); [vm_compute; reflexivity|].
  exists new. split; assumption.
Defined.

Lemma no_tags_no_vocabulary_witness :
  vol_tags (st_vol (final_state
    (Sample.annotated_tei Sample.book [Sample.in_word 3 7] []))) = vol_tags Sample.book.
Proof.
  apply (no_tags_no_vocabulary Sample.xpath Sample.py_float Sample.convert
           Sample.load_xmlobject_from_string Sample.absolutize_url Sample.slugify
           Sample.page_id_by_xlink Sample.page_list "1.0" "2016-01-01"
           Sample.book [Sample.in_word 3 7] []
           (final_state (Sample.annotated_tei Sample.book [Sample.in_word 3 7] []))).
  - intros a Ha. apply list_elem_of_singleton in Ha. subst a. left. reflexivity.
  - vm_compute. reflexivity.
Defined.

Lemma nothing_selected_nothing_placed_witness :
  exists v,
    Sample.annotated_tei Sample.book [Sample.direct; Sample.related] []
    = Done (MkState v []) v /\
    vol_facsimile v = vol_facsimile Sample.book /\
    vol_annotations v = vol_annotations Sample.book /\
    vol_tags v = vol_tags Sample.book.
Proof.
  apply (nothing_selected_nothing_placed Sample.xpath Sample.py_float Sample.convert
           Sample.load_xmlobject_from_string Sample.absolutize_url Sample.slugify
           Sample.page_id_by_xlink Sample.page_list "1.0" "2016-01-01"
           Sample.book [Sample.direct; Sample.related] []).
  intros page0 k a Hp Hk Ha Hq.
  apply list_elem_of_singleton in Hp. subst page0.
  vm_compute in Hk. inversion Hk; subst k.
  apply elem_of_cons in Ha as [->|Ha]; [discriminate|].
  apply list_elem_of_singleton in Ha. subst a. discriminate.
Defined.

Lemma missing_image_response_witness :
  Views.page_image (fun _ => Some "PNG") (Views.Returns false)
    (fun _ => Views.Returns "JPEG") "CHUNKS" "text/html; charset=utf-8"
    (Views.Returns None) "GET" (Some "fullsize")
  = Views.Raises Views.Http404.
Proof.
  destruct (missing_image_response (fun _ => Some "PNG") (Views.Returns false)
              (fun _ => Views.Returns "JPEG") "CHUNKS" "text/html; charset=utf-8"
              (Views.Returns None) "GET" (Some "fullsize"))
    as [_ H]; [left; reflexivity | reflexivity | reflexivity |].
  apply H. reflexivity.
Defined.

Lemma repository_failure_response_witness :
  Views.page_image (fun _ => Some "PNG") (Views.Raises (Views.RequestFailed 500))
    (fun _ => Views.Returns "JPEG") "CHUNKS" "text/html; charset=utf-8"
    (Views.Returns None) "GET" (Some "thumbnail")
  = Views.Returns (Views.MkResponse 500 "PNG" "image/png").
Proof.
  destruct (repository_failure_response (fun _ => Some "PNG")
              (Views.Raises (Views.RequestFailed 500))
              (fun _ => Views.Returns "JPEG") "CHUNKS" "text/html; charset=utf-8"
              (Views.Returns None) "GET" (Some "thumbnail") 500)
    as [H _]; [left; reflexivity | reflexivity | reflexivity |].
  apply (H "notfound_thumbnail.png"); reflexivity.
Defined.

Lemma head_and_unknown_mode_witness :
  Views.page_image (fun _ => Some "PNG") (Views.Returns true)
    (fun _ => Views.Returns "JPEG") "CHUNKS" "text/html; charset=utf-8"
    (Views.Returns None) "HEAD" None
  = Views.Returns (Views.MkResponse 200 EmptyString "image/jpeg") /\
  Views.page_image (fun _ => Some "PNG") (Views.Returns true)
    (fun _ => Views.Returns "JPEG") "CHUNKS" "text/html; charset=utf-8"
    (Views.Returns None) "GET" None
  = Views.Raises Views.UnboundLocal.
Proof.
  destruct (head_and_unknown_mode (fun _ => Some "PNG") (Views.Returns true)
              (fun _ => Views.Returns "JPEG") "CHUNKS" "text/html; charset=utf-8"
              (Views.Returns None) None)
    as [H1 H2]; [reflexivity | reflexivity |].
  split; [exact H1|]. apply H2. intros m Hm. discriminate Hm.
Defined.

Lemma decorators_answer_first_witness :
  Views.page_image (fun _ => Some "PNG") (Views.Returns true)
    (fun _ => Views.Returns "JPEG") "CHUNKS" "text/html; charset=utf-8"
    (Views.Returns None) "POST" (Some "thumbnail")
  = Views.Returns (Views.MkResponse 405 EmptyString "text/html; charset=utf-8").
Proof.
  destruct (decorators_answer_first (fun _ => Some "PNG") (Views.Returns true)
              (fun _ => Views.Returns "JPEG") "CHUNKS" "text/html; charset=utf-8"
              (Views.Returns None) "POST" (Some "thumbnail"))
    as [H _].
  apply H; discriminate.
Defined.
